(** * DEIMOS oscillation calculator wrapper: a shallow embedding

    This development embeds the calculation-orchestration layer of
    [deimos/wrapper/osc_calculator.py] (class [OscCalculator]) and states
    properties of it.  Python floats are IEEE-754 binary64 values, modelled
    by Rocq's primitive floats; Python dictionaries are finite maps with
    string keys; a method of the calculator is a computation in a state and
    exception monad over the calculator object, so that the state a method
    leaves behind when it raises is part of the model. *)

From Stdlib Require Import ZArith List Bool Lia Sorted.
From Stdlib Require Import Floats.
From stdpp Require Import base strings pretty gmap.

Import ListNotations.
Local Open Scope Z_scope.
Local Open Scope string_scope.
Local Open Scope list_scope.

(** ** Python floats *)

Module PyFloat.

Local Open Scope float_scope.

(** The comparison operators of Python on floats. *)
Definition lt (x y : float) : bool := x <? y.
Definition le (x y : float) : bool := x <=? y.
Definition gt (x y : float) : bool := y <? x.
Definition ge (x y : float) : bool := y <=? x.
Definition eq (x y : float) : bool := x =? y.

(** [np.square] on a float. *)
Definition square (x : float) : float := x * x.

(** [np.isfinite] on a float. *)
Definition isfinite (x : float) : bool := is_finite x.

End PyFloat.

(** ** Exceptions and results *)

Inductive exn : Type :=
| AssertionError (msg : option string)
| Exception (msg : string)
| TypeError (msg : string)
| KeyError (key : string)
| IndexError (msg : string)
| AttributeError (msg : string)
| ValueError (msg : string).

Inductive result (A : Type) : Type :=
| Ok (a : A)
| Raise (e : exn).
Arguments Ok {A} a.
Arguments Raise {A} e.

(** ** Python values held in keyword arguments and settings dictionaries

    Arrays are one-dimensional [np.ndarray]s of floats; arrays of another
    number of dimensions are outside the model, also where a method does
    not test the number of dimensions of what it is given. *)

Inductive pyval : Type :=
| VNone
| VStr (s : string)
| VFloat (x : float)
| VList (xs : list float)
| VArray (xs : list float).

Record complex : Type := Complex { re : float; im : float }.

(** A two-dimensional array, as rows. *)
Definition matrix : Type := list (list complex).

(** The probability tensor, indexed [energy][distance][flavor]. *)
Definition tensor : Type := list (list (list float)).

(** An n-dimensional float array: shape and row-major data. *)
Record ndarray : Type := NdArray { nd_shape : list nat; nd_data : list float }.

(** ** The nuSQuIDS object

    nuSQuIDS is an external library.  The object held in [self.nusquids]
    is modelled by the sequence of the method calls made on it, oldest
    first; what its evaluation methods return is a function of that
    history, supplied by [Externals] below. *)

Inductive nsq_body : Type :=
| Vacuum
| ConstantDensity (density efrac : pyval)
| VariableDensity (radius density efrac : pyval)
| EarthAtm.

Inductive nsq_track : Type :=
| VacuumTrack (x : float)
| ConstantDensityTrack (x : float).

Inductive nsq_call : Type :=
| Set_Body (b : nsq_body)
| Set_EarthModel (b : nsq_body)
| Set_Track (t : nsq_track)
| Set_initial_state (st : ndarray)
| EvolveState
| Set_CPPhase (i j : nat) (v : float)
| Set_MixingAngle (i j : nat) (v : float)
| Set_SquareMassDifference (i : nat) (v : float)
| Set_DecoherenceGammaMatrix (m : list (list float))
| Set_DecoherenceGammaEnergyDependence (n : float)
| Set_DecoherenceGammaEnergyScale (E0 : float)
| Set_rel_error (e : float)
| Set_abs_error (e : float)
| Set_ProgressBar (b : bool).

(** ** The prob3 propagator, likewise a history of calls *)

Inductive prob3_call : Type :=
| SetMNS (s12 s13 s23 dm21 dm32 deltacp energy : float) (kSquared : bool) (kNuType : Z)
| propagateLinear (kNuType : Z) (distance : float) (density : pyval).

(** ** The density-matrix solver *)

Definition potential : Type := list (list float).

(** Modelled from the spec: [DensityMatrixOscSolver] lives in
    [deimos/density_matrix_osc_solver], outside the embedded sources.  The
    spec (section 4.1) says that the adapter holds the parameters it was
    given and that getters return the previously set values; the solver is
    a record of the values its setters stored. *)
Record DensityMatrixOscSolver : Type := Solver {
  num_states : nat;
  theta_rad : pyval;
  solver_deltacp : pyval;
  mass_splittings_eV2 : pyval;
  matter_potential : option potential
}.

Definition solver_set_matter_potential (V : option potential)
    (s : DensityMatrixOscSolver) : DensityMatrixOscSolver :=
  {| num_states := num_states s; theta_rad := theta_rad s;
     solver_deltacp := solver_deltacp s;
     mass_splittings_eV2 := mass_splittings_eV2 s;
     matter_potential := V |}.

Definition solver_set_mixing_angles (theta : list float) (deltacp : float)
    (s : DensityMatrixOscSolver) : DensityMatrixOscSolver :=
  {| num_states := num_states s; theta_rad := VArray theta;
     solver_deltacp := VFloat deltacp;
     mass_splittings_eV2 := mass_splittings_eV2 s;
     matter_potential := matter_potential s |}.

Definition solver_set_mass_splittings (dm2 : list float)
    (s : DensityMatrixOscSolver) : DensityMatrixOscSolver :=
  {| num_states := num_states s; theta_rad := theta_rad s;
     solver_deltacp := solver_deltacp s;
     mass_splittings_eV2 := VArray dm2;
     matter_potential := matter_potential s |}.

Definition solver_get_mass_splittings (s : DensityMatrixOscSolver) : pyval :=
  mass_splittings_eV2 s.

(** The keyword dictionary [_decoh_model_kw] of the deimos backend. *)
Record decoh_kw : Type := DecohKw {
  D_matrix0_eV : matrix;
  decoh_n : float;
  decoh_E0_eV : float;
  D_matrix_basis : string
}.

(** ** The calculator object *)

Inductive tool_t : Type := nusquids_tool | deimos_tool | prob3_tool.

Definition tool_name (t : tool_t) : string :=
  match t with
  | nusquids_tool => "nusquids"
  | deimos_tool => "deimos"
  | prob3_tool => "prob3"
  end.

Record OscCalculator : Type := Calc {
  tool : tool_t;
  atmospheric : bool;
  flavors : list string;
  num_neutrinos : nat;
  _matter_settings : gmap string pyval;
  nusquids : list nsq_call;
  _nusquids_variant : option string;
  solver : DensityMatrixOscSolver;
  _calc_basis : pyval;
  _decoh_model_kw : option decoh_kw;
  _lightcone_model_kw : option (gmap string pyval);
  _sme_model_kw : option (gmap string pyval);
  _prob3_settings : gmap string pyval;
  _propagator : list prob3_call;
  detector_depth_m : option float;
  stdout : list string
}.

Definition with_matter_settings (m : gmap string pyval) (c : OscCalculator) :=
  {| tool := tool c; atmospheric := atmospheric c; flavors := flavors c;
     num_neutrinos := num_neutrinos c; _matter_settings := m;
     nusquids := nusquids c; _nusquids_variant := _nusquids_variant c;
     solver := solver c; _calc_basis := _calc_basis c;
     _decoh_model_kw := _decoh_model_kw c;
     _lightcone_model_kw := _lightcone_model_kw c;
     _sme_model_kw := _sme_model_kw c;
     _prob3_settings := _prob3_settings c; _propagator := _propagator c;
     detector_depth_m := detector_depth_m c; stdout := stdout c |}.

Definition with_nusquids (h : list nsq_call) (c : OscCalculator) :=
  {| tool := tool c; atmospheric := atmospheric c; flavors := flavors c;
     num_neutrinos := num_neutrinos c; _matter_settings := _matter_settings c;
     nusquids := h; _nusquids_variant := _nusquids_variant c;
     solver := solver c; _calc_basis := _calc_basis c;
     _decoh_model_kw := _decoh_model_kw c;
     _lightcone_model_kw := _lightcone_model_kw c;
     _sme_model_kw := _sme_model_kw c;
     _prob3_settings := _prob3_settings c; _propagator := _propagator c;
     detector_depth_m := detector_depth_m c; stdout := stdout c |}.

Definition with_solver (s : DensityMatrixOscSolver) (c : OscCalculator) :=
  {| tool := tool c; atmospheric := atmospheric c; flavors := flavors c;
     num_neutrinos := num_neutrinos c; _matter_settings := _matter_settings c;
     nusquids := nusquids c; _nusquids_variant := _nusquids_variant c;
     solver := s; _calc_basis := _calc_basis c;
     _decoh_model_kw := _decoh_model_kw c;
     _lightcone_model_kw := _lightcone_model_kw c;
     _sme_model_kw := _sme_model_kw c;
     _prob3_settings := _prob3_settings c; _propagator := _propagator c;
     detector_depth_m := detector_depth_m c; stdout := stdout c |}.

Definition with_calc_basis (b : pyval) (c : OscCalculator) :=
  {| tool := tool c; atmospheric := atmospheric c; flavors := flavors c;
     num_neutrinos := num_neutrinos c; _matter_settings := _matter_settings c;
     nusquids := nusquids c; _nusquids_variant := _nusquids_variant c;
     solver := solver c; _calc_basis := b;
     _decoh_model_kw := _decoh_model_kw c;
     _lightcone_model_kw := _lightcone_model_kw c;
     _sme_model_kw := _sme_model_kw c;
     _prob3_settings := _prob3_settings c; _propagator := _propagator c;
     detector_depth_m := detector_depth_m c; stdout := stdout c |}.

Definition with_decoh_model_kw (k : option decoh_kw) (c : OscCalculator) :=
  {| tool := tool c; atmospheric := atmospheric c; flavors := flavors c;
     num_neutrinos := num_neutrinos c; _matter_settings := _matter_settings c;
     nusquids := nusquids c; _nusquids_variant := _nusquids_variant c;
     solver := solver c; _calc_basis := _calc_basis c;
     _decoh_model_kw := k;
     _lightcone_model_kw := _lightcone_model_kw c;
     _sme_model_kw := _sme_model_kw c;
     _prob3_settings := _prob3_settings c; _propagator := _propagator c;
     detector_depth_m := detector_depth_m c; stdout := stdout c |}.

Definition with_prob3_settings (m : gmap string pyval) (c : OscCalculator) :=
  {| tool := tool c; atmospheric := atmospheric c; flavors := flavors c;
     num_neutrinos := num_neutrinos c; _matter_settings := _matter_settings c;
     nusquids := nusquids c; _nusquids_variant := _nusquids_variant c;
     solver := solver c; _calc_basis := _calc_basis c;
     _decoh_model_kw := _decoh_model_kw c;
     _lightcone_model_kw := _lightcone_model_kw c;
     _sme_model_kw := _sme_model_kw c;
     _prob3_settings := m; _propagator := _propagator c;
     detector_depth_m := detector_depth_m c; stdout := stdout c |}.

Definition with_propagator (h : list prob3_call) (c : OscCalculator) :=
  {| tool := tool c; atmospheric := atmospheric c; flavors := flavors c;
     num_neutrinos := num_neutrinos c; _matter_settings := _matter_settings c;
     nusquids := nusquids c; _nusquids_variant := _nusquids_variant c;
     solver := solver c; _calc_basis := _calc_basis c;
     _decoh_model_kw := _decoh_model_kw c;
     _lightcone_model_kw := _lightcone_model_kw c;
     _sme_model_kw := _sme_model_kw c;
     _prob3_settings := _prob3_settings c; _propagator := h;
     detector_depth_m := detector_depth_m c; stdout := stdout c |}.

Definition with_stdout (o : list string) (c : OscCalculator) :=
  {| tool := tool c; atmospheric := atmospheric c; flavors := flavors c;
     num_neutrinos := num_neutrinos c; _matter_settings := _matter_settings c;
     nusquids := nusquids c; _nusquids_variant := _nusquids_variant c;
     solver := solver c; _calc_basis := _calc_basis c;
     _decoh_model_kw := _decoh_model_kw c;
     _lightcone_model_kw := _lightcone_model_kw c;
     _sme_model_kw := _sme_model_kw c;
     _prob3_settings := _prob3_settings c; _propagator := _propagator c;
     detector_depth_m := detector_depth_m c; stdout := o |}.

(** ** The method monad: state of the calculator, and exceptions

    A raised exception keeps the state reached so far, as in Python. *)

Definition M (A : Type) : Type := OscCalculator -> result A * OscCalculator.

Definition ret {A} (a : A) : M A := fun c => (Ok a, c).

Definition bind {A B} (m : M A) (f : A -> M B) : M B :=
  fun c => match m c with
           | (Ok a, c') => f a c'
           | (Raise e, c') => (Raise e, c')
           end.

Definition raise {A} (e : exn) : M A := fun c => (Raise e, c).

Definition gets {A} (f : OscCalculator -> A) : M A := fun c => (Ok (f c), c).

Definition modify (f : OscCalculator -> OscCalculator) : M unit :=
  fun c => (Ok tt, f c).

Declare Scope py_scope.
Delimit Scope py_scope with py.
Notation "x <- m ;; k" := (bind m (fun x => k))
  (at level 100, m at next level, right associativity) : py_scope.
Notation "m ;;; k" := (bind m (fun _ => k))
  (at level 100, right associativity) : py_scope.
Local Open Scope py_scope.

(** [assert cond, msg] *)
Definition assert_ (cond : bool) (msg : option string) : M unit :=
  if cond then ret tt else raise (AssertionError msg).

(** Lifting of a pure, possibly failing computation. *)
Definition lift {A} (r : result A) : M A := fun c => (r, c).

(** [print(line)] *)
Definition print (line : string) : M unit :=
  modify (fun c => with_stdout (stdout c ++ [line]) c).

(** [d[key]] on a dictionary. *)
Definition getitem (d : gmap string pyval) (key : string) : result pyval :=
  match d !! key with
  | Some v => Ok v
  | None => Raise (KeyError key)
  end.

(** [key in d] *)
Definition contains (d : gmap string pyval) (key : string) : bool :=
  bool_decide (is_Some (d !! key)).

(** ** The decoherence D matrix *)

Module DMatrix.

Local Open Scope float_scope.
Local Open Scope nat_scope.

(** [D.shape == (rows, cols)] *)
Definition shape_is (D : matrix) (rows cols : nat) : bool :=
  (length D =? rows) && forallb (fun r => length r =? cols) D.

(** [D[i,j]], an [IndexError] outside the array. *)
Definition getitem2 (D : matrix) (i j : nat) : result complex :=
  match D !! i with
  | Some row =>
      match row !! j with
      | Some z => Ok z
      | None => Raise (IndexError "index is out of bounds for axis 1")
      end
  | None => Raise (IndexError "index is out of bounds for axis 0")
  end.

(** [np.all( D.imag == 0. )] *)
Definition all_real (D : matrix) : bool :=
  forallb (forallb (fun z => PyFloat.eq (im z) 0%float)) D.

(** [np.all( D >= 0. )].  The comparison is made after [all_real], when
    every imaginary part is zero, so it is the comparison of the real
    parts. *)
Definition all_nonneg (D : matrix) : bool :=
  forallb (forallb (fun z => PyFloat.ge (re z) 0%float)) D.

(** [np.zeros((n,n))] *)
Definition zeros (n : nat) : matrix :=
  repeat (repeat (Complex 0%float 0%float) n) n.

(** The [n] by [n] matrix of zeros with the value [v] at [D[k,k]]. *)
Definition single_diagonal (n k : nat) (v : float) : matrix :=
  map (fun i => map (fun j => if (i =? k) && (j =? k)
                               then Complex v 0%float
                               else Complex 0%float 0%float) (seq 0 n))
      (seq 0 n).

(** The [n] by [n] matrix of zeros with the value [v] at [D[i,j]] and at
    [D[j,i]]. *)
Definition symmetric_pair (n i j : nat) (v : float) : matrix :=
  map (fun r => map (fun col => if ((r =? i) && (col =? j))
                                   || ((r =? j) && (col =? i))
                                then Complex v 0%float
                                else Complex 0%float 0%float) (seq 0 n))
      (seq 0 n).

End DMatrix.

Section Validator.

Import DMatrix.
Local Open Scope float_scope.

(** [D[i,j]] read as a real number: the inequalities of the validator
    are evaluated after the reality check, on the real parts. *)
Definition D_at (D : matrix) (i j : nat) : M float :=
  z <- lift (getitem2 D i j) ;; ret (re z).

(** [bij = D[i,j]; assert D[j,i] == bij] *)
Definition beta (D : matrix) (i j : nat) : M float :=
  bij <- D_at D i j ;;
  bji <- D_at D j i ;;
  assert_ (PyFloat.eq bji bij) None ;;;
  ret bij.

Definition check_decoherence_D_matrix (D : matrix) : M unit :=
  n <- gets num_neutrinos ;;
  if (n =? 3)%nat then
    assert_ (shape_is D 9 9) None ;;;
    (* Check everything is real *)
    assert_ (all_real D) None ;;;
    (* Check everything is positive or zero *)
    assert_ (all_nonneg D) None ;;;
    (* Extract diagonal elements (gamma) *)
    g1 <- D_at D 1 1 ;;
    g2 <- D_at D 2 2 ;;
    g3 <- D_at D 3 3 ;;
    g4 <- D_at D 4 4 ;;
    g5 <- D_at D 5 5 ;;
    g6 <- D_at D 6 6 ;;
    g7 <- D_at D 7 7 ;;
    g8 <- D_at D 8 8 ;;
    (* Extract off-diagonal elements (beta) *)
    b12 <- beta D 1 2 ;;
    b13 <- beta D 1 3 ;;
    b14 <- beta D 1 4 ;;
    b15 <- beta D 1 5 ;;
    b16 <- beta D 1 6 ;;
    b17 <- beta D 1 7 ;;
    b18 <- beta D 1 8 ;;
    b23 <- beta D 2 3 ;;
    b24 <- beta D 2 4 ;;
    b25 <- beta D 2 5 ;;
    b26 <- beta D 2 6 ;;
    b27 <- beta D 2 7 ;;
    b28 <- beta D 2 8 ;;
    b34 <- beta D 3 4 ;;
    b35 <- beta D 3 5 ;;
    b36 <- beta D 3 6 ;;
    b37 <- beta D 3 7 ;;
    b38 <- beta D 3 8 ;;
    b45 <- beta D 4 5 ;;
    b46 <- beta D 4 6 ;;
    b47 <- beta D 4 7 ;;
    b48 <- beta D 4 8 ;;
    b56 <- beta D 5 6 ;;
    b57 <- beta D 5 7 ;;
    b58 <- beta D 5 8 ;;
    b67 <- beta D 6 7 ;;
    b68 <- beta D 6 8 ;;
    b78 <- beta D 7 8 ;;
    (* Now implement all inequalities *)
    let a1 := - g1 + g2 + g3 - (g8 / 3) in
    let a2 := g1 - g2 + g3 - (g8 / 3) in
    let a3 := g1 + g2 - g3 - (g8 / 3) in
    let a4 := - g4 + g5 + g3 + (2 * g8 / 3) - (2 * b38 / sqrt 3) in
    let a5 := g4 - g5 + g3 + (2 * g8 / 3) - (2 * b38 / sqrt 3) in
    let a6 := - g6 + g7 + g3 + (2 * g8 / 3) + (2 * b38 / sqrt 3) in
    let a7 := g6 - g7 + g3 + (2 * g8 / 3) + (2 * b38 / sqrt 3) in
    let a8 := - (g1 / 3) - (g2 / 3) - (g3 / 3) + (2 * g4 / 3)
              + (2 * g5 / 3) + (2 * g6 / 3) + (2 * g7 / 3) - g8 in
    assert_ (PyFloat.ge a1 0) (Some "Inequality failure (a1)") ;;;
    assert_ (PyFloat.ge a2 0) (Some "Inequality failure (a2)") ;;;
    assert_ (PyFloat.ge a3 0) (Some "Inequality failure (a3)") ;;;
    assert_ (PyFloat.ge a4 0) (Some "Inequality failure (a4)") ;;;
    assert_ (PyFloat.ge a5 0) (Some "Inequality failure (a5)") ;;;
    assert_ (PyFloat.ge a6 0) (Some "Inequality failure (a1)") ;;;
    assert_ (PyFloat.ge a7 0) (Some "Inequality failure (a7)") ;;;
    assert_ (PyFloat.ge a8 0) (Some "Inequality failure (a8)") ;;;
    assert_ (PyFloat.le (4 * PyFloat.square b12)
               (PyFloat.square (g3 - (g8 / 3)) - PyFloat.square (g1 - g2)))
            None ;;;
    assert_ (PyFloat.le (4 * PyFloat.square b13)
               (PyFloat.square (g2 - (g8 / 3)) - PyFloat.square (g1 - g3)))
            None ;;;
    assert_ (PyFloat.le (4 * PyFloat.square b23)
               (PyFloat.square (g1 - (g8 / 3)) - PyFloat.square (g2 - g3)))
            None ;;;
    assert_ (PyFloat.le
               (PyFloat.square (4 * PyFloat.square b38 + (g4 / sqrt 3)
                                + (g5 / sqrt 3) - (g6 / sqrt 3)
                                - (g7 / sqrt 3)))
               (a3 * a8))
            None
  else
    print ("Checks on decoherence D matrix inequalities not yet implemented for a "
           ++ pretty n ++ " neutrino system").

End Validator.

(** ** External collaborators

    The numerical engines and the constants of [deimos.utils.constants]
    are outside the embedded sources.  What they return is taken as a
    parameter: the evaluation methods of nuSQuIDS and prob3 are functions
    of the call history of their object, the density-matrix solver is a
    function of the solver object and of its request. *)

Record solver_request : Type := SolverRequest {
  req_E_GeV : list float;
  req_L_km : list float;
  req_initial_state : Z;
  req_initial_basis : string;
  req_nubar : bool;
  req_calc_basis : pyval;
  req_decoh_opts : option decoh_kw;
  req_lightcone_opts : option (gmap string pyval);
  req_sme_opts : option (gmap string pyval)
}.

Record Externals : Type := {
  (* whether the optional packages could be imported *)
  NUSQUIDS_AVAIL : bool;
  NUSQUIDS_DECOH_AVAIL : bool;
  NUSQUIDS_LIV_AVAIL : bool;
  PROB3_AVAIL : bool;
  (* nsq.Const() *)
  units_GeV : float;
  units_eV : float;
  units_km : float;
  GetNumE : list nsq_call -> nat;
  GetNumCos : list nsq_call -> nat;
  (* EvalFlavor(flavor, E, rho) *)
  EvalFlavor : list nsq_call -> Z -> float -> Z -> float;
  (* EvalFlavor(flavor, cz, E, rho, randomize_height), atmospheric object *)
  EvalFlavorAtm : list nsq_call -> Z -> float -> float -> Z -> bool -> float;
  Get_SquareMassDifference : list nsq_call -> nat -> float;
  (* deimos *)
  FLAVORS : list string;
  MASS_SPLITTINGS_eV2 : list float;
  MIXING_ANGLES_rad : list float;
  DELTACP_rad : float;
  DEFAULT_ATMO_PROD_HEIGHT_km : float;
  DEFAULT_ATMO_DETECTOR_DEPTH_km : float;
  get_matter_potential_flav : list string -> pyval -> pyval -> potential;
  calc_osc_probs : DensityMatrixOscSolver -> solver_request -> tensor;
  calc_path_length_from_coszen : list float -> float -> float -> list float;
  (* numpy and prob3 *)
  np_sin : float -> float;
  GetVacuumProb : list prob3_call -> Z -> Z -> float -> float -> float;
  GetProb : list prob3_call -> Z -> Z -> float
}.

Definition str_or_none (m : option string) : pyval :=
  match m with Some s => VStr s | None => VNone end.

Definition float_or_none (m : option float) : pyval :=
  match m with Some x => VFloat x | None => VNone end.

(** [v == s] for a string literal [s] *)
Definition is_str (v : pyval) (s : string) : bool :=
  match v with VStr s' => bool_decide (s' = s) | _ => false end.

(** [isinstance(v, np.ndarray) and (v.ndim == 1)] *)
Definition is_array1 (v : pyval) : bool :=
  match v with VArray _ => true | _ => false end.

Definition type_name (v : pyval) : string :=
  match v with
  | VNone => "NoneType"
  | VStr _ => "str"
  | VFloat _ => "float"
  | VList _ => "list"
  | VArray _ => "numpy.ndarray"
  end.

(** [v.size]: of the values of the model, the arrays have one. *)
Definition size_of (v : pyval) : result nat :=
  match v with
  | VArray xs => Ok (length xs)
  | _ => Raise (AttributeError
                  ("'" ++ type_name v ++ "' object has no attribute 'size'"))
  end.

(** [np.all( a[:-1] <= a[1:] )] on an array *)
Definition ascending (xs : list float) : bool :=
  forallb (fun p => PyFloat.le (fst p) (snd p))
          (combine (removelast xs) (tl xs)).

(** [a <= b] on Python lists: the first pair of unequal elements decides,
    otherwise the lengths do. *)
Fixpoint list_le (a b : list float) : bool :=
  match a, b with
  | [], _ => true
  | _ :: _, [] => false
  | x :: a', y :: b' =>
      if PyFloat.eq x y then list_le a' b' else PyFloat.le x y
  end.

Definition str_init (s : string) : string :=
  String.substring 0 (String.length s - 1) s.

Definition str_tail (s : string) : string :=
  String.substring 1 (String.length s - 1) s.

(** [np.all( v[:-1] <= v[1:] )] *)
Definition np_all_ascending (v : pyval) : result bool :=
  match v with
  | VArray xs => Ok (ascending xs)
  | VList xs => Ok (list_le (removelast xs) (tl xs))
  | VStr s => Ok (String.leb (str_init s) (str_tail s))
  | _ => Raise (TypeError ("'" ++ type_name v ++ "' object is not subscriptable"))
  end.

Definition nsq_do (call : nsq_call) : M unit :=
  modify (fun c => with_nusquids (nusquids c ++ [call]) c).

Definition prob3_set (key : string) (v : pyval) : M unit :=
  modify (fun c => with_prob3_settings (<[key := v]> (_prob3_settings c)) c).

Definition matter_set (key : string) (v : pyval) : M unit :=
  modify (fun c => with_matter_settings (<[key := v]> (_matter_settings c)) c).

Section Calculator.

Context (ext : Externals).

Local Open Scope float_scope.
Local Open Scope nat_scope.

(** *** [set_matter] *)

Definition set_matter (matter : option string) (kw : gmap string pyval)
    : M unit :=
  (* Re-initalise any persistent matter-related setting *)
  modify (with_matter_settings {[ "matter" := str_or_none matter ]}) ;;;
  t <- gets tool ;;
  if bool_decide (matter = Some "vacuum") || bool_decide (matter = None) then
    match t with
    | nusquids_tool => nsq_do (Set_Body Vacuum)
    | deimos_tool =>
        modify (fun c => with_solver (solver_set_matter_potential None (solver c)) c)
    | prob3_tool => prob3_set "matter" VNone
    end
  else if bool_decide (matter = Some "earth") then
    match t with
    | nusquids_tool =>
        atm <- gets atmospheric ;;
        if atm then nsq_do (Set_EarthModel EarthAtm)
        else raise (Exception "`earth` is only an option in atmospheric mode")
    | deimos_tool =>
        raise (Exception ("`" ++ tool_name t ++ "` does have an Earth model"))
    | prob3_tool => prob3_set "matter" (VStr "earth")
    end
  else if bool_decide (matter = Some "constant") then
    (* Check required kwargs present *)
    assert_ (contains kw "matter_density_g_per_cm3") None ;;;
    assert_ (contains kw "electron_fraction") None ;;;
    density <- lift (getitem kw "matter_density_g_per_cm3") ;;
    efrac <- lift (getitem kw "electron_fraction") ;;
    match t with
    | nusquids_tool => nsq_do (Set_Body (ConstantDensity density efrac))
    | deimos_tool =>
        fl <- gets flavors ;;
        let V := get_matter_potential_flav ext fl density efrac in
        modify (fun c => with_solver (solver_set_matter_potential (Some V) (solver c)) c)
    | prob3_tool =>
        prob3_set "matter" (VStr "constant") ;;;
        prob3_set "matter_density_g_per_cm3" density
    end
  else if bool_decide (matter = Some "variable") then
    assert_ (contains kw "radius_fraction_array") None ;;;
    assert_ (contains kw "matter_density_array_g_per_cm3") None ;;;
    assert_ (contains kw "electron_fraction_array") None ;;;
    match t with
    | nusquids_tool =>
        r <- lift (getitem kw "radius_fraction_array") ;;
        d <- lift (getitem kw "matter_density_array_g_per_cm3") ;;
        e <- lift (getitem kw "electron_fraction_array") ;;
        nsq_do (Set_Body (VariableDensity r d e))
    | _ =>
        raise (Exception ("`" ++ tool_name t
                          ++ "` does not have a variable density matter model implemented"))
    end
  else if bool_decide (matter = Some "layers") then
    (* Check required kwargs present *)
    assert_ (contains kw "layer_endpoint_km") None ;;;
    assert_ (contains kw "matter_density_g_per_cm3") None ;;;
    assert_ (contains kw "electron_fraction") None ;;;
    endpoint <- lift (getitem kw "layer_endpoint_km") ;;
    density <- lift (getitem kw "matter_density_g_per_cm3") ;;
    efrac <- lift (getitem kw "electron_fraction") ;;
    (* Check their format (e.g. one value per layer) *)
    assert_ (is_array1 density)
      (Some "'matter_density_g_per_cm3' should be an array of float values in 'layers' mode") ;;;
    assert_ (is_array1 efrac)
      (Some "'electron_fraction' should be an array of float values in 'layers' mode") ;;;
    n_end <- lift (size_of endpoint) ;;
    n_efrac <- lift (size_of efrac) ;;
    assert_ (n_end =? n_efrac)
      (Some "'layer_endpoint_km', 'matter_density_g_per_cm3' and 'electron_fraction' do not have the same length (should be one per layer)") ;;;
    n_end' <- lift (size_of endpoint) ;;
    n_density <- lift (size_of density) ;;
    assert_ (n_end' =? n_density)
      (Some "'layer_endpoint_km', 'matter_density_g_per_cm3' and 'electron_fraction' do not have the same length (should be one per layer)") ;;;
    (* Check layer endpoints as ascending *)
    asc <- lift (np_all_ascending endpoint) ;;
    assert_ asc (Some "'layer_endpoint_km' must be ascending") ;;;
    match t with
    | nusquids_tool =>
        (* Store the laters for use during state evolution *)
        matter_set "layer_endpoint_km" endpoint ;;;
        matter_set "matter_density_g_per_cm3" density ;;;
        matter_set "electron_fraction" efrac
    | _ =>
        (* raise NotImplemented(...) : the constant is not callable *)
        raise (TypeError "'NotImplementedType' object is not callable")
    end
  else
    raise (Exception ("Unrecognised `matter` : " ++ default "None" matter)).

(** *** Mixing angles and mass splittings *)

Definition is_none {A} (o : option A) : bool :=
  match o with None => true | Some _ => false end.

Definition not_none (xs : list (option float)) : list float :=
  omap id xs.

(** A float argument of a nuSQuIDS setter; [None] is refused by the
    binding. *)
Definition nsq_float_arg (o : option float) : M float :=
  match o with
  | Some x => ret x
  | None => raise (TypeError "incompatible function arguments")
  end.

Definition set_mixing_angles (theta12 : float) (theta13 theta23 : option float)
    (deltacp : float) : M unit :=
  n <- gets num_neutrinos ;;
  (if n =? 2 then
     assert_ (is_none theta13) None ;;;
     assert_ (is_none theta23) None
   else
     assert_ (negb (is_none theta13)) None ;;;
     assert_ (negb (is_none theta23)) None) ;;;
  t <- gets tool ;;
  match t with
  | nusquids_tool =>
      nsq_do (Set_CPPhase 0 2 deltacp) ;;;
      nsq_do (Set_MixingAngle 0 1 theta12) ;;;
      if 2 <? n then
        t13 <- nsq_float_arg theta13 ;;
        nsq_do (Set_MixingAngle 0 2 t13) ;;;
        t23 <- nsq_float_arg theta23 ;;
        nsq_do (Set_MixingAngle 1 2 t23)
      else ret tt
  | deimos_tool =>
      modify (fun c => with_solver
                (solver_set_mixing_angles
                   (not_none [Some theta12; theta13; theta23]) deltacp
                   (solver c)) c)
  | prob3_tool =>
      (* Just store for passing an propagation time to solver *)
      prob3_set "theta12" (VFloat theta12) ;;;
      prob3_set "theta13" (float_or_none theta13) ;;;
      prob3_set "theta23" (float_or_none theta23) ;;;
      prob3_set "deltacp" (VFloat deltacp)
  end.

(** What a getter returns: a single value, or a tuple of values. *)
Inductive pyret : Type :=
| RVal (v : pyval)
| RTuple (vs : list pyval).

Definition get_mixing_angles : M pyret :=
  t <- gets tool ;;
  match t with
  | deimos_tool => s <- gets solver ;; ret (RVal (theta_rad s))
  | prob3_tool =>
      n <- gets num_neutrinos ;;
      assert_ (n =? 3) None ;;;
      st <- gets _prob3_settings ;;
      t12 <- lift (getitem st "theta12") ;;
      t13 <- lift (getitem st "theta13") ;;
      t23 <- lift (getitem st "theta23") ;;
      ret (RTuple [t12; t13; t23])
  | nusquids_tool => raise (Exception "TODO")
  end.

Definition get_deltacp : M pyval :=
  t <- gets tool ;;
  match t with
  | deimos_tool => s <- gets solver ;; ret (solver_deltacp s)
  | prob3_tool =>
      st <- gets _prob3_settings ;; lift (getitem st "deltacp")
  | nusquids_tool => raise (Exception "TODO")
  end.

Definition set_mass_splittings (deltam21 : float) (deltam31 : option float)
    : M unit :=
  n <- gets num_neutrinos ;;
  (if n =? 2 then assert_ (is_none deltam31) None
   else assert_ (negb (is_none deltam31)) None) ;;;
  t <- gets tool ;;
  match t with
  | nusquids_tool =>
      nsq_do (Set_SquareMassDifference 1
                (deltam21 * units_eV ext * units_eV ext)%float) ;;;
      match deltam31 with
      | Some dm31 =>
          nsq_do (Set_SquareMassDifference 2
                    (dm31 * units_eV ext * units_eV ext)%float)
      | None => ret tt
      end
  | deimos_tool =>
      modify (fun c => with_solver
                (solver_set_mass_splittings
                   (not_none [Some deltam21; deltam31]) (solver c)) c)
  | prob3_tool =>
      prob3_set "deltam21" (VFloat deltam21) ;;;
      prob3_set "deltam31" (float_or_none deltam31)
  end.

Definition get_mass_splittings : M pyret :=
  t <- gets tool ;;
  match t with
  | nusquids_tool =>
      h <- gets nusquids ;;
      n <- gets num_neutrinos ;;
      let eV2 := (units_eV ext * units_eV ext)%float in
      let mass_splittings_eV2 :=
        [ VFloat (Get_SquareMassDifference ext h 1 / eV2)%float ] in
      let mass_splittings_eV2 :=
        if 2 <? n
        then mass_splittings_eV2
             ++ [ VFloat (Get_SquareMassDifference ext h 2 / eV2)%float ]
        else mass_splittings_eV2 in
      ret (RTuple mass_splittings_eV2)
  | deimos_tool => s <- gets solver ;; ret (RVal (solver_get_mass_splittings s))
  | prob3_tool =>
      st <- gets _prob3_settings ;;
      dm21 <- lift (getitem st "deltam21") ;;
      dm31 <- lift (getitem st "deltam31") ;;
      ret (RTuple [dm21; dm31])
  end.

Definition set_calc_basis (basis : pyval) : M unit :=
  t <- gets tool ;;
  match t with
  | nusquids_tool => assert_ (is_str basis "nxn") None
  | deimos_tool => modify (with_calc_basis basis)
  | prob3_tool => ret tt
  end.

End Calculator.

(** ** Arguments and results of a calculation *)

(** An energy, distance or cos(zenith) argument: a number, or a list or
    one-dimensional array of numbers. *)
Inductive grid : Type :=
| Scalar (x : float)
| Array (xs : list float).

(** An initial flavor as the caller gives it: a label or an integer. *)
Inductive flavor_arg : Type :=
| FlavorStr (s : string)
| FlavorInt (z : Z).

(** The returned probabilities, with the single-valued energy and distance
    dimensions removed. *)
Inductive probs : Type :=
| Probs1 (p : list float)
| Probs2 (p : list (list float))
| Probs3 (p : tensor).

(** [np.asarray( [x] if np.isscalar(x) else x )] *)
Definition asarray (g : grid) : list float :=
  match g with Scalar x => [x] | Array xs => xs end.

(** [t.shape == (a, b, c)] *)
Definition tensor_shape_is (t : tensor) (a b c : nat) : bool :=
  (length t =? a)%nat
  && forallb (fun row => (length row =? b)%nat
                          && forallb (fun p => (length p =? c)%nat) row) t.

(** [np.flip(t, axis=1)] *)
Definition flip_axis1 (t : tensor) : tensor := map (@rev (list float)) t.

(** [np.all( np.isfinite(p) )] *)
Definition all_finite (p : probs) : bool :=
  match p with
  | Probs1 p => forallb PyFloat.isfinite p
  | Probs2 p => forallb (forallb PyFloat.isfinite) p
  | Probs3 p => forallb (forallb (forallb PyFloat.isfinite)) p
  end.

Definition index_error {A} : result A :=
  Raise (IndexError "index 0 is out of bounds").

(** [t[0]] *)
Definition first_of {A} (l : list A) : result A :=
  match l with x :: _ => Ok x | [] => index_error end.

(** [[ row[0] for row in t ]], the slice [t[:,0]] *)
Fixpoint firsts_of {A} (t : list (list A)) : result (list A) :=
  match t with
  | [] => Ok []
  | row :: rest =>
      match first_of row, firsts_of rest with
      | Ok x, Ok xs => Ok (x :: xs)
      | Raise e, _ => Raise e
      | _, Raise e => Raise e
      end
  end.

(** [str(v)] *)
Definition py_str (v : pyval) : string :=
  match v with
  | VNone => "None"
  | VStr s => s
  | VFloat _ => "<float>"
  | VList _ => "<list>"
  | VArray _ => "<array>"
  end.

(** [v[-1]] *)
Definition getitem_last (v : pyval) : result pyval :=
  match v with
  | VArray xs | VList xs =>
      match last xs with
      | Some x => Ok (VFloat x)
      | None => Raise (IndexError "index -1 is out of bounds")
      end
  | VStr s =>
      match last (String.list_ascii_of_string s) with
      | Some ch => Ok (VStr (String ch EmptyString))
      | None => Raise (IndexError "string index out of range")
      end
  | _ => Raise (TypeError ("'" ++ type_name v ++ "' object is not subscriptable"))
  end.

(** [v >= L] for a float [L] *)
Definition py_ge_float (v : pyval) (L : float) : result bool :=
  match v with
  | VFloat x => Ok (PyFloat.ge x L)
  | _ => Raise (TypeError ("'>=' not supported between instances of '"
                           ++ type_name v ++ "' and 'float'"))
  end.

(** [iter(v)], as the list of the items *)
Definition py_iter (v : pyval) : result (list pyval) :=
  match v with
  | VArray xs | VList xs => Ok (VFloat <$> xs)
  | VStr s => Ok ((fun ch => VStr (String ch EmptyString)) <$> String.list_ascii_of_string s)
  | _ => Raise (TypeError ("'" ++ type_name v ++ "' object is not iterable"))
  end.

(** [zip(a, b, c)] *)
Definition py_zip3 (a b c : pyval) : result (list (pyval * pyval * pyval)) :=
  match py_iter a with
  | Raise e => Raise e
  | Ok xs =>
      match py_iter b with
      | Raise e => Raise e
      | Ok ys =>
          match py_iter c with
          | Raise e => Raise e
          | Ok zs => Ok (combine (combine xs ys) zs)
          end
      end
  end.

(** The tuple [shape], printed *)
Definition show_shape (shape : list nat) : string :=
  match shape with
  | [n] => "(" ++ pretty n ++ ",)"
  | _ => "(" ++ String.concat ", " (pretty <$> shape) ++ ")"
  end.

(** [np.full(outer + (2, nF), 0.)] with [[..., rho, flavor] = 1.] *)
Definition pure_flavor_state (outer : list nat) (rho : Z) (flavor : Z)
    (nF : nat) : result ndarray :=
  let i := if (flavor <? 0)%Z then (flavor + Z.of_nat nF)%Z else flavor in
  if ((0 <=? i)%Z && (i <? Z.of_nat nF)%Z) then
    let block :=
      flat_map (fun r => map (fun f => if ((Z.of_nat r =? rho)%Z
                                           && (Z.of_nat f =? i)%Z)
                                       then 1%float else 0%float)
                             (seq 0 nF))
               (seq 0 2) in
    Ok (NdArray (outer ++ [2; nF]%nat)
                (concat (repeat block (fold_right Nat.mul 1%nat outer))))
  else
    Raise (IndexError ("index is out of bounds for axis "
                       ++ pretty (S (length outer)))).

(** [for x in xs : ...], collecting what each iteration computes *)
Fixpoint for_each {A B} (f : A -> M B) (xs : list A) : M (list B) :=
  match xs with
  | [] => ret []
  | x :: rest =>
      y <- f x ;;
      ys <- for_each f rest ;;
      ret (y :: ys)
  end.

(** A float where the callee needs one *)
Definition as_float (v : pyval) : result float :=
  match v with
  | VFloat x => Ok x
  | _ => Raise (TypeError ("must be real number, not " ++ type_name v))
  end.

(** [a, b, c = r] *)
Definition unpack3 {ret_t} (vs : list ret_t) : result (ret_t * ret_t * ret_t) :=
  match vs with
  | [a; b; c] => Ok (a, b, c)
  | _ => Raise (ValueError "wrong number of values to unpack")
  end.

(** [a, b = r] *)
Definition unpack2 {ret_t} (vs : list ret_t) : result (ret_t * ret_t) :=
  match vs with
  | [a; b] => Ok (a, b)
  | _ => Raise (ValueError "wrong number of values to unpack")
  end.

Section Propagation.

Context (ext : Externals).

Local Open Scope nat_scope.

(** *** [_get_flavor_index] *)

(** [flavor < n] for the integer [n] *)
Definition flavor_lt (flavor : flavor_arg) (n : nat) : result bool :=
  match flavor with
  | FlavorInt z => Ok (z <? Z.of_nat n)%Z
  | FlavorStr _ =>
      Raise (TypeError "'<' not supported between instances of 'str' and 'int'")
  end.

Definition _get_flavor_index (flavor : flavor_arg) : M (option Z) :=
  let index : option Z := None in
  index <- match flavor with
           | FlavorStr s =>
               if bool_decide (s ∈ ["e"; "nue"]) then ret (Some 0%Z)
               else if bool_decide (s ∈ ["mu"; "numu"]) then ret (Some 1%Z)
               else if bool_decide (s ∈ ["tau"; "nutau"]) then ret (Some 2%Z)
               else ret index
           | FlavorInt z =>
               assert_ (bool_decide (z ∈ [0; 1; 2]%Z)) None ;;;
               ret (Some z)
           end ;;
  n <- gets num_neutrinos ;;
  below <- lift (flavor_lt flavor n) ;;
  assert_ below None ;;;
  ret index.

(** The property [states]: [np.array(range(self.num_neutrinos))] *)
Definition states : M (list Z) :=
  n <- gets num_neutrinos ;; ret (Z.of_nat <$> seq 0 n).

(** *** [set_decoherence_D_matrix] *)

(** [np.allclose(D.imag, 0.)] *)
Definition allclose_imag_zero (D : matrix) : bool :=
  forallb (forallb (fun z =>
             PyFloat.le (abs (im z - 0))
                        (0x1.5798ee2308c3ap-27 + 0x1.4f8b588e368f1p-17 * abs 0))%float)
          D.

Definition set_decoherence_D_matrix (D_matrix_eV : matrix) (n E0_eV : float)
    : M unit :=
  (* Check all relevent matrix conditions *)
  check_decoherence_D_matrix D_matrix_eV ;;;
  t <- gets tool ;;
  match t with
  | nusquids_tool =>
      v <- gets _nusquids_variant ;;
      assert_ (bool_decide (v = Some "nuSQUIDSDecoh")) None ;;;
      assert_ (allclose_imag_zero D_matrix_eV)
        (Some "nuSQuIDS decoherence implementation currently does not support imaginary gamma matrix") ;;;
      nsq_do (Set_DecoherenceGammaMatrix
                (map (map (fun z => (re z * units_eV ext)%float)) D_matrix_eV)) ;;;
      nsq_do (Set_DecoherenceGammaEnergyDependence n) ;;;
      nsq_do (Set_DecoherenceGammaEnergyScale E0_eV)
  | deimos_tool =>
      modify (with_decoh_model_kw
                (Some {| D_matrix0_eV := D_matrix_eV; decoh_n := n;
                         decoh_E0_eV := E0_eV; D_matrix_basis := "sun" |}))
  | prob3_tool => ret tt
  end.

(** *** The nuSQuIDS backend *)

(** The initial state handed to nuSQuIDS: the pure flavor state unless
    the caller supplied a state, whose shape is then checked. *)
Definition prepare_initial_state (outer : list nat) (rho : Z)
    (initial : Z + ndarray) (nF : nat) : M ndarray :=
  let state_shape := outer ++ [2; nF] in
  match initial with
  | inl initial_flavor => lift (pure_flavor_state outer rho initial_flavor nF)
  | inr initial_state =>
      assert_ (bool_decide (nd_shape initial_state = state_shape))
        (Some ("Incompatible shape for initial state : Expected "
               ++ show_shape state_shape ++ ", found "
               ++ show_shape (nd_shape initial_state))%string) ;;;
      ret initial_state
  end.

(** The loop over the layers, for the travel distance [L]. *)
Fixpoint layers_loop (initial_state : ndarray) (L : float)
    (layers : list (float * pyval * pyval)) (L_so_far : float) : M unit :=
  match layers with
  | [] => ret tt
  | (endpoint, density, efrac) :: rest =>
      (* Bail out if have reached travel distance *)
      if PyFloat.gt L_so_far endpoint then ret tt
      else
        (* Figure out how far we will travel in this layer *)
        let endpoint := if PyFloat.lt L endpoint then L else endpoint in
        let L_layer := (endpoint - L_so_far)%float in
        (* Set the body and track, and propagate *)
        nsq_do (Set_Body (ConstantDensity density efrac)) ;;;
        nsq_do (Set_Track (ConstantDensityTrack (L_layer * units_km ext)%float)) ;;;
        (if PyFloat.eq L_so_far 0
         then nsq_do (Set_initial_state initial_state) (* Only first step *)
         else ret tt) ;;;
        nsq_do EvolveState ;;;
        (* Update distance counter *)
        layers_loop initial_state L rest (L_so_far + L_layer)%float
  end.

(** The items of [zip(endpoints, densities, fractions)], the endpoints
    as floats *)
Fixpoint float_endpoints (layers : list (pyval * pyval * pyval))
    : result (list (float * pyval * pyval)) :=
  match layers with
  | [] => Ok []
  | (VFloat e, d, f) :: rest =>
      match float_endpoints rest with
      | Ok l => Ok ((e, d, f) :: l)
      | Raise x => Raise x
      end
  | (v, _, _) :: _ =>
      Raise (TypeError ("'>' not supported between instances of 'float' and '"
                        ++ type_name v ++ "'"))
  end.

(** The branch [matter == "layers"] of the distance loop *)
Definition propagate_layers (initial_state : ndarray) (L : float) : M unit :=
  ms <- gets _matter_settings ;;
  (* Check the layers cover the full path length *)
  endpoints <- lift (getitem ms "layer_endpoint_km") ;;
  final <- lift (getitem_last endpoints) ;;
  covered <- lift (py_ge_float final L) ;;
  assert_ covered (Some "Matter layers do not cover the full baseline") ;;;
  (* Loop through layers *)
  endpoints <- lift (getitem ms "layer_endpoint_km") ;;
  densities <- lift (getitem ms "matter_density_g_per_cm3") ;;
  fractions <- lift (getitem ms "electron_fraction") ;;
  layers <- lift (py_zip3 endpoints densities fractions) ;;
  layers <- lift (float_endpoints layers) ;;
  layers_loop initial_state L layers 0%float.

(** One iteration of the loop over the distance nodes: propagate over
    [L], then evaluate every energy and final flavor. *)
Definition propagate_distance (initial_state : ndarray)
    (energy_GeV : list float) (final_flavors : list Z) (rho : Z) (L : float)
    : M (list (list float)) :=
  ms <- gets _matter_settings ;;
  matter <- lift (getitem ms "matter") ;;
  (if is_str matter "vacuum" then
     nsq_do (Set_Track (VacuumTrack (L * units_km ext)%float)) ;;;
     nsq_do (Set_initial_state initial_state) ;;;
     nsq_do EvolveState
   else if is_str matter "constant" then
     nsq_do (Set_Track (ConstantDensityTrack (L * units_km ext)%float)) ;;;
     nsq_do (Set_initial_state initial_state) ;;;
     nsq_do EvolveState
   else if is_str matter "layers" then
     propagate_layers initial_state L
   else
     raise (Exception ("Unknown matter : " ++ py_str matter))) ;;;
  (* Evaluate final state *)
  h <- gets nusquids ;;
  ret (map (fun E =>
              map (fun final_flavor =>
                     EvalFlavor ext h final_flavor (E * units_GeV ext)%float rho)
                  final_flavors)
           energy_GeV).

(** [results[i_e, i_L, :]] is what iteration [i_L] evaluated at energy
    [i_e]: every entry of the array is assigned once. *)
Definition by_energy (n_energy : nat) (per_distance : list (list (list float)))
    : tensor :=
  map (fun i_e => map (fun at_L => nth i_e at_L []) per_distance)
      (seq 0 n_energy).

Definition none_has_no_size {A} : M A :=
  raise (AttributeError "'NoneType' object has no attribute 'size'").

Definition _calc_osc_prob_nusquids (energy_GeV : grid)
    (initial_flavor : option Z) (initial_state : option ndarray)
    (nubar : bool) (distance_km coszen : option grid) : M tensor :=
  initial <- match initial_flavor, initial_state with
             | None, None =>
                 raise (AssertionError
                          (Some "Must provide `initial_flavor` or `initial_state`"))
             | Some _, Some _ =>
                 raise (AssertionError
                          (Some "Must provide `initial_flavor` or `initial_state`, not both"))
             | Some f, None => ret (inl f)
             | None, Some st => ret (inr st)
             end ;;
  (* Calculate all final state flavors *)
  final_flavors <- states ;;
  (* Handle scalars vs arrays *)
  let energy_GeV := asarray energy_GeV in
  let distance_km := asarray <$> distance_km in
  let coszen := asarray <$> coszen in
  (* Handle nubar *)
  let rho := if nubar then 1%Z else 0%Z in
  atm <- gets atmospheric ;;
  if atm then
    coszen <- match coszen with Some cz => ret cz | None => none_has_no_size end ;;
    h <- gets nusquids ;;
    initial_state <- prepare_initial_state [GetNumCos ext h; GetNumE ext h]
                       rho initial (length final_flavors) ;;
    (* Set the intial state *)
    nsq_do (Set_initial_state initial_state) ;;;
    (* Evolve the state *)
    nsq_do EvolveState ;;;
    h <- gets nusquids ;;
    ret (map (fun E =>
                map (fun cz =>
                       map (fun final_flavor =>
                              EvalFlavorAtm ext h final_flavor cz
                                (E * units_GeV ext)%float rho false)
                           final_flavors)
                    coszen)
             energy_GeV)
  else
    distance_km <- match distance_km with
                   | Some d => ret d
                   | None => none_has_no_size
                   end ;;
    h <- gets nusquids ;;
    initial_state <- prepare_initial_state [GetNumE ext h] rho initial
                       (length final_flavors) ;;
    (* Loop over distance nodes *)
    per_distance <- for_each (propagate_distance initial_state energy_GeV
                                final_flavors rho) distance_km ;;
    ret (by_energy (length energy_GeV) per_distance).

End Propagation.

Section Orchestrator.

Context (ext : Externals).

Local Open Scope nat_scope.

(** *** The prob3 backend *)

Definition prob3_do (call : prob3_call) : M unit :=
  modify (fun c => with_propagator (_propagator c ++ [call]) c).

(** The values of a returned tuple or array, for unpacking *)
Definition items_of (r : pyret) : result (list pyval) :=
  match r with
  | RTuple vs => Ok vs
  | RVal v => py_iter v
  end.

(** [np.square(np.sin(theta))] *)
Definition sin2 (theta : pyval) : result float :=
  match as_float theta with
  | Ok x => Ok (PyFloat.square (np_sin ext x))
  | Raise e => Raise e
  end.

(** [a - b] *)
Definition py_sub (a b : pyval) : result float :=
  match a, b with
  | VFloat x, VFloat y => Ok (x - y)%float
  | _, _ => Raise (TypeError ("unsupported operand type(s) for -: '"
                              ++ type_name a ++ "' and '" ++ type_name b ++ "'"))
  end.

(** [flavor + 1] *)
Definition flavor_plus_one (flavor : option Z) : result Z :=
  match flavor with
  | Some z => Ok (z + 1)%Z
  | None => Raise (TypeError "unsupported operand type(s) for +: 'NoneType' and 'int'")
  end.

(** [distance_km[i_L]], where [distance_km] is [np.asarray(None)] when
    no distance was given *)
Definition distance_at (distance_km : option (list float)) (i_L : nat)
    : result float :=
  match distance_km with
  | Some d =>
      match d !! i_L with
      | Some x => Ok x
      | None => Raise (IndexError "index is out of bounds for axis 0")
      end
  | None => Raise (IndexError "too many indices for array")
  end.

Definition _calc_osc_prob_prob3 (initial_flavor : option Z)
    (energy_GeV : grid) (distance_km coszen : option grid) (nubar : bool)
    : M tensor :=
  (* Check num flavors *)
  n <- gets num_neutrinos ;;
  assert_ (n =? 3)
    (Some "prob3 wrapper only supporting 3-flavor oscillations currently") ;;;
  (* Get osc propeties *)
  angles <- get_mixing_angles ;;
  angles <- lift (items_of angles) ;;
  thetas <- lift (unpack3 angles) ;;
  let '(theta12, theta13, theta23) := thetas in
  sin2_theta12 <- lift (sin2 theta12) ;;
  sin2_theta13 <- lift (sin2 theta13) ;;
  sin2_theta23 <- lift (sin2 theta23) ;;
  deltacp <- get_deltacp ;;
  splittings <- get_mass_splittings ext ;;
  splittings <- lift (items_of splittings) ;;
  dms <- lift (unpack2 splittings) ;;
  let '(dm21, dm31) := dms in
  dm32 <- lift (py_sub dm31 dm21) ;;
  let KNuType := if nubar then (-1)%Z else 1%Z in
  (* Dertemine all final states *)
  final_flavors <- states ;;
  (* Determine matter *)
  st <- gets _prob3_settings ;;
  matter <- lift (getitem st "matter") ;;
  let vacuum := match matter with VNone => true | _ => false end in
  medium <-
    (if vacuum then ret (false, VNone)
     else if is_str matter "earth" then ret (true, VNone)
     else
       assert_ (is_str matter "constant") None ;;;
       d <- lift (getitem st "matter_density_g_per_cm3") ;;
       ret (false, d)) ;;
  let '(earth, matter_density_g_per_cm3) := medium in
  (* Array-ify *)
  let energy_GeV := asarray energy_GeV in
  let distance_km := asarray <$> distance_km in
  let distance_dim := match distance_km with Some d => length d | None => 1 end in
  (* Loop over energy *)
  for_each (fun E =>
    dm21 <- lift (as_float dm21) ;;
    deltacp <- lift (as_float deltacp) ;;
    prob3_do (SetMNS sin2_theta12 sin2_theta13 sin2_theta23 dm21 dm32
                     deltacp E true KNuType) ;;;
    (* Loop over distance *)
    for_each (fun i_L =>
      (* Loop over flavor *)
      for_each (fun final_flavor =>
        initial_flavor_prob3 <- lift (flavor_plus_one initial_flavor) ;;
        let final_flavor_prob3 := (final_flavor + 1)%Z in
        if vacuum then
          L <- lift (distance_at distance_km i_L) ;;
          h <- gets _propagator ;;
          ret (GetVacuumProb ext h initial_flavor_prob3 final_flavor_prob3 E L)
        else
          (if earth then raise (Exception "Not yet implemented")
           else
             L <- lift (distance_at distance_km i_L) ;;
             prob3_do (propagateLinear KNuType L matter_density_g_per_cm3)) ;;;
          h <- gets _propagator ;;
          ret (GetProb ext h initial_flavor_prob3 final_flavor_prob3))
        final_flavors)
      (seq 0 distance_dim))
    energy_GeV.

(** *** The deimos backend *)

(** [d[-1] < d[0]] *)
Definition last_below_first (d : list float) : result bool :=
  match last d, head d with
  | Some z, Some a => Ok (PyFloat.lt z a)
  | _, _ => Raise (IndexError "index -1 is out of bounds for axis 0 with size 0")
  end.

Definition none_not_subscriptable {A} : M A :=
  raise (TypeError "'NoneType' object is not subscriptable").

Definition _calc_osc_prob_deimos (initial_flavor : Z) (energy_GeV : grid)
    (distance_km coszen : option grid) (nubar : bool) : M tensor :=
  (* Handle scalars vs arrays *)
  let energy_GeV := asarray energy_GeV in
  let distance_km := asarray <$> distance_km in
  let coszen := asarray <$> coszen in
  (* coszen -> L conversion (for atmospheric case) *)
  atm <- gets atmospheric ;;
  distance_km <-
    (if atm then
       let production_height_km := DEFAULT_ATMO_PROD_HEIGHT_km ext in
       depth <- gets detector_depth_m ;;
       let detector_depth_km :=
         match depth with
         | None => DEFAULT_ATMO_DETECTOR_DEPTH_km ext
         | Some m => (m * 0x1.0624dd2f1a9fcp-10)%float
         end in
       match coszen with
       | Some cz =>
           ret (Some (calc_path_length_from_coszen ext cz production_height_km
                        detector_depth_km))
       | None => raise (TypeError "coszen is None")
       end
     else ret distance_km) ;;
  distance_km <- match distance_km with
                 | Some d => ret d
                 | None => none_not_subscriptable
                 end ;;
  (* DensityMatrixOscSolver doesn't like decending distance values *)
  descending <- lift (last_below_first distance_km) ;;
  let flip := descending in
  let distance_km := if flip then rev distance_km else distance_km in
  (* Run solver *)
  s <- gets solver ;;
  basis <- gets _calc_basis ;;
  decoh <- gets _decoh_model_kw ;;
  lightcone <- gets _lightcone_model_kw ;;
  sme <- gets _sme_model_kw ;;
  let results :=
    calc_osc_probs ext s
      {| req_E_GeV := energy_GeV; req_L_km := distance_km;
         req_initial_state := initial_flavor; req_initial_basis := "flavor";
         req_nubar := nubar; req_calc_basis := basis;
         req_decoh_opts := decoh; req_lightcone_opts := lightcone;
         req_sme_opts := sme |} in
  (* Handle flip in results (L dimension) *)
  let results := if flip then flip_axis1 results else results in
  ret results.

(** *** [calc_osc_prob] *)

Definition calc_osc_prob (energy_GeV : grid)
    (initial_flavor : option flavor_arg) (initial_state : option ndarray)
    (distance_km coszen : option grid) (nubar : bool) : M probs :=
  (* Handle arrays vs single values for energy *)
  let '(single_energy, energy_size) :=
    match energy_GeV with
    | Array xs => (false, length xs)
    | Scalar _ => (true, 1)
    end in
  (* Indexing *)
  initial_flavor <- match initial_flavor with
                    | Some f => _get_flavor_index f
                    | None => ret None
                    end ;;
  atm <- gets atmospheric ;;
  mode <-
    (if atm then
       (* Want coszen, not distance *)
       match coszen, distance_km with
       | Some (Array cz), None => ret (Some (Array cz), false, length cz)
       | Some (Scalar cz), None => ret (Some (Array [cz]), true, 1)
       | _, _ =>
           raise (AssertionError
                    (Some "Must provide `coszen` (and not `distance_km`) in atmospheric mode"))
       end
     else
       (* Want distance, not coszen *)
       match distance_km, coszen with
       | Some (Array d), None => ret (coszen, false, length d)
       | Some (Scalar _), None => ret (coszen, true, 1)
       | _, _ =>
           raise (AssertionError
                    (Some "Must provide `distance_km` (and not `coszen`) in non-atmospheric mode"))
       end) ;;
  let '(coszen, single_dist, dist_size) := mode in
  (* Call sub-function for relevent solver *)
  t <- gets tool ;;
  osc_probs <-
    match t with
    | nusquids_tool =>
        _calc_osc_prob_nusquids ext energy_GeV initial_flavor initial_state
          nubar distance_km coszen
    | deimos_tool =>
        match initial_flavor with
        | Some f => _calc_osc_prob_deimos f energy_GeV distance_km coszen nubar
        | None =>
            raise (AssertionError
                     (Some "must provide `initial_flavor` (`initial_state` not currently supported for deimos"))
        end
    | prob3_tool =>
        _calc_osc_prob_prob3 initial_flavor energy_GeV distance_km coszen nubar
    end ;;
  (* Check shape of output array *)
  n <- gets num_neutrinos ;;
  assert_ (tensor_shape_is osc_probs energy_size dist_size n) None ;;;
  (* Remove single-valued dimensions *)
  osc_probs <-
    (if single_energy && single_dist then
       row <- lift (first_of osc_probs) ;;
       p <- lift (first_of row) ;;
       ret (Probs1 p)
     else if single_energy then
       row <- lift (first_of osc_probs) ;;
       ret (Probs2 row)
     else if single_dist then
       rows <- lift (firsts_of osc_probs) ;;
       ret (Probs2 rows)
     else ret (Probs3 osc_probs)) ;;
  (* Checks *)
  assert_ (all_finite osc_probs) (Some "Found non-finite osc probs") ;;;
  ret osc_probs.

End Orchestrator.

Section Construction.

Context (ext : Externals).

Local Open Scope nat_scope.

(** The object at the start of [__init__], before any attribute is set *)
Definition blank_calculator (t : tool_t) (atm : bool) (fl : list string)
    (variant : option string) : OscCalculator :=
  {| tool := t; atmospheric := atm; flavors := fl;
     num_neutrinos := length fl; _matter_settings := ∅;
     nusquids := []; _nusquids_variant := variant;
     solver := Solver (length fl) VNone VNone VNone None;
     _calc_basis := VNone; _decoh_model_kw := None;
     _lightcone_model_kw := None; _sme_model_kw := None;
     _prob3_settings := ∅; _propagator := [];
     detector_depth_m := None; stdout := [] |}.

Definition parse_tool (name : string) : option tool_t :=
  if bool_decide (name = "nusquids") then Some nusquids_tool
  else if bool_decide (name = "deimos") then Some deimos_tool
  else if bool_decide (name = "prob3") then Some prob3_tool
  else None.

(** The aliases of the nuSQuIDS variants *)
Definition variant_alias (v : option string) : option string :=
  let v := if bool_decide (v ∈ [Some "decoh"; Some "decoherence"])
           then Some "nuSQUIDSDecoh" else v in
  if bool_decide (v ∈ [Some "liv"; Some "LIV"; Some "sme"; Some "SME"])
  then Some "nuSQUIDSLIV" else v.

Definition _init_nusquids (error : float) : M unit :=
  assert_ (NUSQUIDS_AVAIL ext) (Some "Cannot use nuSQuIDS, not installed") ;;;
  v <- gets _nusquids_variant ;;
  match v with
  | None => ret tt
  | Some name =>
      if bool_decide (name = "nuSQUIDSDecoh") then
        assert_ (NUSQUIDS_DECOH_AVAIL ext)
          (Some "Could not find nuSQuIDS decoherence implementation")
      else if bool_decide (name = "nuSQUIDSLIV") then
        assert_ (NUSQUIDS_LIV_AVAIL ext)
          (Some "Could not find nuSQuIDS LIV implementation")
      else raise (Exception ("Unknown nusquids varint : " ++ name))
  end ;;;
  nsq_do (Set_rel_error error) ;;;
  nsq_do (Set_abs_error error) ;;;
  nsq_do (Set_ProgressBar false).

Definition _init_prob3 : M unit :=
  assert_ (PROB3_AVAIL ext) (Some "Prob3 not installed").

(** [set_mixing_angles] applied to the unpacked list of angles *)
Definition set_mixing_angles_star (angles : list float) (deltacp : float)
    : M unit :=
  match angles with
  | [t12] => set_mixing_angles t12 None None deltacp
  | [t12; t13] => set_mixing_angles t12 (Some t13) None deltacp
  | [t12; t13; t23] => set_mixing_angles t12 (Some t13) (Some t23) deltacp
  | [] => raise (TypeError "set_mixing_angles() missing 1 required positional argument: 'theta12'")
  | _ => raise (TypeError "set_mixing_angles() got multiple values for argument 'deltacp'")
  end.

(** [set_mass_splittings] applied to the unpacked list of splittings *)
Definition set_mass_splittings_star (splittings : list float) : M unit :=
  match splittings with
  | [dm21] => set_mass_splittings ext dm21 None
  | [dm21; dm31] => set_mass_splittings ext dm21 (Some dm31)
  | [] => raise (TypeError "set_mass_splittings() missing 1 required positional argument: 'deltam21'")
  | _ => raise (TypeError "set_mass_splittings() takes from 2 to 3 positional arguments")
  end.

(** A default of the three-flavor system, or the error of [__init__] *)
Definition or_default {A} (given : option A) (n : nat) (dflt : A)
    (name : string) : M A :=
  match given with
  | Some x => ret x
  | None =>
      if n =? 3 then ret dflt
      else raise (Exception ("Must specify '" ++ name
                             ++ "' when not in 3 flavor mode"))
  end.

Definition init_body (mixing_angles_rad mass_splittings_eV2 : option (list float))
    (deltacp_rad : option float) : M unit :=
  t <- gets tool ;;
  match t with
  | nusquids_tool => _init_nusquids 0x1.0c6f7a0b5ed8dp-20
  | deimos_tool => ret tt
  | prob3_tool => _init_prob3
  end ;;;
  (* Set some default values for parameters *)
  set_matter ext (Some "vacuum") ∅ ;;;
  n <- gets num_neutrinos ;;
  mass_splittings_eV2 <- or_default mass_splittings_eV2 n
                           (MASS_SPLITTINGS_eV2 ext) "mass_splittings_eV2" ;;
  mixing_angles_rad <- or_default mixing_angles_rad n
                         (MIXING_ANGLES_rad ext) "mixing_angles_rad" ;;
  deltacp_rad <- or_default deltacp_rad n (DELTACP_rad ext) "deltacp_rad" ;;
  (* Update osc params *)
  set_mixing_angles_star mixing_angles_rad deltacp_rad ;;;
  set_mass_splittings_star mass_splittings_eV2 ;;;
  set_calc_basis (VStr "nxn").

Definition __init__ (tool_name : string) (atm : bool)
    (flavors : option (list string))
    (mixing_angles_rad mass_splittings_eV2 : option (list float))
    (deltacp_rad : option float) (nusquids_variant : option string)
    : result OscCalculator :=
  (* User must specify flavors, or take default *)
  let flavors := default (FLAVORS ext) flavors in
  if negb (bool_decide (NoDup flavors)) then
    Raise (AssertionError (Some "Duplicate flavors provided"))
  else if negb (forallb (fun f => bool_decide (f ∈ FLAVORS ext)) flavors) then
    Raise (AssertionError (Some "Unknown flavors provided"))
  else if negb (bool_decide (length flavors ∈ [2; 3])) then
    Raise (AssertionError None)
  else
    match parse_tool tool_name with
    | None => Raise (Exception ("Unrecognised tool : " ++ tool_name))
    | Some t =>
        let self := blank_calculator t atm flavors
                      (variant_alias nusquids_variant) in
        match init_body mixing_angles_rad mass_splittings_eV2 deltacp_rad self with
        | (Ok _, self) => Ok self
        | (Raise e, _) => Raise e
        end
    end.

End Construction.

(** ** The validator as the specification describes it

    The ordered list of the conditions of the three-flavor case, each with
    its truth value on [D]: shape, reality, non-negativity, the symmetric
    pairs, the linear inequalities a1..a8, the quadratic inequalities of
    the pairs b12, b13, b23, and the quadratic inequality of b38. *)

Module SU3.

Import DMatrix.
Local Open Scope float_scope.

Inductive condition : Type :=
| ShapeIs9x9
| AllReal
| AllNonNegative
| Symmetric (i j : nat)
| Linear (k : nat)
| QuadraticPair (i j : nat)
| QuadraticB38.

(** The real part of the entry at [(i, j)] *)
Definition entry (D : matrix) (i j : nat) : float :=
  match D !! i with
  | Some row => match row !! j with Some z => re z | None => nan end
  | None => nan
  end.

Definition g (D : matrix) (k : nat) : float := entry D k k.

Definition a (D : matrix) (k : nat) : float :=
  let b38 := entry D 3 8 in
  match k with
  | 1%nat => - g D 1 + g D 2 + g D 3 - (g D 8 / 3)
  | 2%nat => g D 1 - g D 2 + g D 3 - (g D 8 / 3)
  | 3%nat => g D 1 + g D 2 - g D 3 - (g D 8 / 3)
  | 4%nat => - g D 4 + g D 5 + g D 3 + (2 * g D 8 / 3) - (2 * b38 / sqrt 3)
  | 5%nat => g D 4 - g D 5 + g D 3 + (2 * g D 8 / 3) - (2 * b38 / sqrt 3)
  | 6%nat => - g D 6 + g D 7 + g D 3 + (2 * g D 8 / 3) + (2 * b38 / sqrt 3)
  | 7%nat => g D 6 - g D 7 + g D 3 + (2 * g D 8 / 3) + (2 * b38 / sqrt 3)
  | _ => - (g D 1 / 3) - (g D 2 / 3) - (g D 3 / 3) + (2 * g D 4 / 3)
         + (2 * g D 5 / 3) + (2 * g D 6 / 3) + (2 * g D 7 / 3) - g D 8
  end.

(** The third index of the su(2) triple [{1, 2, 3}] that holds [i], [j] *)
Definition third (i j : nat) : nat := (6 - i - j)%nat.

(** [4 bij^2 <= (gk - g8/3)^2 - (gi - gj)^2] *)
Definition quadratic_pair (D : matrix) (i j : nat) : bool :=
  PyFloat.le (4 * PyFloat.square (entry D i j))
             (PyFloat.square (g D (third i j) - (g D 8 / 3))
              - PyFloat.square (g D i - g D j)).

Definition quadratic_b38 (D : matrix) : bool :=
  PyFloat.le
    (PyFloat.square (4 * PyFloat.square (entry D 3 8) + (g D 4 / sqrt 3)
                     + (g D 5 / sqrt 3) - (g D 6 / sqrt 3) - (g D 7 / sqrt 3)))
    (a D 3 * a D 8).

(** The pairs [(i, j)] with [1 <= i < j <= 8], row by row *)
Definition pairs : list (nat * nat) :=
  flat_map (fun i => map (fun j => (i, j)) (seq (S i) (8 - i))) (seq 1 7).

Definition holds (D : matrix) (c : condition) : bool :=
  match c with
  | ShapeIs9x9 => shape_is D 9 9
  | AllReal => all_real D
  | AllNonNegative => all_nonneg D
  | Symmetric i j => PyFloat.eq (entry D j i) (entry D i j)
  | Linear k => PyFloat.ge (a D k) 0
  | QuadraticPair i j => quadratic_pair D i j
  | QuadraticB38 => quadratic_b38 D
  end.

Definition conditions : list condition :=
  [ShapeIs9x9; AllReal; AllNonNegative]
  ++ map (fun p => Symmetric (fst p) (snd p)) pairs
  ++ map Linear (seq 1 8)
  ++ [QuadraticPair 1 2; QuadraticPair 1 3; QuadraticPair 2 3; QuadraticB38].

(** The first condition of the list that [D] violates *)
Definition first_failure (D : matrix) : option condition :=
  find (fun c => negb (holds D c)) conditions.

(** The name of a condition, as an error would cite it *)
Definition name (c : condition) : string :=
  match c with
  | ShapeIs9x9 => "shape"
  | AllReal => "real"
  | AllNonNegative => "positive"
  | Symmetric i j => "b" ++ pretty i ++ pretty j
  | Linear k => "a" ++ pretty k
  | QuadraticPair i j => "b" ++ pretty i ++ pretty j
  | QuadraticB38 => "b38"
  end.

(** Whether the message of an error contains [s] *)
Fixpoint contains_string (s m : string) : bool :=
  String.prefix s m
  || match m with
     | EmptyString => false
     | String _ m' => contains_string s m'
     end.

(** Whether an error names the condition [c] *)
Definition names (e : exn) (c : condition) : bool :=
  match e with
  | AssertionError (Some m) => contains_string (name c) m
  | _ => false
  end.

(** The message the source gives to the assertion of a condition *)
Definition source_message (c : condition) : option string :=
  match c with
  | Linear 1 => Some "Inequality failure (a1)"
  | Linear 2 => Some "Inequality failure (a2)"
  | Linear 3 => Some "Inequality failure (a3)"
  | Linear 4 => Some "Inequality failure (a4)"
  | Linear 5 => Some "Inequality failure (a5)"
  | Linear 6 => Some "Inequality failure (a1)"
  | Linear 7 => Some "Inequality failure (a7)"
  | Linear _ => Some "Inequality failure (a8)"
  | _ => None
  end.

(** The assertions of a list of conditions, one after the other *)
Fixpoint assert_all (D : matrix) (cs : list condition) : M unit :=
  match cs with
  | [] => ret tt
  | c :: rest => assert_ (holds D c) (source_message c) ;;; assert_all D rest
  end.

End SU3.

(** ** Example collaborators and calculators *)

Module Example.

Local Open Scope float_scope.

(** nuSQuIDS units: energies in eV, lengths in 1/eV.  Every evaluation
    answers one half, whatever was propagated. *)
Definition externals : Externals :=
  {| NUSQUIDS_AVAIL := true; NUSQUIDS_DECOH_AVAIL := true;
     NUSQUIDS_LIV_AVAIL := true; PROB3_AVAIL := true;
     units_GeV := 1000000000; units_eV := 1; units_km := 5067730937;
     GetNumE := fun _ => 3%nat; GetNumCos := fun _ => 2%nat;
     EvalFlavor := fun _ _ _ _ => 0.5;
     EvalFlavorAtm := fun _ _ _ _ _ _ => 0.5;
     Get_SquareMassDifference := fun _ _ => 0;
     FLAVORS := ["e"; "mu"; "tau"];
     MASS_SPLITTINGS_eV2 := [0.00006103515625; 0.00244140625];
     MIXING_ANGLES_rad := [0.5; 0.125; 0.75];
     DELTACP_rad := 0;
     DEFAULT_ATMO_PROD_HEIGHT_km := 15;
     DEFAULT_ATMO_DETECTOR_DEPTH_km := 1;
     get_matter_potential_flav := fun _ _ _ => [];
     calc_osc_probs := fun s req =>
       map (fun _ => map (fun _ => repeat 0.5 (num_states s)) (req_L_km req))
           (req_E_GeV req);
     calc_path_length_from_coszen := fun cz h d =>
       map (fun x => (1 - x) * 6371 + h) cz;
     np_sin := fun x => x;
     GetVacuumProb := fun _ _ _ _ _ => 0.5;
     GetProb := fun _ _ _ => 0.5 |}.

Definition make (tool_name : string) (flavors : list string)
    (angles splittings : list float) : OscCalculator :=
  match __init__ externals tool_name false (Some flavors) (Some angles)
          (Some splittings) (Some 0) None with
  | Ok self => self
  | Raise _ => blank_calculator deimos_tool false [] None
  end.

Definition three (tool_name : string) : OscCalculator :=
  make tool_name ["e"; "mu"; "tau"] [0.5; 0.125; 0.75] [0.00006103515625; 0.00244140625].

Definition two (tool_name : string) : OscCalculator :=
  make tool_name ["e"; "mu"] [0.5] [0.00006103515625].

(** Two layers, ending at 1 km and at 2 km *)
Definition two_layers : gmap string pyval :=
  {[ "layer_endpoint_km" := VArray [1; 2];
     "matter_density_g_per_cm3" := VArray [3; 5];
     "electron_fraction" := VArray [0.5; 0.5] ]}.

Definition layered : OscCalculator :=
  snd (set_matter externals (Some "layers") two_layers (three "nusquids")).

End Example.

(** ** Notions used to state the properties *)

(** The settings of the prob3 backend after [set_mixing_angles] *)
Definition prob3_angles (theta12 : float) (theta13 theta23 : option float)
    (deltacp : float) (m : gmap string pyval) : gmap string pyval :=
  <["deltacp" := VFloat deltacp]>
    (<["theta23" := float_or_none theta23]>
       (<["theta13" := float_or_none theta13]>
          (<["theta12" := VFloat theta12]> m))).

(** The settings of the prob3 backend after [set_mass_splittings] *)
Definition prob3_splittings (deltam21 : float) (deltam31 : option float)
    (m : gmap string pyval) : gmap string pyval :=
  <["deltam31" := float_or_none deltam31]> (<["deltam21" := VFloat deltam21]> m).

(** A grid is descending when every value is above all the later ones. *)
Definition descending (g : list float) : Prop :=
  StronglySorted (fun a b => PyFloat.gt a b = true) g.




(** The path lengths the deimos backend computes from cos(zenith) *)
Definition deimos_path_lengths (ext : Externals) (c : OscCalculator)
    (coszen : list float) : list float :=
  calc_path_length_from_coszen ext coszen (DEFAULT_ATMO_PROD_HEIGHT_km ext)
    match detector_depth_m c with
    | None => DEFAULT_ATMO_DETECTOR_DEPTH_km ext
    | Some m => (m * 0x1.0624dd2f1a9fcp-10)%float
    end.

Definition is_scalar (g : grid) : bool :=
  match g with Scalar _ => true | Array _ => false end.

Definition grid_size (g : grid) : nat :=
  match g with Scalar _ => 1%nat | Array xs => length xs end.

(** The end of [calc_osc_prob], from the check of the shape on *)
Definition finish (single_energy single_dist : bool) (energy_size dist_size : nat)
    (osc_probs : tensor) : M probs :=
  (n <- gets num_neutrinos ;;
   assert_ (tensor_shape_is osc_probs energy_size dist_size n) None ;;;
   osc_probs <-
     (if single_energy && single_dist then
        row <- lift (first_of osc_probs) ;;
        p <- lift (first_of row) ;;
        ret (Probs1 p)
      else if single_energy then
        row <- lift (first_of osc_probs) ;;
        ret (Probs2 row)
      else if single_dist then
        rows <- lift (firsts_of osc_probs) ;;
        ret (Probs2 rows)
      else ret (Probs3 osc_probs)) ;;
   assert_ (all_finite osc_probs) (Some "Found non-finite osc probs") ;;;
   ret osc_probs)%py.

(** The calculator holds the layers that [set_matter] stores. *)
Definition layered_with (c : OscCalculator)
    (endpoints densities fractions : list float) : Prop :=
  _matter_settings c !! "matter" = Some (VStr "layers")
  /\ _matter_settings c !! "layer_endpoint_km" = Some (VArray endpoints)
  /\ _matter_settings c !! "matter_density_g_per_cm3" = Some (VArray densities)
  /\ _matter_settings c !! "electron_fraction" = Some (VArray fractions).

(** The caller gives a flavor index the calculator has, or gives a state
    of the shape the nuSQuIDS object expects. *)
Definition valid_initial (ext : Externals) (c : OscCalculator)
    (initial_flavor : option flavor_arg) (initial_state : option ndarray) : Prop :=
  (exists z, initial_flavor = Some (FlavorInt z) /\ z ∈ [0; 1; 2]%Z
             /\ (z < Z.of_nat (num_neutrinos c))%Z /\ initial_state = None)
  \/ (initial_flavor = None
      /\ exists st, initial_state = Some st
                    /\ nd_shape st
                       = [GetNumE ext (nusquids c); 2; num_neutrinos c]%nat).

(** The nuSQuIDS object answers finite numbers. *)
Definition finite_evaluations (ext : Externals) : Prop :=
  forall h flavor E rho, PyFloat.isfinite (EvalFlavor ext h flavor E rho) = true.

Definition coverage_error : exn :=
  AssertionError (Some "Matter layers do not cover the full baseline").

(** What the nuSQuIDS object answers, for every energy and final flavor,
    after the history [h] *)
Definition evaluate (ext : Externals) (energy_GeV : list float)
    (final_flavors : list Z) (rho : Z) (h : list nsq_call) : list (list float) :=
  map (fun E =>
         map (fun final_flavor =>
                EvalFlavor ext h final_flavor (E * units_GeV ext)%float rho)
             final_flavors)
      energy_GeV.

(** The answers after each of the histories [hs], by energy *)
Definition table (ext : Externals) (final_flavors : list Z) (rho : Z)
    (energy_GeV : list float) (hs : list (list nsq_call)) : tensor :=
  map (fun E =>
         map (fun h =>
                map (fun final_flavor =>
                       EvalFlavor ext h final_flavor (E * units_GeV ext)%float rho)
                    final_flavors)
             hs)
      energy_GeV.


(** The evolutions of a history: for every [EvolveState], the length of
    the track in force and whether an initial state was set since the
    evolution before. *)
Fixpoint segments_from (track : option float) (primed : bool)
    (h : list nsq_call) : list (option float * bool) :=
  match h with
  | [] => []
  | Set_Track (VacuumTrack x) :: rest => segments_from (Some x) primed rest
  | Set_Track (ConstantDensityTrack x) :: rest => segments_from (Some x) primed rest
  | Set_initial_state _ :: rest => segments_from track true rest
  | EvolveState :: rest => (track, primed) :: segments_from track false rest
  | _ :: rest => segments_from track primed rest
  end.

Definition segments (h : list nsq_call) : list (option float * bool) :=
  segments_from None false h.

(** [abs(sum(p) - 1) <= 1e-6] *)
Definition sums_to_one (p : list float) : bool :=
  PyFloat.le (abs (fold_left PrimFloat.add p 0 - 1))%float 0x1.0c6f7a0b5ed8dp-20.

(** The probabilities sum to one over the final flavor. *)
Definition unitary (p : probs) : bool :=
  match p with
  | Probs1 p => sums_to_one p
  | Probs2 p => forallb sums_to_one p
  | Probs3 p => forallb (forallb sums_to_one) p
  end.

(** ** The claims of the specification, as predicates on the model *)

(** Every violation is reported by an error that names the violated
    condition. *)
Definition names_every_violation (c : OscCalculator) : Prop :=
  forall D k,
    SU3.first_failure D = Some k ->
    exists e, fst (check_decoherence_D_matrix D c) = Raise e
              /\ SU3.names e k = true.

(** A matrix with a negative or a non-real entry is rejected. *)
Definition rejects_negative_and_complex (c : OscCalculator) : Prop :=
  forall D,
    DMatrix.all_nonneg D = false \/ DMatrix.all_real D = false ->
    exists e, fst (check_decoherence_D_matrix D c) = Raise e.

(** With no decoherence configured, a returned result sums to one over the
    final flavor. *)
Definition postvalidates_unitarity (ext : Externals) (c : OscCalculator) : Prop :=
  forall energy_GeV initial_flavor initial_state distance_km coszen nubar p c',
    calc_osc_prob ext energy_GeV initial_flavor initial_state distance_km coszen
      nubar c = (Ok p, c') ->
    _decoh_model_kw c = None ->
    unitary p = true.


(** After the two setters succeed, [get_mixing_angles] returns. *)
Definition mixing_angles_can_be_read (ext : Externals) (c : OscCalculator) : Prop :=
  forall theta12 theta13 theta23 deltacp deltam21 deltam31 c1 c2,
    set_mixing_angles theta12 theta13 theta23 deltacp c = (Ok tt, c1) ->
    set_mass_splittings ext deltam21 deltam31 c1 = (Ok tt, c2) ->
    exists r, fst (get_mixing_angles c2) = Ok r.


(** ** Further methods of the calculator *)

(** *** [set_deltacp] *)

Definition set_deltacp (deltacp : float) : M unit :=
  t <- gets tool ;;
  match t with
  | nusquids_tool => nsq_do (Set_CPPhase 0 2 deltacp)
  | deimos_tool =>
      raise (Exception "Cannot set delta CP on its own for `deimos`, use `set_mixing_angles`")
  | prob3_tool => prob3_set "deltacp" (VFloat deltacp)
  end.

(** *** Labels *)

(** [l[i]] on a Python list: a negative index counts from the end. *)
Definition list_getitem {A} (l : list A) (i : Z) : result A :=
  let j := if (i <? 0)%Z then (i + Z.of_nat (length l))%Z else i in
  if (j <? 0)%Z then Raise (IndexError "list index out of range")
  else match l !! Z.to_nat j with
       | Some x => Ok x
       | None => Raise (IndexError "list index out of range")
       end.

Definition get_flavor_tex (i : Z) : M string :=
  n <- gets num_neutrinos ;;
  assert_ (i <? Z.of_nat n)%Z None ;;;
  fl <- gets flavors ;;
  flavor <- lift (list_getitem fl i) ;;
  if bool_decide (flavor = "e") then ret "e"
  else if bool_decide (flavor = "mu") then ret "\mu"
  else if bool_decide (flavor = "tau") then ret "\tau"
  else raise (Exception ("Unknown flavor : " ++ flavor)%string).

(** *** [set_decoherence_model] *)

(** [kw.pop(key)] *)
Definition pop (kw : gmap string float) (key : string)
    : result (float * gmap string float) :=
  match kw !! key with
  | Some v => Ok (v, delete key kw)
  | None => Raise (KeyError key)
  end.

Section DecoherenceModels.

Context (ext : Externals).

(** The D matrices of the pre-defined models are computed by
    [deimos.models.decoherence], outside the embedded sources: the nu-VBH
    models return a basis and a matrix, the generic models a matrix. *)
Context (get_randomize_phase_decoherence_D_matrix
         get_randomize_state_decoherence_D_matrix
         get_neutrino_loss_decoherence_D_matrix
           : nat -> float -> result (string * matrix)).
Context (get_generic_model_decoherence_D_matrix
           : string -> float -> result matrix).

(** The keyword arguments are floats. *)
Definition set_decoherence_model (model_name : string) (kw : gmap string float)
    : M unit :=
  (* Unpack args *)
  assert_ (bool_decide (is_Some (kw !! "gamma0_eV"))) None ;;;
  x <- lift (pop kw "gamma0_eV") ;;
  let '(gamma0_eV, kw) := x in
  assert_ (bool_decide (is_Some (kw !! "n"))) None ;;;
  x <- lift (pop kw "n") ;;
  let '(n, kw) := x in
  assert_ (bool_decide (is_Some (kw !! "E0_eV"))) None ;;;
  x <- lift (pop kw "E0_eV") ;;
  let '(E0_eV, kw) := x in
  assert_ (size kw =? 0)%nat None ;;;
  (* Check if model is one of the nuVBH models *)
  let get_D_matrix_func :=
    if bool_decide (model_name = "randomize_phase")
    then Some get_randomize_phase_decoherence_D_matrix
    else if bool_decide (model_name = "randomize_state")
    then Some get_randomize_state_decoherence_D_matrix
    else if bool_decide (model_name = "neutrino_loss")
    then Some get_neutrino_loss_decoherence_D_matrix
    else None in
  D_matrix0_eV <-
    match get_D_matrix_func with
    | Some get_D_matrix =>
        num_states <- gets num_neutrinos ;;
        r <- lift (get_D_matrix num_states gamma0_eV) ;;
        let '(D_matrix_basis, D_matrix0_eV) := r in
        ret D_matrix0_eV
    | None =>
        (* Otherwise, try the generic models *)
        lift (get_generic_model_decoherence_D_matrix model_name gamma0_eV)
    end ;;
  (* Pass to the solver *)
  set_decoherence_D_matrix ext D_matrix0_eV n E0_eV.

End DecoherenceModels.

(** ** The damping coefficients of the quantum-gravity scenarios

    [calc_qg_damping_coefficient] and [calc_coherence_length] of
    [deimos/models/decoherence/compare_qg_decoherence_scenarios.py], for a
    single energy.  The keyword arguments [qg_params] are numbers or
    [None]. *)

Section QuantumGravity.

Local Open Scope float_scope.

(** The constant [GeV_to_eV] and [np.power], from outside the embedded
    sources *)
Context (GeV_to_eV : float) (np_power : float -> float -> float).

(** A number where numpy needs one *)
Definition np_number (v : option float) : result float :=
  match v with
  | Some x => Ok x
  | None => Raise (TypeError "unsupported operand type(s): 'NoneType'")
  end.

Definition calc_qg_damping_coefficient (qg_model : option string)
    (E_GeV mass_splitting_eV2 theta_rad : float)
    (qg_params : gmap string (option float)) : result float :=
  (* Convert units *)
  let E_eV := E_GeV * GeV_to_eV in
  (* Get QG scale *)
  match qg_params !! "E_qg_eV" with
  | None => Raise (KeyError "E_qg_eV")
  | Some E_qg_eV =>
  (* Checks *)
  match E_qg_eV, qg_model with
  | None, _ => Raise (AssertionError None)
  | Some _, None => Raise (AssertionError None)
  | Some E_qg_eV, Some qg_model =>
  (* Some elements are common to multiple models *)
  if bool_decide (qg_model ∈ ["minimal_length_fluctuations";
                              "metric_fluctuations"]) then
    (* Mass of lightest neutrino state is a free parameter *)
    match qg_params !! "m1_eV" with
    | None => Raise (KeyError "m1_eV")
    | Some m1_eV =>
    match np_number m1_eV with
    | Raise e => Raise e
    | Ok m1_eV =>
    let m2_eV := sqrt (mass_splitting_eV2 + PyFloat.square m1_eV) in
    (* Calc average group velocity *)
    let m_mean_eV := (m1_eV + m2_eV) / 2 in
    let p_mean_eV := sqrt (PyFloat.square E_eV - PyFloat.square m_mean_eV) in
    let v_g := p_mean_eV / E_eV in
    (* Calc (delta m)^2 *)
    let dm_squared_eV := PyFloat.square (m2_eV - m1_eV) in
    if bool_decide (qg_model = "minimal_length_fluctuations") then
      let alpha := 16 * np_power E_eV 4 * dm_squared_eV in
      let alpha := alpha / (v_g * np_power E_qg_eV 5) in
      Ok alpha
    else
      let alpha := 1 / (8 * v_g * E_qg_eV) in
      let alpha :=
        alpha * PyFloat.square
                  (1 + (PyFloat.square E_eV / PyFloat.square (m1_eV * m2_eV))) in
      let alpha := alpha * dm_squared_eV in
      Ok alpha
    end
    end
  else if bool_decide (qg_model = "nu_vbh_interactions") then
    match qg_params !! "n" with
    | None => Raise (KeyError "n")
    | Some n =>
    match np_number n with
    | Raise e => Raise e
    | Ok n => Ok (np_power E_eV n / np_power E_qg_eV (n - 1))
    end
    end
  else Raise (Exception ("Unknown model : " ++ qg_model)%string)
  end
  end.

Definition calc_coherence_length (qg_model : option string)
    (E_GeV mass_splitting_eV2 theta_rad : float)
    (qg_params : gmap string (option float)) : result float :=
  match calc_qg_damping_coefficient qg_model E_GeV mass_splitting_eV2
          theta_rad qg_params with
  | Ok alpha => Ok (1 / alpha)
  | Raise e => Raise e
  end.

End QuantumGravity.

(** ** Further notions used to state the properties *)

(** What no method changes: the backend, the mode and the flavors *)
Definition same_identity (c c' : OscCalculator) : Prop :=
  tool c' = tool c /\ atmospheric c' = atmospheric c
  /\ flavors c' = flavors c /\ num_neutrinos c' = num_neutrinos c.

(** [c'] is [c] but for the calls made on the backends. *)
Definition same_configuration (c c' : OscCalculator) : Prop :=
  c' = with_nusquids (nusquids c') (with_propagator (_propagator c') c).

(** The state a method leaves behind is related to the one it found. *)
Definition preserves (R : OscCalculator -> OscCalculator -> Prop) {A}
    (m : M A) : Prop :=
  forall c, R c (snd (m c)).

(** The arguments say where to propagate in the way the mode asks for:
    [coszen] in atmospheric mode, [distance_km] otherwise, and not both. *)
Definition right_mode (c : OscCalculator) (distance_km coszen : option grid)
    : Prop :=
  if atmospheric c
  then is_Some coszen /\ distance_km = None
  else is_Some distance_km /\ coszen = None.

(** The flavor argument of a call is absent, or an index of the
    calculator. *)
Definition valid_flavor (c : OscCalculator) (initial_flavor : option flavor_arg)
    : Prop :=
  match initial_flavor with
  | None => True
  | Some f => exists z, f = FlavorInt z /\ z ∈ [0; 1; 2]%Z
                        /\ (z < Z.of_nat (num_neutrinos c))%Z
  end.

(** The shape of what [calc_osc_prob] returns *)
Definition probs_shape (p : probs) (shape : list nat) : Prop :=
  match p, shape with
  | Probs1 v, [n] => length v = n
  | Probs2 rows, [a; n] => length rows = a /\ Forall (fun r => length r = n) rows
  | Probs3 t, [a; b; n] => tensor_shape_is t a b n = true
  | _, _ => False
  end.

(** The prob3 backend holds the oscillation parameters, as numbers. *)
Definition prob3_configured (c : OscCalculator)
    (theta12 theta13 theta23 deltacp deltam21 deltam31 : float) : Prop :=
  _prob3_settings c !! "theta12" = Some (VFloat theta12)
  /\ _prob3_settings c !! "theta13" = Some (VFloat theta13)
  /\ _prob3_settings c !! "theta23" = Some (VFloat theta23)
  /\ _prob3_settings c !! "deltacp" = Some (VFloat deltacp)
  /\ _prob3_settings c !! "deltam21" = Some (VFloat deltam21)
  /\ _prob3_settings c !! "deltam31" = Some (VFloat deltam31).

(** The track of a distance in vacuum or in constant matter *)
Definition track_of (matter : string) (x : float) : nsq_track :=
  if bool_decide (matter = "vacuum") then VacuumTrack x
  else ConstantDensityTrack x.

(** Whether the backend of a tool can be imported *)
Definition tool_available (ext : Externals) (t : tool_t) : bool :=
  match t with
  | nusquids_tool => NUSQUIDS_AVAIL ext
  | deimos_tool => true
  | prob3_tool => PROB3_AVAIL ext
  end.
(** The shape of the result for an energy grid [E], a distance or
    cos(zenith) grid [g] and [n] flavors: a single value gives no axis. *)
Definition result_shape (E g : grid) (n : nat) : list nat :=
  (if is_scalar E then [] else [grid_size E])
  ++ (if is_scalar g then [] else [grid_size g]) ++ [n].

(** The call of the backend in [calc_osc_prob] *)
Definition dispatch (ext : Externals) (c : OscCalculator) (energy_GeV : grid)
    (initial_flavor : option Z) (initial_state : option ndarray)
    (distance_km coszen : option grid) (nubar : bool) : M tensor :=
  match tool c with
  | nusquids_tool =>
      _calc_osc_prob_nusquids ext energy_GeV initial_flavor initial_state
        nubar distance_km coszen
  | deimos_tool =>
      match initial_flavor with
      | Some f => _calc_osc_prob_deimos ext f energy_GeV distance_km coszen nubar
      | None =>
          raise (AssertionError
                   (Some "must provide `initial_flavor` (`initial_state` not currently supported for deimos"))
      end
  | prob3_tool =>
      _calc_osc_prob_prob3 ext initial_flavor energy_GeV distance_km coszen nubar
  end.

(** The error of a call whose arguments do not fit the mode *)
Definition mode_error (c : OscCalculator) : exn :=
  AssertionError
    (Some (if atmospheric c
           then "Must provide `coszen` (and not `distance_km`) in atmospheric mode"
           else "Must provide `distance_km` (and not `coszen`) in non-atmospheric mode")).
(** The state the nuSQuIDS object starts from: the pure state of the
    initial flavor, laid out over the nodes [outer], or the state the
    caller gave. *)
Definition initial_state_of (c : OscCalculator) (outer : list nat)
    (initial_flavor : option flavor_arg) (initial_state : option ndarray)
    (nubar : bool) (st0 : ndarray) : Prop :=
  match initial_flavor with
  | Some (FlavorInt z) =>
      pure_flavor_state outer (if nubar then 1%Z else 0%Z) z (num_neutrinos c)
      = Ok st0
  | Some (FlavorStr _) => False
  | None => initial_state = Some st0
  end.

(** The calls that propagate over the distance [L] in vacuum or in
    constant matter *)
Definition propagation (ext : Externals) (matter : string) (st0 : ndarray)
    (L : float) : list nsq_call :=
  [Set_Track (track_of matter (L * units_km ext)%float);
   Set_initial_state st0; EvolveState].
(** The settings the prob3 propagator is given for the energy [E] *)
Definition prob3_mns (ext : Externals)
    (theta12 theta13 theta23 deltacp deltam21 deltam31 : float) (nubar : bool)
    (E : float) : prob3_call :=
  SetMNS (PyFloat.square (np_sin ext theta12))
         (PyFloat.square (np_sin ext theta13))
         (PyFloat.square (np_sin ext theta23))
         deltam21 (deltam31 - deltam21)%float deltacp E true
         (if nubar then (-1)%Z else 1%Z).

Module Sample.

(** A three-flavor calculator in atmospheric mode, with the defaults *)
Definition atmospheric_three (tool_name : string) : OscCalculator :=
  match __init__ Example.externals tool_name true None None None None None with
  | Ok self => self
  | Raise _ => blank_calculator deimos_tool true [] None
  end.

(** A prob3 calculator with the Earth as medium *)
Definition prob3_earth : OscCalculator :=
  snd (set_matter Example.externals (Some "earth") ∅ (Example.three "prob3")).

End Sample.
(** The matter settings are the ones found. *)
Definition keeps_matter (c c' : OscCalculator) : Prop :=
  _matter_settings c' = _matter_settings c.

(** ** Notions of the amended claims *)

(** The index [calc_osc_prob] passes to the backend for a flavor argument
    that [_get_flavor_index] accepts *)
Definition flavor_index_of (initial_flavor : option flavor_arg) : option Z :=
  match initial_flavor with
  | Some (FlavorInt z) => Some z
  | _ => None
  end.

(** The [coszen] that [calc_osc_prob] passes to the backend: in
    atmospheric mode a single value has become an array. *)
Definition backend_coszen (c : OscCalculator) (coszen : option grid)
    : option grid :=
  if atmospheric c then (fun g => Array (asarray g)) <$> coszen else coszen.

(** The call of the backend in [calc_osc_prob], for the arguments of the
    caller *)
Definition backend_call (ext : Externals) (c : OscCalculator)
    (energy_GeV : grid) (initial_flavor : option flavor_arg)
    (initial_state : option ndarray) (distance_km coszen : option grid)
    (nubar : bool) : M tensor :=
  dispatch ext c energy_GeV (flavor_index_of initial_flavor) initial_state
    distance_km (backend_coszen c coszen) nubar.

(** A tensor with its single-valued dimensions removed: [t[0,0,:]],
    [t[0,:,:]], [t[:,0,:]] or [t] *)
Definition squeezed (single_energy single_dist : bool) (t : tensor) : probs :=
  if single_energy && single_dist then Probs1 (hd [] (hd [] t))
  else if single_energy then Probs2 (hd [] t)
  else if single_dist then Probs2 (map (hd []) t)
  else Probs3 t.

(** The value last set for the mass splitting [i] in a history of calls on
    the nuSQuIDS object *)
Fixpoint last_mass_difference (h : list nsq_call) (i : nat) : option float :=
  match h with
  | [] => None
  | call :: rest =>
      match last_mass_difference rest i with
      | Some v => Some v
      | None =>
          match call with
          | Set_SquareMassDifference j v => if (j =? i)%nat then Some v else None
          | _ => None
          end
      end
  end.

(** The nuSQuIDS object reports for a mass splitting the value last set
    for it. *)
Definition reports_last_set (ext : Externals) : Prop :=
  forall h i v,
    last_mass_difference h i = Some v -> Get_SquareMassDifference ext h i = v.

(** A mass splitting in eV^2, converted to the units of nuSQuIDS by
    [set_mass_splittings] and back by [get_mass_splittings] *)
Definition through_nusquids_units (ext : Externals) (dm2 : float) : float :=
  ((dm2 * units_eV ext * units_eV ext) / (units_eV ext * units_eV ext))%float.

(** The path lengths a call asks for: its distances, or in atmospheric
    mode the path lengths of its cos(zenith) values. *)
Definition requested_path_lengths (ext : Externals) (c : OscCalculator)
    (distance_km coszen : option grid) : list float :=
  if atmospheric c
  then match coszen with
       | Some g => deimos_path_lengths ext c (asarray g)
       | None => []
       end
  else match distance_km with
       | Some g => asarray g
       | None => []
       end.

(** Every call on a calculator that holds layers fails with the error of
    the incomplete coverage when the layers end below a path length it
    asks for. *)
Definition coverage_is_checked (ext : Externals) (c : OscCalculator) : Prop :=
  forall energy_GeV initial_flavor initial_state distance_km coszen nubar
         endpoints densities fractions final_endpoint,
    layered_with c endpoints densities fractions ->
    last endpoints = Some final_endpoint ->
    (exists L, L ∈ requested_path_lengths ext c distance_km coszen
               /\ PyFloat.lt final_endpoint L = true) ->
    fst (calc_osc_prob ext energy_GeV initial_flavor initial_state distance_km
           coszen nubar c) = Raise coverage_error.



Module Cases.

(** The example collaborators, with a nuSQuIDS object that reports the
    mass splitting last set *)
Definition reading : Externals :=
  {| NUSQUIDS_AVAIL := NUSQUIDS_AVAIL Example.externals;
     NUSQUIDS_DECOH_AVAIL := NUSQUIDS_DECOH_AVAIL Example.externals;
     NUSQUIDS_LIV_AVAIL := NUSQUIDS_LIV_AVAIL Example.externals;
     PROB3_AVAIL := PROB3_AVAIL Example.externals;
     units_GeV := units_GeV Example.externals;
     units_eV := units_eV Example.externals;
     units_km := units_km Example.externals;
     GetNumE := GetNumE Example.externals;
     GetNumCos := GetNumCos Example.externals;
     EvalFlavor := EvalFlavor Example.externals;
     EvalFlavorAtm := EvalFlavorAtm Example.externals;
     Get_SquareMassDifference :=
       fun h i => default 0%float (last_mass_difference h i);
     FLAVORS := FLAVORS Example.externals;
     MASS_SPLITTINGS_eV2 := MASS_SPLITTINGS_eV2 Example.externals;
     MIXING_ANGLES_rad := MIXING_ANGLES_rad Example.externals;
     DELTACP_rad := DELTACP_rad Example.externals;
     DEFAULT_ATMO_PROD_HEIGHT_km := DEFAULT_ATMO_PROD_HEIGHT_km Example.externals;
     DEFAULT_ATMO_DETECTOR_DEPTH_km :=
       DEFAULT_ATMO_DETECTOR_DEPTH_km Example.externals;
     get_matter_potential_flav := get_matter_potential_flav Example.externals;
     calc_osc_probs := calc_osc_probs Example.externals;
     calc_path_length_from_coszen :=
       calc_path_length_from_coszen Example.externals;
     np_sin := np_sin Example.externals;
     GetVacuumProb := GetVacuumProb Example.externals;
     GetProb := GetProb Example.externals |}.

(** A nusquids calculator in atmospheric mode that holds two layers,
    ending at 1 km and at 2 km *)
Definition atmospheric_layered : OscCalculator :=
  snd (set_matter Example.externals (Some "layers") Example.two_layers
         (Sample.atmospheric_three "nusquids")).


End Cases.

(** * Properties *)

(** ** Laws of the method monad *)

Section MonadLaws.

Context {A B C : Type}.

Lemma bind_ret (a : A) (f : A -> M B) c : bind (ret a) f c = f a c.
Proof. reflexivity. Qed.

Lemma bind_raise e (f : A -> M B) c : bind (raise e) f c = (Raise e, c).
Proof. reflexivity. Qed.

Lemma bind_gets (p : OscCalculator -> A) (f : A -> M B) c :
  bind (gets p) f c = f (p c) c.
Proof. reflexivity. Qed.

Lemma bind_modify (u : OscCalculator -> OscCalculator) (f : unit -> M B) c :
  bind (modify u) f c = f tt (u c).
Proof. reflexivity. Qed.

Lemma bind_assoc (m : M A) (f : A -> M B) (k : B -> M C) c :
  bind (bind m f) k c = bind m (fun x => bind (f x) k) c.
Proof. unfold bind. destruct (m c) as [[a|e] c']; reflexivity. Qed.

Lemma bind_assert (b : bool) msg (f : unit -> M B) c :
  bind (assert_ b msg) f c
  = if b then f tt c else (Raise (AssertionError msg), c).
Proof. destruct b; reflexivity. Qed.

Lemma bind_lift (r : result A) (f : A -> M B) c :
  bind (lift r) f c
  = match r with Ok a => f a c | Raise e => (Raise e, c) end.
Proof. destruct r; reflexivity. Qed.

End MonadLaws.

Lemma run_assert (b : bool) msg c :
  assert_ b msg c = if b then (Ok tt, c) else (Raise (AssertionError msg), c).
Proof. destruct b; reflexivity. Qed.

(** ** Comparisons of floats *)

Module FloatFacts.

Lemma SFcompare_swap (x y : spec_float) :
  SFcompare y x = option_map CompOpp (SFcompare x y).
Proof.
  destruct x as [sx|sx| |sx mx ex], y as [sy|sy| |sy my ey]; simpl;
    try reflexivity;
    try (destruct sx; reflexivity);
    try (destruct sy; reflexivity);
    try (destruct sx, sy; reflexivity).
  destruct sx, sy; simpl; try reflexivity.
  all: rewrite (Z.compare_antisym ey ex).
  all: destruct (ey ?= ex)%Z; simpl; try reflexivity.
  all: rewrite (ZC4 my mx); try rewrite CompOpp_involutive; reflexivity.
Qed.

(** [x < y] excludes [x >= y]. *)
Lemma lt_not_ge (x y : float) :
  PyFloat.lt x y = true -> PyFloat.ge x y = false.
Proof.
  unfold PyFloat.lt, PyFloat.ge. rewrite ltb_spec, leb_spec.
  unfold SFltb, SFleb. rewrite (SFcompare_swap (Prim2SF x) (Prim2SF y)).
  destruct (SFcompare (Prim2SF x) (Prim2SF y)) as [[]|]; simpl; congruence.
Qed.

(** [x < y] excludes [y < x]. *)
Lemma lt_asym (x y : float) :
  PyFloat.lt x y = true -> PyFloat.lt y x = false.
Proof.
  unfold PyFloat.lt. rewrite !ltb_spec.
  unfold SFltb. rewrite (SFcompare_swap (Prim2SF x) (Prim2SF y)).
  destruct (SFcompare (Prim2SF x) (Prim2SF y)) as [[]|]; simpl; congruence.
Qed.

End FloatFacts.

(** ** The decoherence validator *)

Section ValidatorFacts.

Import DMatrix.

Lemma shape_is_lookup (D : matrix) (rows cols i j : nat) :
  shape_is D rows cols = true -> (i < rows)%nat -> (j < cols)%nat ->
  exists row z, D !! i = Some row /\ row !! j = Some z.
Proof.
  unfold shape_is. intros [Hlen Hrows]%andb_true_iff Hi Hj.
  apply Nat.eqb_eq in Hlen.
  destruct (lookup_lt_is_Some_2 D i) as [row Hrow]; [lia|].
  rewrite forallb_forall in Hrows.
  assert (Hr : length row = cols).
  { apply Nat.eqb_eq, Hrows, list_elem_of_In.
    eapply list_elem_of_lookup_2, Hrow. }
  destruct (lookup_lt_is_Some_2 row j) as [z Hz]; [lia|].
  eauto.
Qed.

(** Inside a 9 by 9 array, reading an entry does not raise. *)
Lemma D_at_entry (D : matrix) (i j : nat) :
  shape_is D 9 9 = true -> (i < 9)%nat -> (j < 9)%nat ->
  D_at D i j = ret (SU3.entry D i j).
Proof.
  intros Hs Hi Hj.
  destruct (shape_is_lookup D 9 9 i j Hs Hi Hj) as (row & z & Hrow & Hz).
  unfold D_at, getitem2, SU3.entry. rewrite Hrow, Hz. reflexivity.
Qed.

Lemma assert_all_cons D k r c :
  SU3.assert_all D (k :: r) c
  = if SU3.holds D k then SU3.assert_all D r c
    else (Raise (AssertionError (SU3.source_message k)), c).
Proof. cbn [SU3.assert_all]. apply bind_assert. Qed.

(** One assertion of the source against one condition of the list. *)
Ltac assert_step D :=
  repeat first [rewrite bind_assoc | rewrite bind_ret];
  cbv zeta;
  lazymatch goal with
  | |- bind (assert_ ?b _) _ _ = SU3.assert_all D (?k :: _) _ =>
      rewrite (bind_assert b), (assert_all_cons D k);
      change b with (SU3.holds D k);
      destruct (SU3.holds D k); [cbv beta|reflexivity]
  end.

(** For three flavors the source makes the assertions of the listed
    conditions, in the order of the list. *)
Lemma check_is_assert_all (D : matrix) (c : OscCalculator) :
  num_neutrinos c = 3%nat ->
  check_decoherence_D_matrix D c = SU3.assert_all D SU3.conditions c.
Proof.
  intros Hn. unfold check_decoherence_D_matrix.
  unfold bind at 1. unfold gets at 1. rewrite Hn.
  change (3 =? 3)%nat with true. cbv iota.
  let l := eval vm_compute in SU3.conditions in change SU3.conditions with l.
  rewrite assert_all_cons, bind_assert.
  change (SU3.holds D SU3.ShapeIs9x9) with (shape_is D 9 9).
  destruct (shape_is D 9 9) eqn:Hs; [|reflexivity].
  unfold beta.
  rewrite ?(D_at_entry D _ _ Hs) by lia.
  do 41 assert_step D.
  repeat first [rewrite bind_assoc | rewrite bind_ret]. cbv zeta.
  rewrite run_assert, assert_all_cons.
  lazymatch goal with
  | |- (if ?b then _ else _) = _ =>
      change b with (SU3.holds D SU3.QuadraticB38)
  end.
  destruct (SU3.holds D SU3.QuadraticB38); reflexivity.
Qed.

Lemma assert_all_first_failure (D : matrix) (cs : list SU3.condition)
    (c : OscCalculator) :
  SU3.assert_all D cs c
  = match find (fun k => negb (SU3.holds D k)) cs with
    | None => (Ok tt, c)
    | Some k => (Raise (AssertionError (SU3.source_message k)), c)
    end.
Proof.
  induction cs as [|k cs IH]; [reflexivity|].
  rewrite assert_all_cons. cbn [find].
  destruct (SU3.holds D k); simpl; [apply IH|reflexivity].
Qed.

Lemma check_su3 (D : matrix) (c : OscCalculator) :
  num_neutrinos c = 3%nat ->
  check_decoherence_D_matrix D c
  = match SU3.first_failure D with
    | None => (Ok tt, c)
    | Some k => (Raise (AssertionError (SU3.source_message k)), c)
    end.
Proof.
  intros Hn. rewrite (check_is_assert_all D c Hn).
  apply assert_all_first_failure.
Qed.

(** Away from three flavors nothing is checked: a line is printed. *)
Lemma check_not_su3 (D : matrix) (c : OscCalculator) :
  num_neutrinos c <> 3%nat ->
  check_decoherence_D_matrix D c
  = (Ok tt,
     with_stdout
       (stdout c
        ++ [("Checks on decoherence D matrix inequalities not yet implemented for a "
             ++ pretty (num_neutrinos c) ++ " neutrino system")%string]) c).
Proof.
  intros Hn. unfold check_decoherence_D_matrix.
  unfold bind, gets. apply Nat.eqb_neq in Hn. rewrite Hn. reflexivity.
Qed.

End ValidatorFacts.

(** C3, as amended.  For three flavors [check_decoherence_D_matrix]
    checks, in this order: the shape 9 by 9, that every entry is real, that
    every entry is non-negative, the symmetry of the off-diagonal pairs,
    the linear inequalities a1..a8, the quadratic inequalities of b12, b13
    and b23, and the quadratic inequality of b38 against a3*a8.  The first
    violated condition raises an [AssertionError] and leaves the calculator
    as it was; the error of a1..a5, a7 and a8 carries a message that names
    the inequality, the error of every condition other than the linear
    ones carries no message. *)
Theorem check_decoherence_D_matrix_su3_order (D : matrix) (c : OscCalculator) :
  num_neutrinos c = 3%nat ->
  match SU3.first_failure D with
  | None => check_decoherence_D_matrix D c = (Ok tt, c)
  | Some k =>
      exists msg,
        check_decoherence_D_matrix D c = (Raise (AssertionError msg), c)
        /\ match k with
           | SU3.Linear 6 => True
           | SU3.Linear _ =>
               msg = Some ("Inequality failure (" ++ SU3.name k ++ ")")%string
           | _ => msg = None
           end
  end.
Proof.
  intros Hn. rewrite (check_su3 D c Hn).
  destruct (SU3.first_failure D) as [k|] eqn:Hk; [|reflexivity].
  exists (SU3.source_message k). split; [reflexivity|].
  apply find_some in Hk. destruct Hk as [Hk _].
  vm_compute in Hk.
  repeat (destruct Hk as [<-|Hk]; [vm_compute; reflexivity|]).
  destruct Hk.
Qed.

(** A 9 by 9 matrix that passes every check: the matrix of zeros on a
    three-flavor calculator. *)
Lemma check_decoherence_D_matrix_su3_order_witness :
  check_decoherence_D_matrix (DMatrix.zeros 9) (Example.three "deimos")
  = (Ok tt, Example.three "deimos").
Proof.
  exact (check_decoherence_D_matrix_su3_order (DMatrix.zeros 9)
           (Example.three "deimos") eq_refl).
Defined.

(** C3, as stated, fails: the matrix of zeros with [D[1,2] = D[2,1] = 1]
    passes every check up to the quadratic inequality of b12, and the
    violation of that inequality is reported by an assertion error with no
    message, which names no inequality. *)
Lemma quadratic_violation_error_is_unnamed :
  SU3.first_failure (DMatrix.symmetric_pair 9 1 2 1)
  = Some (SU3.QuadraticPair 1 2)
  /\ fst (check_decoherence_D_matrix (DMatrix.symmetric_pair 9 1 2 1)
            (Example.three "deimos"))
     = Raise (AssertionError None)
  /\ ~ names_every_violation (Example.three "deimos").
Proof.
  assert (Hf : SU3.first_failure (DMatrix.symmetric_pair 9 1 2 1)
               = Some (SU3.QuadraticPair 1 2)) by (vm_compute; reflexivity).
  assert (Hc : fst (check_decoherence_D_matrix (DMatrix.symmetric_pair 9 1 2 1)
                      (Example.three "deimos"))
               = Raise (AssertionError None)) by (vm_compute; reflexivity).
  split; [exact Hf|split; [exact Hc|]].
  intros H. destruct (H _ _ Hf) as (e & He & Hname).
  rewrite Hc in He. injection He as <-. discriminate Hname.
Qed.

(** C4, as amended.  For a two-flavor calculator
    [check_decoherence_D_matrix] makes no check of [D]: it prints that the
    checks are not implemented and accepts every matrix, also one with a
    negative or a non-real entry. *)
Theorem two_flavor_D_matrix_is_unchecked (D : matrix) (c : OscCalculator) :
  num_neutrinos c = 2%nat ->
  check_decoherence_D_matrix D c
  = (Ok tt,
     with_stdout
       (stdout c
        ++ ["Checks on decoherence D matrix inequalities not yet implemented for a 2 neutrino system"])
       c).
Proof.
  intros Hn. rewrite check_not_su3 by lia. rewrite Hn. reflexivity.
Qed.

Lemma two_flavor_D_matrix_is_unchecked_witness :
  check_decoherence_D_matrix [[Complex (-1) 0; Complex 0 1]] (Example.two "deimos")
  = (Ok tt,
     with_stdout
       ["Checks on decoherence D matrix inequalities not yet implemented for a 2 neutrino system"]
       (Example.two "deimos")).
Proof.
  exact (two_flavor_D_matrix_is_unchecked [[Complex (-1) 0; Complex 0 1]]
           (Example.two "deimos") eq_refl).
Defined.

(** C4, as stated, fails: a two-flavor calculator accepts the 4 by 4
    matrix whose entry [D[0,0]] is -1, and a matrix with an imaginary
    entry. *)
Lemma two_flavor_negative_entry_accepted :
  DMatrix.all_nonneg (DMatrix.single_diagonal 4 0 (-1)) = false
  /\ fst (check_decoherence_D_matrix (DMatrix.single_diagonal 4 0 (-1))
            (Example.two "deimos")) = Ok tt
  /\ DMatrix.all_real [[Complex 0 1]] = false
  /\ fst (check_decoherence_D_matrix [[Complex 0 1]] (Example.two "deimos"))
     = Ok tt
  /\ ~ rejects_negative_and_complex (Example.two "deimos").
Proof.
  assert (Hneg : DMatrix.all_nonneg (DMatrix.single_diagonal 4 0 (-1)) = false)
    by (vm_compute; reflexivity).
  assert (Hok : fst (check_decoherence_D_matrix (DMatrix.single_diagonal 4 0 (-1))
                       (Example.two "deimos")) = Ok tt)
    by (vm_compute; reflexivity).
  split; [exact Hneg|split; [exact Hok|]].
  split; [vm_compute; reflexivity|split; [vm_compute; reflexivity|]].
  intros H. destruct (H _ (or_introl Hneg)) as (e & He).
  rewrite Hok in He. discriminate He.
Qed.

Section SingleDiagonal.

Import DMatrix.

Variables (n k : nat) (v : float).

Lemma single_diagonal_shape : shape_is (single_diagonal n k v) n n = true.
Proof.
  unfold shape_is, single_diagonal.
  rewrite length_map, length_seq, Nat.eqb_refl. simpl.
  apply forallb_forall. intros row [i [<- _]]%in_map_iff.
  rewrite length_map, length_seq. apply Nat.eqb_refl.
Qed.

Lemma single_diagonal_real : all_real (single_diagonal n k v) = true.
Proof.
  unfold all_real, single_diagonal.
  apply forallb_forall. intros row [i [<- _]]%in_map_iff.
  apply forallb_forall. intros z [j [<- _]]%in_map_iff.
  destruct ((i =? k)%nat && (j =? k)%nat); reflexivity.
Qed.

Lemma single_diagonal_negative :
  (k < n)%nat -> PyFloat.lt v 0 = true ->
  all_nonneg (single_diagonal n k v) = false.
Proof.
  intros Hk Hv. apply FloatFacts.lt_not_ge in Hv.
  destruct (all_nonneg (single_diagonal n k v)) eqn:E; [|reflexivity].
  unfold all_nonneg, single_diagonal in E.
  rewrite forallb_forall in E.
  assert (Hin : In k (seq 0 n)) by (apply in_seq; lia).
  specialize (E _ (in_map _ _ _ Hin)).
  rewrite forallb_forall in E.
  specialize (E _ (in_map _ _ _ Hin)).
  rewrite !Nat.eqb_refl in E. cbn [andb re] in E. congruence.
Qed.

End SingleDiagonal.

(** C5, as amended.  For three flavors the validator rejects the 9 by 9
    matrix of zeros with one negative diagonal entry and accepts the matrix
    of zeros; for two flavors it accepts both 4 by 4 matrices, since it
    makes no check. *)
Theorem negative_diagonal_rejected_for_three_flavors (c : OscCalculator)
    (k : nat) (v : float) :
  (num_neutrinos c = 2 \/ num_neutrinos c = 3)%nat ->
  (k < num_neutrinos c * num_neutrinos c)%nat ->
  PyFloat.lt v 0 = true ->
  fst (check_decoherence_D_matrix
         (DMatrix.zeros (num_neutrinos c * num_neutrinos c)) c) = Ok tt
  /\ fst (check_decoherence_D_matrix
            (DMatrix.single_diagonal (num_neutrinos c * num_neutrinos c) k v) c)
     = if (num_neutrinos c =? 3)%nat then Raise (AssertionError None) else Ok tt.
Proof.
  intros [Hn|Hn] Hk Hv; rewrite Hn in *.
  - rewrite !check_not_su3 by lia. split; reflexivity.
  - rewrite !check_su3 by exact Hn. split.
    + replace (SU3.first_failure (DMatrix.zeros (3 * 3))) with (@None SU3.condition)
        by (vm_compute; reflexivity).
      reflexivity.
    + unfold SU3.first_failure.
      let l := eval vm_compute in SU3.conditions in change SU3.conditions with l.
      cbn [find SU3.holds].
      change (3 * 3)%nat with 9%nat in *.
      rewrite single_diagonal_shape, single_diagonal_real.
      rewrite single_diagonal_negative by assumption.
      reflexivity.
Qed.

Lemma negative_diagonal_rejected_for_three_flavors_witness :
  fst (check_decoherence_D_matrix (DMatrix.zeros 9) (Example.three "nusquids"))
  = Ok tt
  /\ fst (check_decoherence_D_matrix (DMatrix.single_diagonal 9 4 (-0.5))
            (Example.three "nusquids"))
     = Raise (AssertionError None).
Proof.
  apply (negative_diagonal_rejected_for_three_flavors
           (Example.three "nusquids") 4 (-0.5)%float).
  - right. reflexivity.
  - vm_compute. lia.
  - reflexivity.
Defined.

(** C5, as stated, fails for two flavors: the 4 by 4 matrix of zeros with
    [D[1,1] = -2] is accepted. *)
Lemma two_flavor_negative_diagonal_accepted :
  num_neutrinos (Example.two "nusquids") = 2%nat
  /\ fst (check_decoherence_D_matrix (DMatrix.single_diagonal 4 1 (-2))
            (Example.two "nusquids")) = Ok tt.
Proof. split; vm_compute; reflexivity. Qed.

(** ** Flavor labels *)

Lemma get_flavor_index_str (s : string) (c : OscCalculator) :
  _get_flavor_index (FlavorStr s) c
  = (Raise (TypeError "'<' not supported between instances of 'str' and 'int'"), c).
Proof.
  unfold _get_flavor_index.
  repeat case_bool_decide; reflexivity.
Qed.

(** C10.  A string passed as [initial_flavor] makes [_get_flavor_index],
    and so [calc_osc_prob], raise a [TypeError]: the index is computed and
    then the string itself is compared with the number of flavors.  The
    flavors that are accepted are the integers of [[0, 1, 2]] below the
    number of flavors. *)
Theorem string_flavor_raises_TypeError (ext : Externals) (c : OscCalculator)
    (s : string) (energy_GeV : grid) (initial_state : option ndarray)
    (distance_km coszen : option grid) (nubar : bool) :
  _get_flavor_index (FlavorStr s) c
  = (Raise (TypeError "'<' not supported between instances of 'str' and 'int'"), c)
  /\ calc_osc_prob ext energy_GeV (Some (FlavorStr s)) initial_state
       distance_km coszen nubar c
     = (Raise (TypeError "'<' not supported between instances of 'str' and 'int'"), c)
  /\ forall flavor index,
       fst (_get_flavor_index flavor c) = Ok index
       <-> exists z, flavor = FlavorInt z /\ z ∈ [0; 1; 2]%Z
                     /\ (z < Z.of_nat (num_neutrinos c))%Z /\ index = Some z.
Proof.
  split; [apply get_flavor_index_str|split].
  - unfold calc_osc_prob. destruct energy_GeV; unfold bind at 1;
      rewrite get_flavor_index_str; reflexivity.
  - intros flavor index. destruct flavor as [s'|z].
    + rewrite get_flavor_index_str. simpl. split; [discriminate|].
      intros (z & Hz & _). discriminate.
    + unfold _get_flavor_index. unfold bind at 1. unfold bind at 1.
      unfold assert_. case_bool_decide as Hin; simpl.
      * unfold bind, lift, gets, flavor_lt, assert_, ret, raise. simpl.
        destruct (z <? Z.of_nat (num_neutrinos c))%Z eqn:Hlt; simpl.
        -- split.
           ++ intros [= <-]. exists z. repeat split; auto. lia.
           ++ intros (z' & [= <-] & _ & _ & ->). reflexivity.
        -- split; [discriminate|]. intros (z' & [= <-] & _ & Hlt' & _). lia.
      * split; [discriminate|]. intros (z' & [= <-] & Hin' & _). contradiction.
Qed.

(** ** Running a method step by step *)

Lemma bind_run {A B} (m : M A) (f : A -> M B) c r c' :
  m c = (r, c') ->
  bind m f c = match r with Ok a => f a c' | Raise e => (Raise e, c') end.
Proof. intros H. unfold bind. rewrite H. reflexivity. Qed.

Lemma bind_ok_inv {A B} (m : M A) (f : A -> M B) c b c' :
  bind m f c = (Ok b, c') ->
  exists a c1, m c = (Ok a, c1) /\ f a c1 = (Ok b, c').
Proof.
  unfold bind. destruct (m c) as [[a|e] c1]; [eauto|discriminate].
Qed.

Ltac run_step :=
  first [ rewrite bind_assoc | rewrite bind_ret | rewrite bind_raise
        | rewrite bind_gets | rewrite bind_modify | rewrite bind_assert
        | rewrite bind_lift ].

Ltac run_step_in H :=
  first [ rewrite bind_assoc in H | rewrite bind_ret in H
        | rewrite bind_raise in H | rewrite bind_gets in H
        | rewrite bind_modify in H | rewrite bind_assert in H
        | rewrite bind_lift in H ].

(** A case distinction on what the running method looks at next *)
Ltac head_step :=
  lazymatch goal with
  | |- match (if ?b then _ else _) _ with _ => _ end => destruct b eqn:?
  | |- match (if ?b then _ else _) with _ => _ end => destruct b eqn:?
  | |- match (match ?t with
              | nusquids_tool => _ | deimos_tool => _ | prob3_tool => _
              end) _ with _ => _ end =>
      destruct t eqn:?
  | |- match (match ?r with Ok _ => _ | Raise _ => _ end) with _ => _ end =>
      destruct r eqn:?
  end.

Ltac head_step_in H :=
  lazymatch type of H with
  | bind (if ?b then _ else _) _ _ = _ => destruct b eqn:?
  | bind (match ?r with Some _ => _ | None => _ end) _ _ = _ => destruct r eqn:?
  | (if ?b then _ else _) _ = _ => destruct b eqn:?
  | (if ?b then _ else _) = _ => destruct b eqn:?
  | (match ?r with Ok _ => _ | Raise _ => _ end) = _ => destruct r eqn:?
  | (match ?r with Some _ => _ | None => _ end) _ = _ => destruct r eqn:?
  end.

Lemma getitem_insert_eq (m : gmap string pyval) k v :
  getitem (<[k := v]> m) k = Ok v.
Proof. unfold getitem. rewrite lookup_insert_eq. reflexivity. Qed.

Lemma getitem_insert_ne (m : gmap string pyval) k k' v :
  k <> k' -> getitem (<[k := v]> m) k' = getitem m k'.
Proof.
  intros H. unfold getitem. rewrite lookup_insert_ne by exact H. reflexivity.
Qed.

Lemma getitem_lookup (m : gmap string pyval) k v :
  m !! k = Some v -> getitem m k = Ok v.
Proof. intros H. unfold getitem. rewrite H. reflexivity. Qed.

Ltac getitem_step :=
  rewrite bind_lift;
  repeat (rewrite getitem_insert_ne by done);
  rewrite getitem_insert_eq.

Lemma with_nusquids_same c : with_nusquids (nusquids c) c = c.
Proof. destruct c; reflexivity. Qed.

(** ** The matter model *)



(** ** Mixing angles and mass splittings *)

Lemma set_mixing_angles_ok theta12 theta13 theta23 deltacp c c1 :
  set_mixing_angles theta12 theta13 theta23 deltacp c = (Ok tt, c1) ->
  match tool c with
  | deimos_tool =>
      c1 = with_solver (solver_set_mixing_angles
                          (not_none [Some theta12; theta13; theta23]) deltacp
                          (solver c)) c
  | prob3_tool =>
      c1 = with_prob3_settings
             (prob3_angles theta12 theta13 theta23 deltacp (_prob3_settings c)) c
  | nusquids_tool => tool c1 = nusquids_tool /\ num_neutrinos c1 = num_neutrinos c
  end.
Proof.
  unfold set_mixing_angles, nsq_do, prob3_set, nsq_float_arg. intros H.
  rewrite bind_gets in H.
  destruct (tool c) eqn:Ht.
  all: repeat first [ run_step_in H | head_step_in H | rewrite Ht in H ];
       try discriminate H;
       cbv beta delta [modify raise ret] in H; cbv iota in H;
       try discriminate H.
  all: injection H as <-; first [reflexivity | split; [exact Ht|reflexivity]].
Qed.

Lemma set_mass_splittings_ok ext deltam21 deltam31 c c1 :
  set_mass_splittings ext deltam21 deltam31 c = (Ok tt, c1) ->
  match tool c with
  | deimos_tool =>
      c1 = with_solver (solver_set_mass_splittings
                          (not_none [Some deltam21; deltam31]) (solver c)) c
  | prob3_tool =>
      c1 = with_prob3_settings
             (prob3_splittings deltam21 deltam31 (_prob3_settings c)) c
  | nusquids_tool => tool c1 = nusquids_tool /\ num_neutrinos c1 = num_neutrinos c
  end.
Proof.
  unfold set_mass_splittings, nsq_do, prob3_set. intros H.
  rewrite bind_gets in H.
  destruct (tool c) eqn:Ht.
  all: repeat first [ run_step_in H | head_step_in H | rewrite Ht in H ];
       try discriminate H;
       cbv beta delta [modify raise ret] in H; cbv iota in H;
       try discriminate H.
  all: injection H as <-; first [reflexivity | split; [exact Ht|reflexivity]].
Qed.

(** The calls [set_mass_splittings] makes on the nuSQuIDS object *)
Lemma set_mass_splittings_calls ext deltam21 deltam31 c c1 :
  tool c = nusquids_tool ->
  set_mass_splittings ext deltam21 deltam31 c = (Ok tt, c1) ->
  is_none deltam31 = (num_neutrinos c =? 2)%nat
  /\ c1 = with_nusquids
            (nusquids c
             ++ Set_SquareMassDifference 1
                  (deltam21 * units_eV ext * units_eV ext)%float
                :: match deltam31 with
                   | Some dm31 =>
                       [Set_SquareMassDifference 2
                          (dm31 * units_eV ext * units_eV ext)%float]
                   | None => []
                   end) c.
Proof.
  intros Ht H. unfold set_mass_splittings, nsq_do in H.
  rewrite bind_gets in H.
  destruct (num_neutrinos c =? 2)%nat; rewrite bind_assert in H.
  - destruct deltam31 as [dm31|]; [discriminate H|]. cbn [is_none] in H.
    rewrite bind_gets, Ht, bind_modify in H. injection H as <-.
    split; reflexivity.
  - destruct deltam31 as [dm31|]; [|discriminate H]. cbn [is_none negb] in H.
    rewrite bind_gets, Ht, bind_modify in H. unfold modify in H.
    injection H as <-. split; [reflexivity|].
    unfold with_nusquids. cbn. rewrite <- app_assoc. reflexivity.
Qed.

Lemma last_mass_difference_snoc h call i :
  last_mass_difference (h ++ [call]) i
  = match call with
    | Set_SquareMassDifference j v =>
        if (j =? i)%nat then Some v else last_mass_difference h i
    | _ => last_mass_difference h i
    end.
Proof.
  induction h as [|x h IH]; cbn [app last_mass_difference].
  - destruct call; reflexivity.
  - rewrite IH. destruct call; try reflexivity.
    destruct (_ =? _)%nat; reflexivity.
Qed.

(** C8, as amended.  After [set_mixing_angles] and [set_mass_splittings]
    succeed: with the deimos backend both getters return the array of the
    values supplied; with the prob3 backend [get_mass_splittings] returns
    the values supplied and [get_mixing_angles] returns them for three
    flavors (for any other number its assertion fails); with the nusquids
    backend [get_mixing_angles] raises, and [get_mass_splittings] returns
    what the nuSQuIDS object reports for the splittings, divided by the
    square of its unit: with an object that reports what was last set,
    these are the values supplied, converted to the units of nuSQuIDS and
    back. *)
Theorem getters_return_what_was_set (ext : Externals) (c c1 c2 : OscCalculator)
    (theta12 : float) (theta13 theta23 : option float) (deltacp : float)
    (deltam21 : float) (deltam31 : option float) :
  set_mixing_angles theta12 theta13 theta23 deltacp c = (Ok tt, c1) ->
  set_mass_splittings ext deltam21 deltam31 c1 = (Ok tt, c2) ->
  match tool c with
  | deimos_tool =>
      get_mixing_angles c2
      = (Ok (RVal (VArray (not_none [Some theta12; theta13; theta23]))), c2)
      /\ get_mass_splittings ext c2
         = (Ok (RVal (VArray (not_none [Some deltam21; deltam31]))), c2)
  | prob3_tool =>
      get_mixing_angles c2
      = (if (num_neutrinos c =? 3)%nat
         then Ok (RTuple [VFloat theta12; float_or_none theta13;
                          float_or_none theta23])
         else Raise (AssertionError None), c2)
      /\ get_mass_splittings ext c2
         = (Ok (RTuple [VFloat deltam21; float_or_none deltam31]), c2)
  | nusquids_tool =>
      get_mixing_angles c2 = (Raise (Exception "TODO"), c2)
      /\ (reports_last_set ext ->
          (2 <= num_neutrinos c)%nat ->
          get_mass_splittings ext c2
          = (Ok (RTuple (map (fun dm2 => VFloat (through_nusquids_units ext dm2))
                           (not_none [Some deltam21; deltam31]))), c2))
  end.
Proof.
  intros H1 H2.
  pose proof H2 as Hcalls.
  apply set_mixing_angles_ok in H1. apply set_mass_splittings_ok in H2.
  destruct (tool c) eqn:Ht.
  - destruct H1 as [Ht1 Hn1]. rewrite Ht1 in H2. destruct H2 as [Ht2 Hn2].
    split.
    + unfold get_mixing_angles. rewrite bind_gets, Ht2. reflexivity.
    + intros Hreads Hn.
      apply (set_mass_splittings_calls ext _ _ _ _ Ht1) in Hcalls.
      destruct Hcalls as [Hnone ->]. rewrite Hn1 in Hnone.
      unfold get_mass_splittings.
      rewrite bind_gets. cbn [tool with_nusquids]. rewrite Ht1.
      rewrite !bind_gets. cbn [nusquids num_neutrinos with_nusquids].
      rewrite Hn1. unfold ret, through_nusquids_units. f_equal. f_equal. f_equal.
      destruct deltam31 as [dm31|]; cbn [is_none] in Hnone.
      * assert (Hlt : (2 <? num_neutrinos c)%nat = true).
        { apply Nat.ltb_lt. symmetry in Hnone. apply Nat.eqb_neq in Hnone. lia. }
        rewrite Hlt. cbn [not_none omap list_omap id map app].
        change (nusquids c1 ++ ?a :: [?b]) with (nusquids c1 ++ [a] ++ [b]).
        rewrite app_assoc.
        rewrite (Hreads _ 1%nat (deltam21 * units_eV ext * units_eV ext)%float),
                (Hreads _ 2%nat (dm31 * units_eV ext * units_eV ext)%float).
        -- reflexivity.
        -- rewrite last_mass_difference_snoc. reflexivity.
        -- rewrite !last_mass_difference_snoc. reflexivity.
      * assert (Hlt : (2 <? num_neutrinos c)%nat = false).
        { symmetry in Hnone. apply Nat.eqb_eq in Hnone. rewrite Hnone.
          reflexivity. }
        rewrite Hlt. cbn [not_none omap list_omap id map app].
        rewrite (Hreads _ 1%nat (deltam21 * units_eV ext * units_eV ext)%float).
        -- reflexivity.
        -- rewrite last_mass_difference_snoc. reflexivity.
  - subst c1. cbn [tool with_solver] in H2. rewrite Ht in H2. subst c2.
    unfold get_mixing_angles, get_mass_splittings.
    rewrite !bind_gets. cbn [tool with_solver]. rewrite Ht.
    split; reflexivity.
  - subst c1. cbn [tool with_prob3_settings] in H2. rewrite Ht in H2. subst c2.
    unfold get_mixing_angles, get_mass_splittings.
    rewrite !bind_gets. cbn [tool with_prob3_settings]. rewrite Ht.
    rewrite !bind_gets, bind_assert.
    cbn [num_neutrinos with_prob3_settings _prob3_settings].
    unfold prob3_splittings, prob3_angles.
    split.
    + destruct (num_neutrinos c =? 3)%nat; [|reflexivity].
      rewrite !bind_gets. cbn [_prob3_settings with_prob3_settings].
      do 3 getitem_step. reflexivity.
    + do 2 getitem_step. reflexivity.
Qed.
Lemma reading_reports_last_set : reports_last_set Cases.reading.
Proof.
  intros h i v H. cbn [Get_SquareMassDifference Cases.reading].
  rewrite H. reflexivity.
Qed.

Lemma getters_return_what_was_set_witness :
  (get_mixing_angles
     (snd (set_mass_splittings Example.externals 0.5 (Some 0.25%float)
             (snd (set_mixing_angles 0.125 (Some 0.0625%float) (Some 1.5%float) 0
                     (Example.three "prob3")))))
   = (Ok (RTuple [VFloat 0.125; VFloat 0.0625; VFloat 1.5]%float),
      snd (set_mass_splittings Example.externals 0.5 (Some 0.25%float)
             (snd (set_mixing_angles 0.125 (Some 0.0625%float) (Some 1.5%float) 0
                     (Example.three "prob3")))))
   /\ get_mass_splittings Example.externals
        (snd (set_mass_splittings Example.externals 0.5 (Some 0.25%float)
                (snd (set_mixing_angles 0.125 (Some 0.0625%float) (Some 1.5%float) 0
                        (Example.three "prob3")))))
      = (Ok (RTuple [VFloat 0.5; VFloat 0.25]%float),
         snd (set_mass_splittings Example.externals 0.5 (Some 0.25%float)
                (snd (set_mixing_angles 0.125 (Some 0.0625%float) (Some 1.5%float) 0
                        (Example.three "prob3"))))))
  /\ fst (get_mass_splittings Cases.reading
            (snd (set_mass_splittings Cases.reading 0.5 (Some 0.25%float)
                    (snd (set_mixing_angles 0.125 (Some 0.0625%float)
                            (Some 1.5%float) 0 (Example.three "nusquids"))))))
     = Ok (RTuple [VFloat 0.5; VFloat 0.25]%float).
Proof.
  split.
  - apply (getters_return_what_was_set Example.externals (Example.three "prob3")
             (snd (set_mixing_angles 0.125 (Some 0.0625%float) (Some 1.5%float) 0
                     (Example.three "prob3")))
             _ 0.125%float (Some 0.0625%float) (Some 1.5%float) 0%float
             0.5%float (Some 0.25%float)).
    + vm_compute. reflexivity.
    + vm_compute. reflexivity.
  - assert (H1 : set_mixing_angles 0.125 (Some 0.0625%float) (Some 1.5%float) 0
                   (Example.three "nusquids")
                 = (Ok tt,
                    snd (set_mixing_angles 0.125 (Some 0.0625%float)
                           (Some 1.5%float) 0 (Example.three "nusquids"))))
      by (vm_compute; reflexivity).
    assert (H2 : set_mass_splittings Cases.reading 0.5 (Some 0.25%float)
                   (snd (set_mixing_angles 0.125 (Some 0.0625%float)
                           (Some 1.5%float) 0 (Example.three "nusquids")))
                 = (Ok tt,
                    snd (set_mass_splittings Cases.reading 0.5
                           (Some 0.25%float)
                           (snd (set_mixing_angles 0.125 (Some 0.0625%float)
                                   (Some 1.5%float) 0
                                   (Example.three "nusquids"))))))
      by (vm_compute; reflexivity).
    pose proof (getters_return_what_was_set Cases.reading _ _ _ _ _ _ _ _ _
                  H1 H2) as H.
    replace (tool (Example.three "nusquids")) with nusquids_tool in H
      by (vm_compute; reflexivity).
    destruct H as [_ H]. rewrite H.
    + vm_compute. reflexivity.
    + exact reading_reports_last_set.
    + vm_compute. lia.
Defined.

(** C8, as stated, fails for the nusquids backend: after both setters
    succeed, [get_mixing_angles] raises. *)
Lemma nusquids_mixing_angles_cannot_be_read :
  fst (set_mixing_angles 0.125 (Some 0.0625%float) (Some 1.5%float) 0
         (Example.three "nusquids")) = Ok tt
  /\ fst (set_mass_splittings Example.externals 0.5 (Some 0.25%float)
            (snd (set_mixing_angles 0.125 (Some 0.0625%float) (Some 1.5%float) 0
                    (Example.three "nusquids")))) = Ok tt
  /\ fst (get_mixing_angles
            (snd (set_mass_splittings Example.externals 0.5 (Some 0.25%float)
                    (snd (set_mixing_angles 0.125 (Some 0.0625%float) (Some 1.5%float) 0
                            (Example.three "nusquids"))))))
     = Raise (Exception "TODO")
  /\ ~ mixing_angles_can_be_read Example.externals (Example.three "nusquids").
Proof.
  split; [vm_compute; reflexivity|].
  split; [vm_compute; reflexivity|].
  split; [vm_compute; reflexivity|].
  intros H.
  destruct (H 0.125%float (Some 0.0625%float) (Some 1.5%float) 0%float
              0.5%float (Some 0.25%float)
              (snd (set_mixing_angles 0.125 (Some 0.0625%float) (Some 1.5%float) 0
                      (Example.three "nusquids")))
              (snd (set_mass_splittings Example.externals 0.5 (Some 0.25%float)
                      (snd (set_mixing_angles 0.125 (Some 0.0625%float) (Some 1.5%float) 0
                              (Example.three "nusquids"))))))
    as [r Hr].
  - vm_compute. reflexivity.
  - vm_compute. reflexivity.
  - vm_compute in Hr. discriminate Hr.
Qed.

(** ** The orchestrator *)

Lemma get_flavor_index_state f c : snd (_get_flavor_index f c) = c.
Proof.
  destruct f as [s|z].
  - rewrite get_flavor_index_str. reflexivity.
  - unfold _get_flavor_index. rewrite bind_assoc, bind_assert.
    destruct (bool_decide _); [|reflexivity].
    rewrite bind_ret, bind_gets, bind_lift. cbn [flavor_lt].
    rewrite bind_assert. destruct (_ <? _)%Z; reflexivity.
Qed.

Lemma flavor_index_state (f : option flavor_arg) c r c0 :
  match f with Some f => _get_flavor_index f | None => ret None end c = (r, c0) ->
  c0 = c.
Proof.
  intros H. destruct f as [f|].
  - pose proof (get_flavor_index_state f c) as Hs. rewrite H in Hs. exact Hs.
  - injection H as _ <-. reflexivity.
Qed.

Lemma get_flavor_index_ok z c :
  z ∈ [0; 1; 2]%Z -> (z < Z.of_nat (num_neutrinos c))%Z ->
  _get_flavor_index (FlavorInt z) c = (Ok (Some z), c).
Proof.
  intros Hin Hlt. unfold _get_flavor_index.
  rewrite bind_assoc, bind_assert, (bool_decide_eq_true_2 _ Hin).
  rewrite bind_ret, bind_gets, bind_lift. cbn [flavor_lt].
  rewrite bind_assert. apply Z.ltb_lt in Hlt. rewrite Hlt. reflexivity.
Qed.

(** In baseline mode [calc_osc_prob] is: the flavor index, the backend,
    the final checks. *)
Lemma calc_osc_prob_baseline ext c E f st d nb :
  atmospheric c = false ->
  calc_osc_prob ext E f st (Some d) None nb c
  = bind (match f with Some f => _get_flavor_index f | None => ret None end)
      (fun i =>
         bind (match tool c with
               | nusquids_tool =>
                   _calc_osc_prob_nusquids ext E i st nb (Some d) None
               | deimos_tool =>
                   match i with
                   | Some z => _calc_osc_prob_deimos ext z E (Some d) None nb
                   | None =>
                       raise (AssertionError
                         (Some "must provide `initial_flavor` (`initial_state` not currently supported for deimos"))
                   end
               | prob3_tool => _calc_osc_prob_prob3 ext i E (Some d) None nb
               end)
           (finish (is_scalar E) (is_scalar d) (grid_size E) (grid_size d))) c.
Proof.
  intros Hatm. unfold calc_osc_prob, finish.
  destruct E as [e|es]; cbn [is_scalar grid_size].
  all: unfold bind at 1; symmetry; unfold bind at 1; symmetry.
  all: destruct (match f with Some f => _get_flavor_index f | None => ret None end c)
         as [r c0] eqn:Hf.
  all: apply flavor_index_state in Hf; subst c0.
  all: destruct r as [i|err]; [|reflexivity].
  all: rewrite bind_gets, Hatm.
  all: destruct d as [x|xs]; cbn [is_scalar grid_size];
       rewrite bind_ret, bind_gets; reflexivity.
Qed.

(** C2, as stated, fails: with no decoherence configured, a backend whose
    probabilities sum to 1.5 has its result returned. *)
Lemma non_unitary_result_is_returned :
  _decoh_model_kw (Example.three "deimos") = None
  /\ calc_osc_prob Example.externals (Scalar 1) (Some (FlavorInt 0)) None
       (Some (Scalar 1)) None false (Example.three "deimos")
     = (Ok (Probs1 [0.5; 0.5; 0.5]%float), Example.three "deimos")
  /\ unitary (Probs1 [0.5; 0.5; 0.5]%float) = false
  /\ ~ postvalidates_unitarity Example.externals (Example.three "deimos").
Proof.
  assert (Hrun : calc_osc_prob Example.externals (Scalar 1) (Some (FlavorInt 0))
                   None (Some (Scalar 1)) None false (Example.three "deimos")
                 = (Ok (Probs1 [0.5; 0.5; 0.5]%float), Example.three "deimos"))
    by (vm_compute; reflexivity).
  assert (Hsum : unitary (Probs1 [0.5; 0.5; 0.5]%float) = false)
    by (vm_compute; reflexivity).
  split; [vm_compute; reflexivity|split; [exact Hrun|split; [exact Hsum|]]].
  intros H. specialize (H _ _ _ _ _ _ _ _ Hrun).
  rewrite Hsum in H. discriminate H. vm_compute. reflexivity.
Qed.

(** ** Descending grids *)



















(** ** Layered matter *)

Section Layers.

Context (ext : Externals).

Lemma layers_loop_ok st L layers : forall L0 c,
  exists h, layers_loop ext st L layers L0 c = (Ok tt, with_nusquids h c).
Proof.
  induction layers as [|[[endpoint density] efrac] layers IH]; intros L0 c.
  - exists (nusquids c). rewrite with_nusquids_same. reflexivity.
  - cbn [layers_loop].
    destruct (PyFloat.gt L0 endpoint).
    + exists (nusquids c). rewrite with_nusquids_same. reflexivity.
    + unfold nsq_do. rewrite !bind_modify.
      destruct (PyFloat.eq L0 0);
        repeat first [rewrite bind_modify | rewrite bind_ret];
        match goal with |- context [layers_loop ext st L layers ?l ?s] =>
          destruct (IH l s) as [h Hh]; exists h; rewrite Hh end;
        reflexivity.
Qed.

Lemma float_endpoints_ok (es ds fs : list float) :
  exists layers,
    float_endpoints
      (combine (combine (VFloat <$> es) (VFloat <$> ds)) (VFloat <$> fs))
    = Ok layers.
Proof.
  revert ds fs. induction es as [|e es IH]; intros ds fs.
  - exists []. reflexivity.
  - destruct ds as [|d ds]; [exists []; reflexivity|].
    destruct fs as [|f fs]; [exists []; reflexivity|].
    destruct (IH ds fs) as [l Hl].
    exists ((e, VFloat d, VFloat f) :: l).
    cbn [fmap list_fmap combine float_endpoints] in *.
    change (list_fmap float pyval VFloat) with (fmap (M:=list) VFloat).
    rewrite Hl. reflexivity.
Qed.

(** The layers branch stops at the check of the coverage, or runs through
    and changes nothing but the nuSQuIDS object. *)
Lemma propagate_layers_run st L c endpoints densities fractions e_last :
  layered_with c endpoints densities fractions ->
  last endpoints = Some e_last ->
  if PyFloat.ge e_last L
  then exists h, propagate_layers ext st L c = (Ok tt, with_nusquids h c)
  else propagate_layers ext st L c = (Raise coverage_error, c).
Proof.
  intros (Hm & He & Hd & Hf) Hlast.
  destruct (PyFloat.ge e_last L) eqn:Hge; unfold propagate_layers.
  all: rewrite bind_gets, (getitem_lookup _ _ _ He), (getitem_lookup _ _ _ Hd),
         (getitem_lookup _ _ _ Hf).
  all: rewrite bind_lift; cbv beta iota.
  all: rewrite bind_lift; cbn [getitem_last]; rewrite Hlast; cbv beta iota.
  all: rewrite bind_lift; cbn [py_ge_float]; cbv beta iota.
  all: rewrite bind_assert, Hge.
  2: reflexivity.
  do 3 (rewrite bind_lift; cbv beta iota).
  rewrite bind_lift. cbn [py_zip3 py_iter]. cbv beta iota.
  destruct (float_endpoints_ok endpoints densities fractions) as [layers Hl].
  rewrite bind_lift, Hl.
  apply layers_loop_ok.
Qed.

Variables (st : ndarray) (Es : list float) (ff : list Z) (rho : Z).
Variables (endpoints densities fractions : list float) (e_last : float).
Hypothesis Hlast : last endpoints = Some e_last.

Lemma propagate_distance_run L c :
  layered_with c endpoints densities fractions ->
  if PyFloat.ge e_last L
  then exists h, propagate_distance ext st Es ff rho L c
                 = (Ok (evaluate ext Es ff rho h), with_nusquids h c)
  else propagate_distance ext st Es ff rho L c = (Raise coverage_error, c).
Proof.
  intros Hl.
  pose proof (propagate_layers_run st L c _ _ _ _ Hl Hlast) as Hrun.
  destruct Hl as (Hm & _).
  destruct (PyFloat.ge e_last L); [destruct Hrun as [h Hrun]; exists h|];
    unfold propagate_distance; rewrite bind_gets; unfold getitem; rewrite Hm;
    rewrite bind_lift; cbv beta iota;
    change (is_str (VStr "layers") "vacuum") with false;
    change (is_str (VStr "layers") "constant") with false;
    change (is_str (VStr "layers") "layers") with true;
    cbv beta iota; unfold bind at 1; rewrite Hrun; reflexivity.
Qed.

Lemma for_each_covered ds : forall c,
  layered_with c endpoints densities fractions ->
  (forall L, L ∈ ds -> PyFloat.ge e_last L = true) ->
  exists hs h,
    length hs = length ds
    /\ for_each (propagate_distance ext st Es ff rho) ds c
       = (Ok (map (evaluate ext Es ff rho) hs), with_nusquids h c).
Proof.
  induction ds as [|L ds IH]; intros c Hl Hcov.
  - exists [], (nusquids c). rewrite with_nusquids_same. split; reflexivity.
  - pose proof (propagate_distance_run L c Hl) as Hrun.
    rewrite (Hcov L) in Hrun by (left). destruct Hrun as [h1 Hrun].
    destruct (IH (with_nusquids h1 c)) as (hs & h & Hlen & Hrest).
    + exact Hl.
    + intros L' HL'. apply Hcov. right. exact HL'.
    + exists (h1 :: hs), h. split; [cbn [length]; congruence|].
      cbn [for_each]. unfold bind at 1. rewrite Hrun.
      unfold bind at 1. rewrite Hrest. reflexivity.
Qed.

Lemma for_each_uncovered ds : forall c,
  layered_with c endpoints densities fractions ->
  (exists L, L ∈ ds /\ PyFloat.lt e_last L = true) ->
  exists c', for_each (propagate_distance ext st Es ff rho) ds c
             = (Raise coverage_error, c').
Proof.
  induction ds as [|L ds IH]; intros c Hl (L' & Hin & Hlt).
  - inversion Hin.
  - pose proof (propagate_distance_run L c Hl) as Hrun.
    cbn [for_each]. unfold bind at 1.
    destruct (PyFloat.ge e_last L) eqn:Hge.
    + destruct Hrun as [h1 Hrun]. rewrite Hrun.
      destruct (IH (with_nusquids h1 c)) as [c' Hc'].
      * exact Hl.
      * exists L'. split; [|exact Hlt].
        apply elem_of_cons in Hin. destruct Hin as [->|Hin]; [|exact Hin].
        apply FloatFacts.lt_not_ge in Hlt. congruence.
      * exists c'. unfold bind at 1. rewrite Hc'. reflexivity.
    + exists c. rewrite Hrun. reflexivity.
Qed.

End Layers.

Lemma by_energy_table {H} (g : H -> float -> list float) Es hs :
  by_energy (length Es) (map (fun h => map (g h) Es) hs)
  = map (fun E => map (fun h => g h E) hs) Es.
Proof.
  unfold by_energy. induction Es as [|E Es IH].
  - reflexivity.
  - cbn [length seq map]. f_equal.
    + rewrite map_map. reflexivity.
    + rewrite <- seq_shift, map_map, <- IH.
      apply map_ext. intros i. rewrite !map_map. reflexivity.
Qed.

Lemma firsts_of_singletons {A B} (g : A -> B) (l : list A) :
  firsts_of (map (fun x => [g x]) l) = Ok (map g l).
Proof.
  induction l as [|x l IH]; [reflexivity|].
  cbn [map firsts_of first_of]. rewrite IH. reflexivity.
Qed.

Section Nusquids.

Context (ext : Externals).

Lemma states_run c : states c = (Ok (Z.of_nat <$> seq 0 (num_neutrinos c)), c).
Proof. reflexivity. Qed.

Lemma pure_flavor_state_ok outer rho z n :
  z ∈ [0; 1; 2]%Z -> (z < Z.of_nat n)%Z ->
  exists st, pure_flavor_state outer rho z n = Ok st.
Proof.
  intros Hin Hlt. unfold pure_flavor_state.
  assert (0 <= z)%Z.
  { apply elem_of_cons in Hin as [->|Hin]; [lia|].
    apply elem_of_cons in Hin as [->|Hin]; [lia|].
    apply elem_of_cons in Hin as [->|Hin]; [lia|]. inversion Hin. }
  replace (z <? 0)%Z with false by (symmetry; apply Z.ltb_ge; lia).
  replace (0 <=? z)%Z with true by (symmetry; apply Z.leb_le; lia).
  replace (z <? Z.of_nat n)%Z with true by (symmetry; apply Z.ltb_lt; lia).
  eexists. reflexivity.
Qed.

(** In baseline mode the nuSQuIDS backend is: the loop over the distances,
    then the array of what was evaluated. *)
Lemma nusquids_baseline_run c E i st nb d :
  atmospheric c = false ->
  ((exists z, i = Some z /\ z ∈ [0; 1; 2]%Z
              /\ (z < Z.of_nat (num_neutrinos c))%Z /\ st = None)
   \/ (i = None /\ exists s, st = Some s
        /\ nd_shape s = [GetNumE ext (nusquids c); 2; num_neutrinos c]%nat)) ->
  exists st0,
    _calc_osc_prob_nusquids ext E i st nb (Some d) None c
    = bind (for_each (propagate_distance ext st0 (asarray E)
                        (Z.of_nat <$> seq 0 (num_neutrinos c))
                        (if nb then 1%Z else 0%Z)) (asarray d))
        (fun per_distance => ret (by_energy (length (asarray E)) per_distance)) c.
Proof.
  intros Hatm Hinit. unfold _calc_osc_prob_nusquids.
  assert (Hn : length (Z.of_nat <$> seq 0 (num_neutrinos c)) = num_neutrinos c).
  { rewrite length_fmap, length_seq. reflexivity. }
  destruct Hinit as [(z & -> & Hin & Hlt & ->)|(-> & s & -> & Hs)].
  - destruct (pure_flavor_state_ok [GetNumE ext (nusquids c)]
                (if nb then 1%Z else 0%Z) z (num_neutrinos c) Hin Hlt)
      as [st0 Hst0].
    exists st0.
    rewrite bind_ret. unfold bind at 1. rewrite states_run.
    rewrite bind_gets, Hatm. cbn [fmap option_fmap option_map].
    rewrite bind_ret, bind_gets. unfold prepare_initial_state.
    rewrite Hn, bind_lift, Hst0. reflexivity.
  - exists s.
    rewrite bind_ret. unfold bind at 1. rewrite states_run.
    rewrite bind_gets, Hatm. cbn [fmap option_fmap option_map].
    rewrite bind_ret, bind_gets. unfold prepare_initial_state.
    rewrite Hn, bind_assoc, bind_assert.
    rewrite bool_decide_eq_true_2 by exact Hs.
    rewrite bind_ret. reflexivity.
Qed.

Variables (ff : list Z) (rho : Z).

Lemma by_energy_evaluate Es hs :
  by_energy (length Es) (map (evaluate ext Es ff rho) hs) = table ext ff rho Es hs.
Proof.
  unfold evaluate, table.
  apply (by_energy_table (fun h E => map (fun final_flavor =>
           EvalFlavor ext h final_flavor (E * units_GeV ext)%float rho) ff)).
Qed.

Lemma table_shape Es hs :
  tensor_shape_is (table ext ff rho Es hs) (length Es) (length hs) (length ff)
  = true.
Proof.
  unfold tensor_shape_is, table. rewrite length_map, Nat.eqb_refl. cbn [andb].
  apply forallb_forall. intros row [E [<- _]]%in_map_iff.
  rewrite length_map, Nat.eqb_refl. cbn [andb].
  apply forallb_forall. intros p [h [<- _]]%in_map_iff.
  rewrite length_map. apply Nat.eqb_refl.
Qed.

Lemma table_finite Es hs :
  finite_evaluations ext -> all_finite (Probs3 (table ext ff rho Es hs)) = true.
Proof.
  intros Hfin. unfold all_finite, table.
  apply forallb_forall. intros row [E [<- _]]%in_map_iff.
  apply forallb_forall. intros p [h [<- _]]%in_map_iff.
  apply forallb_forall. intros x [f [<- _]]%in_map_iff.
  apply Hfin.
Qed.

(** The final checks pass on an array of finite evaluations. *)
Lemma finish_table E d hs c :
  finite_evaluations ext ->
  length hs = grid_size d -> length ff = num_neutrinos c ->
  exists p, finish (is_scalar E) (is_scalar d) (grid_size E) (grid_size d)
              (table ext ff rho (asarray E) hs) c = (Ok p, c).
Proof.
  intros Hfin Hlen Hn. unfold finish.
  rewrite bind_gets, bind_assert.
  assert (Hsize : grid_size E = length (asarray E)) by (destruct E; reflexivity).
  rewrite Hsize, <- Hlen, <- Hn, table_shape.
  pose proof (table_finite (asarray E) hs Hfin) as Hall.
  destruct E as [e|es], d as [x|xs]; cbn [is_scalar grid_size asarray andb] in *.
  - destruct hs as [|h [|h' hs]]; try discriminate Hlen.
    cbn [table map] in *. rewrite bind_assoc, bind_lift. cbn [first_of].
    rewrite bind_assoc, bind_lift. cbn [first_of].
    rewrite bind_ret, bind_assert.
    cbn [all_finite forallb] in *. rewrite !andb_true_r in Hall.
    rewrite Hall. eexists. reflexivity.
  - cbn [table map] in *. rewrite bind_assoc, bind_lift. cbn [first_of].
    rewrite bind_ret, bind_assert.
    cbn [all_finite forallb] in *. rewrite !andb_true_r in Hall.
    rewrite Hall. eexists. reflexivity.
  - destruct hs as [|h [|h' hs]]; try discriminate Hlen.
    unfold table. cbn [map].
    rewrite bind_assoc, bind_lift, firsts_of_singletons.
    rewrite bind_ret, bind_assert.
    match goal with |- context [all_finite ?p] =>
      replace (all_finite p) with true; [eexists; reflexivity|] end.
    symmetry. cbn [all_finite].
    apply forallb_forall. intros p [E [<- _]]%in_map_iff.
    apply forallb_forall. intros y [f [<- _]]%in_map_iff.
    apply Hfin.
  - rewrite bind_ret, bind_assert, Hall. eexists. reflexivity.
Qed.

End Nusquids.

(** C6, as amended.  For a calculator on the nusquids backend, in
    baseline mode, that holds layers, and a call with a valid initial
    flavor or state: if the final endpoint of the layers is below one of
    the requested distances the call fails with the error of the
    incomplete coverage; if it is at or above every requested distance,
    and the backend answers finite numbers, the call returns a result. *)
Theorem layers_must_cover_the_baseline (ext : Externals) (c : OscCalculator)
    (energy_GeV distance_km : grid) (initial_flavor : option flavor_arg)
    (initial_state : option ndarray) (nubar : bool)
    (endpoints densities fractions : list float) (final_endpoint : float) :
  tool c = nusquids_tool ->
  atmospheric c = false ->
  layered_with c endpoints densities fractions ->
  last endpoints = Some final_endpoint ->
  valid_initial ext c initial_flavor initial_state ->
  ((exists L, L ∈ asarray distance_km /\ PyFloat.lt final_endpoint L = true) ->
   fst (calc_osc_prob ext energy_GeV initial_flavor initial_state
          (Some distance_km) None nubar c) = Raise coverage_error)
  /\ ((forall L, L ∈ asarray distance_km -> PyFloat.ge final_endpoint L = true) ->
      finite_evaluations ext ->
      exists p, fst (calc_osc_prob ext energy_GeV initial_flavor initial_state
                       (Some distance_km) None nubar c) = Ok p).
Proof.
  intros Htool Hatm Hl Hlast Hvalid.
  rewrite calc_osc_prob_baseline by exact Hatm. rewrite Htool.
  assert (Hindex : exists i,
            match initial_flavor with
            | Some f => _get_flavor_index f
            | None => ret None
            end c = (Ok i, c)
            /\ ((exists z, i = Some z /\ z ∈ [0; 1; 2]%Z
                           /\ (z < Z.of_nat (num_neutrinos c))%Z
                           /\ initial_state = None)
                \/ (i = None /\ exists s, initial_state = Some s
                     /\ nd_shape s
                        = [GetNumE ext (nusquids c); 2; num_neutrinos c]%nat))).
  { destruct Hvalid as [(z & -> & Hin & Hlt & ->)|(-> & s & -> & Hs)].
    - exists (Some z). split; [apply get_flavor_index_ok; assumption|].
      left. exists z. auto.
    - exists None. split; [reflexivity|]. right. eauto. }
  destruct Hindex as (i & Hi & Hinit).
  rewrite (bind_run _ _ _ _ _ Hi).
  destruct (nusquids_baseline_run ext c energy_GeV i initial_state nubar
              distance_km Hatm Hinit) as [st0 Hrun].
  split.
  - intros Hbeyond.
    destruct (for_each_uncovered ext st0 (asarray energy_GeV)
                (Z.of_nat <$> seq 0 (num_neutrinos c)) (if nubar then 1%Z else 0%Z)
                endpoints densities fractions final_endpoint Hlast
                (asarray distance_km) c Hl Hbeyond) as [c' Hc'].
    rewrite (bind_run _ _ _ _ _ Hc') in Hrun.
    rewrite (bind_run _ _ _ _ _ Hrun). reflexivity.
  - intros Hcovered Hfin.
    destruct (for_each_covered ext st0 (asarray energy_GeV)
                (Z.of_nat <$> seq 0 (num_neutrinos c)) (if nubar then 1%Z else 0%Z)
                endpoints densities fractions final_endpoint Hlast
                (asarray distance_km) c Hl Hcovered) as (hs & h & Hlen & Hrun').
    rewrite (bind_run _ _ _ _ _ Hrun') in Hrun. unfold ret in Hrun.
    rewrite by_energy_evaluate in Hrun.
    rewrite (bind_run _ _ _ _ _ Hrun).
    destruct (finish_table ext (Z.of_nat <$> seq 0 (num_neutrinos c))
                (if nubar then 1%Z else 0%Z) energy_GeV distance_km hs
                (with_nusquids h c) Hfin) as [p Hp].
    + rewrite Hlen. destruct distance_km; reflexivity.
    + rewrite length_fmap, length_seq. reflexivity.
    + exists p. rewrite Hp. reflexivity.
Qed.

(** [set_matter] with well-formed layers establishes [layered_with]. *)
Lemma example_is_layered :
  layered_with Example.layered [1; 2]%float [3; 5]%float [0.5; 0.5]%float.
Proof. repeat split; vm_compute; reflexivity. Qed.

Lemma layers_must_cover_the_baseline_witness :
  fst (calc_osc_prob Example.externals (Scalar 1) (Some (FlavorInt 0)) None
         (Some (Scalar 3)) None false Example.layered) = Raise coverage_error
  /\ exists p,
       fst (calc_osc_prob Example.externals (Array [1; 2]%float)
              (Some (FlavorInt 0)) None (Some (Array [0.5; 2]%float)) None false
              Example.layered) = Ok p.
Proof.
  assert (Htool : tool Example.layered = nusquids_tool)
    by (vm_compute; reflexivity).
  assert (Hatm : atmospheric Example.layered = false)
    by (vm_compute; reflexivity).
  assert (Hl : layered_with Example.layered [1; 2]%float [3; 5]%float
                 [0.5; 0.5]%float)
    by (repeat split; vm_compute; reflexivity).
  assert (Hlast : last [1; 2]%float = Some 2%float) by reflexivity.
  assert (Hvalid : valid_initial Example.externals Example.layered
                     (Some (FlavorInt 0)) None).
  { left. exists 0%Z.
    split; [reflexivity|split; [constructor|split; [|reflexivity]]].
    vm_compute. reflexivity. }
  split.
  - apply (proj1 (layers_must_cover_the_baseline Example.externals
                    Example.layered (Scalar 1) (Scalar 3) (Some (FlavorInt 0))
                    None false _ _ _ _ Htool Hatm Hl Hlast Hvalid)).
    exists 3%float. split; [constructor|reflexivity].
  - apply (proj2 (layers_must_cover_the_baseline Example.externals
                    Example.layered (Array [1; 2]%float) (Array [0.5; 2]%float)
                    (Some (FlavorInt 0)) None false _ _ _ _
                    Htool Hatm Hl Hlast Hvalid)).
    + intros L HL. cbn [asarray] in HL.
      apply elem_of_cons in HL. destruct HL as [->|HL]; [reflexivity|].
      apply elem_of_cons in HL. destruct HL as [->|HL]; [reflexivity|].
      inversion HL.
    + intros h flavor E rho. reflexivity.
Defined.

(** C6, as stated, fails in atmospheric mode: [set_matter] stores the
    layers on an atmospheric nusquids calculator, and a call for
    cos(zenith) = -1, a path of 12757 km, returns a result although the
    layers end at 2 km: the atmospheric calculation does not look at the
    layers. *)
Lemma atmospheric_layers_are_not_checked :
  tool Cases.atmospheric_layered = nusquids_tool
  /\ atmospheric Cases.atmospheric_layered = true
  /\ fst (set_matter Example.externals (Some "layers") Example.two_layers
            (Sample.atmospheric_three "nusquids")) = Ok tt
  /\ layered_with Cases.atmospheric_layered [1; 2]%float [3; 5]%float
       [0.5; 0.5]%float
  /\ requested_path_lengths Example.externals Cases.atmospheric_layered None
       (Some (Scalar (-1)%float)) = [12757%float]
  /\ fst (calc_osc_prob Example.externals (Scalar 1) (Some (FlavorInt 0)) None
            None (Some (Scalar (-1)%float)) false Cases.atmospheric_layered)
     = Ok (Probs1 [0.5; 0.5; 0.5]%float)
  /\ ~ coverage_is_checked Example.externals Cases.atmospheric_layered.
Proof.
  assert (Hl : layered_with Cases.atmospheric_layered [1; 2]%float
                 [3; 5]%float [0.5; 0.5]%float)
    by (repeat split; vm_compute; reflexivity).
  assert (HL : requested_path_lengths Example.externals
                 Cases.atmospheric_layered None (Some (Scalar (-1)%float))
               = [12757%float]) by (vm_compute; reflexivity).
  repeat (split; [first [exact Hl | exact HL | vm_compute; reflexivity]|]).
  intros H.
  specialize (H (Scalar 1) (Some (FlavorInt 0)) None None
                (Some (Scalar (-1)%float)) false _ _ _ 2%float Hl eq_refl).
  rewrite HL in H.
  assert (Hbelow : exists L, L ∈ [12757%float] /\ PyFloat.lt 2 L = true)
    by (exists 12757%float; split; [constructor|reflexivity]).
  specialize (H Hbelow). vm_compute in H. discriminate H.
Qed.

(** Once the covered distance is the requested one, a layer that ends
    beyond it is still evolved, over a track of length [L - L]. *)
Lemma covered_distance_is_not_checked (ext : Externals) (st : ndarray)
    (L endpoint : float) (density efrac : pyval)
    (rest : list (float * pyval * pyval)) (c : OscCalculator) :
  PyFloat.lt L endpoint = true -> PyFloat.eq L 0 = false ->
  layers_loop ext st L ((endpoint, density, efrac) :: rest) L c
  = layers_loop ext st L rest (L + (L - L))%float
      (with_nusquids
         (nusquids c
          ++ [Set_Body (ConstantDensity density efrac)]
          ++ [Set_Track (ConstantDensityTrack ((L - L) * units_km ext)%float)]
          ++ [EvolveState]) c).
Proof.
  intros Hlt Hne. cbn [layers_loop].
  change (PyFloat.gt L endpoint) with (PyFloat.lt endpoint L).
  rewrite (FloatFacts.lt_asym _ _ Hlt), Hlt, Hne.
  unfold nsq_do. rewrite !bind_modify, bind_ret, bind_modify.
  f_equal. unfold with_nusquids; cbn. rewrite <- !app_assoc. reflexivity.
Qed.

(** C1, on the code.  The layers end at 1 km and at 2 km and the requested
    distance is 1 km.  After the first layer the covered distance is the
    requested one; the loop goes on to the second layer and has the
    backend evolve over a track of length zero.  The guard of the loop
    compares the covered distance with the endpoint of the layer, not
    with the requested distance. *)
Theorem zero_length_segment_is_evolved :
  fst (calc_osc_prob Example.externals (Scalar 1) (Some (FlavorInt 0)) None
         (Some (Scalar 1)) None false Example.layered)
  = Ok (Probs1 [0.5; 0.5; 0.5]%float)
  /\ segments
       (skipn (length (nusquids Example.layered))
          (nusquids
             (snd (calc_osc_prob Example.externals (Scalar 1)
                     (Some (FlavorInt 0)) None (Some (Scalar 1)) None false
                     Example.layered))))
     = [(Some 5067730937, true); (Some 0, false)]%float.
Proof. split; vm_compute; reflexivity. Qed.

(** * Further properties of the code *)

(** ** What the methods leave as it was *)

Section Frames.

Context (R : OscCalculator -> OscCalculator -> Prop).
Context (R_refl : forall c, R c c).
Context (R_trans : forall a b c, R a b -> R b c -> R a c).

Lemma preserves_ret {A} (a : A) : preserves R (ret a).
Proof. intros c. apply R_refl. Qed.

Lemma preserves_raise {A} e : preserves R (@raise A e).
Proof. intros c. apply R_refl. Qed.

Lemma preserves_gets {A} (p : OscCalculator -> A) : preserves R (gets p).
Proof. intros c. apply R_refl. Qed.

Lemma preserves_lift {A} (r : result A) : preserves R (lift r).
Proof. intros c. apply R_refl. Qed.

Lemma preserves_assert b msg : preserves R (assert_ b msg).
Proof. intros c. destruct b; apply R_refl. Qed.

Lemma preserves_modify u : (forall c, R c (u c)) -> preserves R (modify u).
Proof. intros H c. apply H. Qed.

Lemma preserves_bind {A B} (m : M A) (f : A -> M B) :
  preserves R m -> (forall a, preserves R (f a)) -> preserves R (bind m f).
Proof.
  intros Hm Hf c. unfold bind. specialize (Hm c).
  destruct (m c) as [[a|e] c1]; cbn [snd] in *.
  - eapply R_trans; [exact Hm|apply Hf].
  - exact Hm.
Qed.

Lemma preserves_for_each {A B} (f : A -> M B) (xs : list A) :
  (forall x, preserves R (f x)) -> preserves R (for_each f xs).
Proof.
  intros Hf. induction xs as [|x xs IH]; cbn [for_each].
  - apply preserves_ret.
  - apply preserves_bind; [apply Hf|intros y].
    apply preserves_bind; [exact IH|intros ys]. apply preserves_ret.
Qed.

End Frames.

(** What a method preserves holds of the calculator it leaves. *)
Lemma preserved {A} R (m : M A) c r c' :
  preserves R m -> m c = (r, c') -> R c c'.
Proof. intros Hm H. specialize (Hm c). rewrite H in Hm. exact Hm. Qed.

(** One step of the proof that a method preserves a relation: the monad
    operation or the case distinction at its head; [leaf] proves that an
    update of the state is in the relation. *)
Ltac frame_step refl trans leaf :=
  lazymatch goal with
  | |- preserves _ (bind _ _) => apply (preserves_bind _ trans); [|intros ?]
  | |- preserves _ (ret _) => apply (preserves_ret _ refl)
  | |- preserves _ (raise _) => apply (preserves_raise _ refl)
  | |- preserves _ (gets _) => apply (preserves_gets _ refl)
  | |- preserves _ (lift _) => apply (preserves_lift _ refl)
  | |- preserves _ (assert_ _ _) => apply (preserves_assert _ refl)
  | |- preserves _ (modify _) => apply preserves_modify; intros ?; leaf
  | |- preserves _ (for_each _ _) =>
      apply (preserves_for_each _ refl trans); intros ?
  | |- preserves _ (if ?b then _ else _) => destruct b
  | |- preserves _ (match ?x with _ => _ end) => destruct x
  end.

Lemma same_identity_refl c : same_identity c c.
Proof. repeat split. Qed.

Lemma same_identity_trans a b c :
  same_identity a b -> same_identity b c -> same_identity a c.
Proof.
  unfold same_identity. intros (? & ? & ? & ?) (? & ? & ? & ?).
  repeat split; congruence.
Qed.

Lemma same_configuration_refl c : same_configuration c c.
Proof. destruct c; reflexivity. Qed.

Lemma same_configuration_trans a b c :
  same_configuration a b -> same_configuration b c -> same_configuration a c.
Proof.
  unfold same_configuration. intros Hab Hbc. rewrite Hbc. rewrite Hab.
  destruct a; reflexivity.
Qed.

Ltac identity_leaf := repeat split.
Ltac identity :=
  repeat first
    [ frame_step same_identity_refl same_identity_trans identity_leaf
    | assumption
    | progress cbv beta zeta ].

Ltac configuration_leaf :=
  idtac;
  lazymatch goal with |- same_configuration ?c _ => destruct c; reflexivity end.
Ltac configuration :=
  repeat first
    [ frame_step same_configuration_refl same_configuration_trans
        configuration_leaf
    | assumption
    | progress cbv beta zeta ].

Section Identity.

Context (ext : Externals).

Lemma set_matter_identity matter kw :
  preserves same_identity (set_matter ext matter kw).
Proof. unfold set_matter, nsq_do, prob3_set, matter_set. identity. Qed.

Lemma set_mixing_angles_identity theta12 theta13 theta23 deltacp :
  preserves same_identity (set_mixing_angles theta12 theta13 theta23 deltacp).
Proof. unfold set_mixing_angles, nsq_do, prob3_set, nsq_float_arg. identity. Qed.

Lemma set_mass_splittings_identity deltam21 deltam31 :
  preserves same_identity (set_mass_splittings ext deltam21 deltam31).
Proof. unfold set_mass_splittings, nsq_do, prob3_set. identity. Qed.

Lemma set_deltacp_identity deltacp : preserves same_identity (set_deltacp deltacp).
Proof. unfold set_deltacp, nsq_do, prob3_set. identity. Qed.

Lemma set_calc_basis_identity basis : preserves same_identity (set_calc_basis basis).
Proof. unfold set_calc_basis. identity. Qed.

Lemma check_decoherence_D_matrix_identity D :
  preserves same_identity (check_decoherence_D_matrix D).
Proof.
  unfold check_decoherence_D_matrix, beta, D_at, print. identity.
Qed.

Lemma set_decoherence_D_matrix_identity D n E0 :
  preserves same_identity (set_decoherence_D_matrix ext D n E0).
Proof.
  unfold set_decoherence_D_matrix, nsq_do.
  apply (preserves_bind _ same_identity_trans);
    [apply check_decoherence_D_matrix_identity|intros ?].
  identity.
Qed.

End Identity.

Section Configuration.

Context (ext : Externals).

Lemma get_flavor_index_configuration f :
  preserves same_configuration (_get_flavor_index f).
Proof. unfold _get_flavor_index. configuration. Qed.

Lemma layers_loop_configuration st L layers : forall L0,
  preserves same_configuration (layers_loop ext st L layers L0).
Proof.
  induction layers as [|[[endpoint density] efrac] layers IH]; intros L0;
    cbn [layers_loop]; unfold nsq_do.
  - configuration.
  - configuration. apply IH.
Qed.

Lemma propagate_distance_configuration st Es ff rho L :
  preserves same_configuration (propagate_distance ext st Es ff rho L).
Proof.
  unfold propagate_distance, propagate_layers, nsq_do. configuration.
  all: apply layers_loop_configuration.
Qed.

Lemma nusquids_configuration E i st nb d cz :
  preserves same_configuration (_calc_osc_prob_nusquids ext E i st nb d cz).
Proof.
  unfold _calc_osc_prob_nusquids, states, prepare_initial_state,
    none_has_no_size, nsq_do.
  configuration.
  all: apply propagate_distance_configuration.
Qed.

Lemma get_mixing_angles_configuration :
  preserves same_configuration get_mixing_angles.
Proof. unfold get_mixing_angles. configuration. Qed.

Lemma get_deltacp_configuration : preserves same_configuration get_deltacp.
Proof. unfold get_deltacp. configuration. Qed.

Lemma get_mass_splittings_configuration :
  preserves same_configuration (get_mass_splittings ext).
Proof. unfold get_mass_splittings. configuration. Qed.

Lemma prob3_configuration i E d cz nb :
  preserves same_configuration (_calc_osc_prob_prob3 ext i E d cz nb).
Proof.
  unfold _calc_osc_prob_prob3, states, prob3_do.
  pose proof get_mixing_angles_configuration.
  pose proof get_deltacp_configuration.
  pose proof get_mass_splittings_configuration.
  configuration.
Qed.

Lemma deimos_configuration z E d cz nb :
  preserves same_configuration (_calc_osc_prob_deimos ext z E d cz nb).
Proof.
  unfold _calc_osc_prob_deimos, none_not_subscriptable. configuration.
Qed.

Lemma calc_osc_prob_configuration E f st d cz nb :
  preserves same_configuration (calc_osc_prob ext E f st d cz nb).
Proof.
  unfold calc_osc_prob. configuration.
  all: first [ apply get_flavor_index_configuration
             | apply nusquids_configuration
             | apply prob3_configuration
             | apply deimos_configuration ].
Qed.

End Configuration.

Lemma same_configuration_identity c c' :
  same_configuration c c' -> same_identity c c'.
Proof. intros ->. repeat split. Qed.

(** X1.  No setter and no calculation changes the backend, the mode, the
    flavors or the number of flavors of the calculator, whether it
    returns or raises. *)
Theorem methods_keep_the_identity (ext : Externals) :
  (forall matter kw, preserves same_identity (set_matter ext matter kw))
  /\ (forall theta12 theta13 theta23 deltacp,
        preserves same_identity
          (set_mixing_angles theta12 theta13 theta23 deltacp))
  /\ (forall deltacp, preserves same_identity (set_deltacp deltacp))
  /\ (forall deltam21 deltam31,
        preserves same_identity (set_mass_splittings ext deltam21 deltam31))
  /\ (forall basis, preserves same_identity (set_calc_basis basis))
  /\ (forall D n E0,
        preserves same_identity (set_decoherence_D_matrix ext D n E0))
  /\ (forall E f st d cz nb,
        preserves same_identity (calc_osc_prob ext E f st d cz nb)).
Proof.
  split; [apply set_matter_identity|].
  split; [apply set_mixing_angles_identity|].
  split; [apply set_deltacp_identity|].
  split; [apply set_mass_splittings_identity|].
  split; [apply set_calc_basis_identity|].
  split; [apply set_decoherence_D_matrix_identity|].
  intros E f st d cz nb c. apply same_configuration_identity.
  apply calc_osc_prob_configuration.
Qed.

(** X2.  A calculation changes nothing of the calculator but the calls
    made on the nuSQuIDS object and on the prob3 propagator: the matter
    settings, the oscillation parameters, the basis and the models are the
    ones it found, whether it returns or raises. *)
Theorem calculation_keeps_the_configuration (ext : Externals)
    (energy_GeV : grid) (initial_flavor : option flavor_arg)
    (initial_state : option ndarray) (distance_km coszen : option grid)
    (nubar : bool) (c : OscCalculator) :
  let c' := snd (calc_osc_prob ext energy_GeV initial_flavor initial_state
                   distance_km coszen nubar c) in
  _matter_settings c' = _matter_settings c
  /\ _prob3_settings c' = _prob3_settings c
  /\ solver c' = solver c
  /\ _calc_basis c' = _calc_basis c
  /\ _decoh_model_kw c' = _decoh_model_kw c
  /\ _lightcone_model_kw c' = _lightcone_model_kw c
  /\ _sme_model_kw c' = _sme_model_kw c
  /\ _nusquids_variant c' = _nusquids_variant c
  /\ detector_depth_m c' = detector_depth_m c
  /\ stdout c' = stdout c.
Proof.
  intros c'.
  pose proof (calc_osc_prob_configuration ext energy_GeV initial_flavor
                initial_state distance_km coszen nubar c) as H.
  fold c' in H. unfold same_configuration in H.
  repeat split; rewrite H; reflexivity.
Qed.

(** ** The setters of the oscillation parameters *)

(** X3.  [set_mixing_angles] checks the number of angles against the
    number of flavors before it touches the backend: with two flavors it
    takes [theta12] alone, otherwise it needs [theta13] and [theta23]; a
    call that passes the check succeeds, one that fails it raises an
    [AssertionError] and leaves the calculator as it was. *)
Theorem set_mixing_angles_validates_first (theta12 : float)
    (theta13 theta23 : option float) (deltacp : float) (c : OscCalculator) :
  if (if (num_neutrinos c =? 2)%nat
      then is_none theta13 && is_none theta23
      else negb (is_none theta13) && negb (is_none theta23))
  then fst (set_mixing_angles theta12 theta13 theta23 deltacp c) = Ok tt
  else set_mixing_angles theta12 theta13 theta23 deltacp c
       = (Raise (AssertionError None), c).
Proof.
  unfold set_mixing_angles, nsq_do, prob3_set, nsq_float_arg.
  rewrite bind_gets. remember (num_neutrinos c) as n eqn:Hn. clear Hn.
  destruct (Nat.eqb_spec n 2) as [->|Hn], theta13, theta23;
    cbn [is_none andb negb];
    repeat first [ run_step | head_step ]; try reflexivity.
  all: destruct (tool c); repeat run_step; try reflexivity.
  all: match goal with
       | |- context [(2 <? ?k)%nat] => destruct (2 <? k)%nat
       end; repeat run_step; reflexivity.
Qed.

(** X4.  [set_mass_splittings] likewise: with two flavors it takes
    [deltam21] alone, otherwise it needs [deltam31]; a call that fails the
    check raises an [AssertionError] and leaves the calculator as it
    was. *)
Theorem set_mass_splittings_validates_first (ext : Externals)
    (deltam21 : float) (deltam31 : option float) (c : OscCalculator) :
  if (if (num_neutrinos c =? 2)%nat then is_none deltam31
      else negb (is_none deltam31))
  then fst (set_mass_splittings ext deltam21 deltam31 c) = Ok tt
  else set_mass_splittings ext deltam21 deltam31 c
       = (Raise (AssertionError None), c).
Proof.
  unfold set_mass_splittings, nsq_do, prob3_set.
  rewrite bind_gets. remember (num_neutrinos c) as n eqn:Hn. clear Hn.
  destruct (Nat.eqb_spec n 2) as [->|Hn], deltam31; cbn [is_none andb negb];
    repeat first [ run_step | head_step ]; try reflexivity.
  all: destruct (tool c); repeat run_step; try reflexivity.
  all: match goal with
       | |- context [(2 <? ?k)%nat] => destruct (2 <? k)%nat
       end; repeat run_step; reflexivity.
Qed.

(** X5.  [set_deltacp] on the prob3 backend replaces the stored phase and
    nothing else: [get_deltacp] then returns the new phase, and the mixing
    angles and the mass splittings read as before.  On the nusquids
    backend it is one call of [Set_CPPhase(0, 2, deltacp)]; on the deimos
    backend it raises and changes nothing. *)
Theorem set_deltacp_changes_the_phase_only (ext : Externals) (deltacp : float)
    (c : OscCalculator) :
  match tool c with
  | prob3_tool =>
      exists c', set_deltacp deltacp c = (Ok tt, c')
        /\ get_deltacp c' = (Ok (VFloat deltacp), c')
        /\ fst (get_mixing_angles c') = fst (get_mixing_angles c)
        /\ fst (get_mass_splittings ext c') = fst (get_mass_splittings ext c)
  | deimos_tool =>
      set_deltacp deltacp c
      = (Raise (Exception "Cannot set delta CP on its own for `deimos`, use `set_mixing_angles`"), c)
  | nusquids_tool =>
      set_deltacp deltacp c
      = (Ok tt, with_nusquids (nusquids c ++ [Set_CPPhase 0 2 deltacp]) c)
  end.
Proof.
  unfold set_deltacp. rewrite bind_gets.
  destruct (tool c) eqn:Ht; [reflexivity|reflexivity|].
  eexists. split; [reflexivity|].
  unfold get_deltacp, get_mixing_angles, get_mass_splittings.
  rewrite !bind_gets. cbn [tool with_prob3_settings]. rewrite Ht.
  rewrite !bind_gets. cbn [num_neutrinos _prob3_settings with_prob3_settings].
  split; [rewrite getitem_insert_eq; reflexivity|].
  split.
  - rewrite !bind_assert. destruct (num_neutrinos c =? 3)%nat; [|reflexivity].
    rewrite !bind_gets. cbn [_prob3_settings with_prob3_settings].
    rewrite !getitem_insert_ne by done. rewrite !bind_lift.
    destruct (getitem (_prob3_settings c) "theta12"); [|reflexivity].
    rewrite !bind_lift.
    destruct (getitem (_prob3_settings c) "theta13"); [|reflexivity].
    rewrite !bind_lift.
    destruct (getitem (_prob3_settings c) "theta23"); reflexivity.
  - rewrite !getitem_insert_ne by done. rewrite !bind_lift.
    destruct (getitem (_prob3_settings c) "deltam21"); [|reflexivity].
    rewrite !bind_lift.
    destruct (getitem (_prob3_settings c) "deltam31"); reflexivity.
Qed.

(** X6.  After [set_mixing_angles] succeeds, [get_deltacp] returns the
    phase that was passed with the angles on the prob3 backend, and raises
    on the nusquids backend, which has no getter for it.  (The deimos
    backend answers from its solver object.) *)
Theorem get_deltacp_after_set_mixing_angles (theta12 : float)
    (theta13 theta23 : option float) (deltacp : float) (c c1 : OscCalculator) :
  set_mixing_angles theta12 theta13 theta23 deltacp c = (Ok tt, c1) ->
  match tool c with
  | prob3_tool => get_deltacp c1 = (Ok (VFloat deltacp), c1)
  | nusquids_tool => get_deltacp c1 = (Raise (Exception "TODO"), c1)
  | deimos_tool => True
  end.
Proof.
  intros H. apply set_mixing_angles_ok in H.
  destruct (tool c) eqn:Ht.
  - destruct H as [Ht1 _]. unfold get_deltacp. rewrite bind_gets, Ht1.
    reflexivity.
  - exact I.
  - subst c1. unfold get_deltacp.
    rewrite bind_gets. cbn [tool with_prob3_settings]. rewrite Ht.
    rewrite bind_gets. cbn [_prob3_settings with_prob3_settings].
    unfold prob3_angles. rewrite getitem_insert_eq. reflexivity.
Qed.

Lemma get_deltacp_after_set_mixing_angles_witness :
  get_deltacp
    (snd (set_mixing_angles 0.125 (Some 0.0625%float) (Some 1.5%float) 0.25
            (Example.three "prob3")))
  = (Ok (VFloat 0.25),
     snd (set_mixing_angles 0.125 (Some 0.0625%float) (Some 1.5%float) 0.25
            (Example.three "prob3"))).
Proof.
  apply (get_deltacp_after_set_mixing_angles 0.125%float (Some 0.0625%float)
           (Some 1.5%float) 0.25%float (Example.three "prob3")).
  vm_compute. reflexivity.
Defined.

(** ** The media of [set_matter] *)

Lemma contains_lookup (kw : gmap string pyval) (key : string) :
  contains kw key = match kw !! key with Some _ => true | None => false end.
Proof.
  unfold contains. destruct (kw !! key).
  - apply bool_decide_eq_true_2. eauto.
  - apply bool_decide_eq_false_2. intros [? ?]. discriminate.
Qed.

Lemma contains_is_Some (kw : gmap string pyval) (key : string) :
  contains kw key = true <-> is_Some (kw !! key).
Proof. unfold contains. apply bool_decide_eq_true. Qed.

Lemma getitem_contains (kw : gmap string pyval) (key : string) :
  contains kw key = true -> exists v, kw !! key = Some v /\ getitem kw key = Ok v.
Proof.
  rewrite contains_lookup. unfold getitem.
  destruct (kw !! key) as [v|]; [eauto|discriminate].
Qed.

Lemma set_matter_layers_ok (ext : Externals)
    (kw : gmap string pyval) (c c' : OscCalculator) :
  set_matter ext (Some "layers") kw c = (Ok tt, c') ->
  tool c = nusquids_tool
  /\ nusquids c' = nusquids c
  /\ exists endpoints densities fractions,
       kw !! "layer_endpoint_km" = Some (VArray endpoints)
       /\ kw !! "matter_density_g_per_cm3" = Some (VArray densities)
       /\ kw !! "electron_fraction" = Some (VArray fractions)
       /\ length densities = length endpoints
       /\ length fractions = length endpoints
       /\ ascending endpoints = true
       /\ layered_with c' endpoints densities fractions.
Proof.
  unfold set_matter. rewrite bind_modify, bind_gets.
  set (c0 := with_matter_settings _ c). change (tool c0) with (tool c).
  change (bool_decide (Some "layers" = Some "vacuum")
          || bool_decide (Some "layers" = None)) with false.
  change (bool_decide (Some "layers" = Some "earth")) with false.
  change (bool_decide (Some "layers" = Some "constant")) with false.
  change (bool_decide (Some "layers" = Some "variable")) with false.
  change (bool_decide (Some "layers" = Some "layers")) with true.
  cbv iota. intros H.
  rewrite bind_assert in H.
  destruct (contains kw "layer_endpoint_km") eqn:He; [|discriminate H].
  rewrite bind_assert in H.
  destruct (contains kw "matter_density_g_per_cm3") eqn:Hd; [|discriminate H].
  rewrite bind_assert in H.
  destruct (contains kw "electron_fraction") eqn:Hf; [|discriminate H].
  apply getitem_contains in He, Hd, Hf.
  destruct He as (endpoint & He & He'), Hd as (density & Hd & Hd'),
    Hf as (efrac & Hf & Hf').
  rewrite bind_lift, He', bind_lift, Hd', bind_lift, Hf' in H.
  rewrite bind_assert in H.
  destruct density as [| | | |ds]; try discriminate H. cbn [is_array1] in H.
  rewrite bind_assert in H.
  destruct efrac as [| | | |fs]; try discriminate H. cbn [is_array1] in H.
  rewrite bind_lift in H.
  destruct endpoint as [| | | |es]; try discriminate H. cbn [size_of] in H.
  rewrite bind_lift, bind_assert in H.
  destruct (Nat.eqb_spec (length es) (length fs)) as [Hlf|]; [|discriminate H].
  rewrite !bind_lift, bind_assert in H.
  destruct (Nat.eqb_spec (length es) (length ds)) as [Hld|]; [|discriminate H].
  rewrite bind_lift in H. cbn [np_all_ascending] in H.
  rewrite bind_assert in H.
  destruct (ascending es) eqn:Hasc; [|discriminate H].
  destruct (tool c) eqn:Ht; try discriminate H.
  unfold matter_set in H. rewrite !bind_modify in H.
  unfold modify in H. injection H as <-.
  split; [reflexivity|split; [reflexivity|]].
  exists es, ds, fs.
  repeat (split; [first [assumption|congruence]|]).
  unfold layered_with.
  cbn [_matter_settings with_matter_settings c0].
  repeat split.
Qed.

(** X7.  A successful [set_matter("layers", ...)] is on the nusquids
    backend and has made the checks of the format: the densities and the
    electron fractions given are one-dimensional arrays, the [size] of the
    endpoints given is the length of each of them, and the endpoints pass
    the test of being ascending.  The three values are stored as they were
    given, beside the name of the medium.  The nuSQuIDS object is not
    called: the layers are handed to it at propagation time.  (Nothing
    is said of the type of the endpoints: the method reads their [size]
    and compares their slices.) *)
Theorem set_matter_layers_stores_checked_layers (ext : Externals)
    (kw : gmap string pyval) (c c' : OscCalculator) :
  set_matter ext (Some "layers") kw c = (Ok tt, c') ->
  tool c = nusquids_tool
  /\ nusquids c' = nusquids c
  /\ exists endpoint densities fractions,
       kw !! "layer_endpoint_km" = Some endpoint
       /\ kw !! "matter_density_g_per_cm3" = Some (VArray densities)
       /\ kw !! "electron_fraction" = Some (VArray fractions)
       /\ size_of endpoint = Ok (length fractions)
       /\ size_of endpoint = Ok (length densities)
       /\ np_all_ascending endpoint = Ok true
       /\ _matter_settings c' !! "matter" = Some (VStr "layers")
       /\ _matter_settings c' !! "layer_endpoint_km" = Some endpoint
       /\ _matter_settings c' !! "matter_density_g_per_cm3"
          = Some (VArray densities)
       /\ _matter_settings c' !! "electron_fraction" = Some (VArray fractions).
Proof.
  intros H. apply set_matter_layers_ok in H.
  destruct H as (Ht & Hn & es & ds & fs & He & Hd & Hf & Hld & Hlf & Hasc
                 & Hm & Hse & Hsd & Hsf).
  split; [exact Ht|split; [exact Hn|]].
  exists (VArray es), ds, fs. cbn [size_of np_all_ascending].
  rewrite Hld, Hlf, Hasc. repeat split; assumption.
Qed.

Lemma set_matter_layers_stores_checked_layers_witness :
  tool (Example.three "nusquids") = nusquids_tool
  /\ nusquids Example.layered = nusquids (Example.three "nusquids")
  /\ exists endpoint densities fractions,
       Example.two_layers !! "layer_endpoint_km" = Some endpoint
       /\ Example.two_layers !! "matter_density_g_per_cm3"
          = Some (VArray densities)
       /\ Example.two_layers !! "electron_fraction" = Some (VArray fractions)
       /\ size_of endpoint = Ok (length fractions)
       /\ size_of endpoint = Ok (length densities)
       /\ np_all_ascending endpoint = Ok true
       /\ _matter_settings Example.layered !! "matter" = Some (VStr "layers")
       /\ _matter_settings Example.layered !! "layer_endpoint_km"
          = Some endpoint
       /\ _matter_settings Example.layered !! "matter_density_g_per_cm3"
          = Some (VArray densities)
       /\ _matter_settings Example.layered !! "electron_fraction"
          = Some (VArray fractions).
Proof.
  apply (set_matter_layers_stores_checked_layers Example.externals
           Example.two_layers (Example.three "nusquids") Example.layered).
  vm_compute. reflexivity.
Defined.

(** X8.  Which media each backend takes.  Vacuum (or no medium) is taken
    by every backend.  The Earth is taken by prob3 and, in atmospheric
    mode only, by nusquids, never by deimos.  Constant matter is taken by
    every backend, exactly when the density and the electron fraction are
    given.  A variable density is taken by nusquids only, exactly when its
    three arrays are given.  Of the other names only layers can be taken,
    and by nusquids only. *)
Theorem set_matter_media (ext : Externals) (matter : option string)
    (kw : gmap string pyval) (c : OscCalculator) :
  let taken := fst (set_matter ext matter kw c) = Ok tt in
  if bool_decide (matter = Some "vacuum") || bool_decide (matter = None)
  then taken
  else if bool_decide (matter = Some "earth")
  then taken <-> tool c = prob3_tool
                 \/ (tool c = nusquids_tool /\ atmospheric c = true)
  else if bool_decide (matter = Some "constant")
  then taken <-> is_Some (kw !! "matter_density_g_per_cm3")
                 /\ is_Some (kw !! "electron_fraction")
  else if bool_decide (matter = Some "variable")
  then taken <-> tool c = nusquids_tool
                 /\ is_Some (kw !! "radius_fraction_array")
                 /\ is_Some (kw !! "matter_density_array_g_per_cm3")
                 /\ is_Some (kw !! "electron_fraction_array")
  else taken -> matter = Some "layers" /\ tool c = nusquids_tool.
Proof.
  intros taken. subst taken.
  assert (Hnone : forall P : Prop, @is_Some pyval None /\ P -> False).
  { intros P [[? ?] _]. discriminate. }
  destruct (bool_decide (matter = Some "vacuum") || bool_decide (matter = None))
    eqn:Hvac.
  { unfold set_matter. rewrite bind_modify, bind_gets, Hvac.
    cbn [tool with_matter_settings]. destruct (tool c); reflexivity. }
  destruct (bool_decide (matter = Some "earth")) eqn:Hearth.
  { unfold set_matter. rewrite bind_modify, bind_gets, Hvac, Hearth.
    cbn [tool with_matter_settings].
    destruct (tool c) eqn:Ht.
    - rewrite bind_gets. cbn [atmospheric with_matter_settings].
      destruct (atmospheric c); cbn.
      + split; [intros _; right; split; reflexivity|reflexivity].
      + split; [discriminate|]. intros [?|[_ ?]]; discriminate.
    - cbn. split; [discriminate|]. intros [?|[? _]]; discriminate.
    - cbn. split; [intros _; left; reflexivity|reflexivity]. }
  destruct (bool_decide (matter = Some "constant")) eqn:Hconst.
  { unfold set_matter. rewrite bind_modify, bind_gets, Hvac, Hearth, Hconst.
    cbn [tool with_matter_settings].
    rewrite bind_assert, contains_lookup. unfold getitem.
    destruct (kw !! "matter_density_g_per_cm3") as [d|].
    2: { cbn. split; [discriminate|]. intros H. destruct (Hnone _ H). }
    rewrite bind_assert, contains_lookup.
    destruct (kw !! "electron_fraction") as [f|].
    2: { cbn. split; [discriminate|]. intros [_ [? ?]]. discriminate. }
    rewrite !bind_lift.
    split; [intros _; split; eauto|intros _].
    destruct (tool c); reflexivity. }
  destruct (bool_decide (matter = Some "variable")) eqn:Hvar.
  { unfold set_matter.
    rewrite bind_modify, bind_gets, Hvac, Hearth, Hconst, Hvar.
    cbn [tool with_matter_settings].
    rewrite bind_assert, contains_lookup. unfold getitem.
    destruct (kw !! "radius_fraction_array") as [r|].
    2: { cbn. split; [discriminate|]. intros [_ H]. destruct (Hnone _ H). }
    rewrite bind_assert, contains_lookup.
    destruct (kw !! "matter_density_array_g_per_cm3") as [d|].
    2: { cbn. split; [discriminate|]. intros [_ [_ H]]. destruct (Hnone _ H). }
    rewrite bind_assert, contains_lookup.
    destruct (kw !! "electron_fraction_array") as [f|].
    2: { cbn. split; [discriminate|]. intros [_ [_ [_ [? ?]]]]. discriminate. }
    destruct (tool c); cbn.
    - split; [intros _; repeat split; eauto|reflexivity].
    - split; [discriminate|]. intros [? _]. discriminate.
    - split; [discriminate|]. intros [? _]. discriminate. }
  intros H.
  destruct (bool_decide (matter = Some "layers")) eqn:Hlay.
  - apply bool_decide_eq_true in Hlay. subst matter.
    split; [reflexivity|].
    destruct (set_matter ext (Some "layers") kw c) as [[[]|e] c'] eqn:Hrun;
      [|discriminate H].
    apply (set_matter_layers_ok ext kw c c' Hrun).
  - unfold set_matter in H.
    rewrite bind_modify, bind_gets, Hvac, Hearth, Hconst, Hvar, Hlay in H.
    discriminate H.
Qed.

(** ** Setting the decoherence matrix *)

(** A matrix that passes the three-flavor validator is 9 by 9, real and
    non-negative. *)
Lemma first_failure_none (D : matrix) :
  SU3.first_failure D = None ->
  DMatrix.shape_is D 9 9 = true /\ DMatrix.all_real D = true
  /\ DMatrix.all_nonneg D = true.
Proof.
  unfold SU3.first_failure. intros H.
  pose proof (find_none _ _ H) as Hall.
  repeat split.
  - specialize (Hall SU3.ShapeIs9x9). cbn [SU3.holds] in Hall.
    apply negb_false_iff, Hall. left. reflexivity.
  - specialize (Hall SU3.AllReal). cbn [SU3.holds] in Hall.
    apply negb_false_iff, Hall. right. left. reflexivity.
  - specialize (Hall SU3.AllNonNegative). cbn [SU3.holds] in Hall.
    apply negb_false_iff, Hall. right. right. left. reflexivity.
Qed.

(** The validator changes nothing of the calculator but the printed
    lines, and with three flavors nothing at all. *)
Lemma check_decoherence_D_matrix_state (D : matrix) (c : OscCalculator) :
  snd (check_decoherence_D_matrix D c)
  = with_stdout (stdout (snd (check_decoherence_D_matrix D c))) c
  /\ (num_neutrinos c = 3%nat -> snd (check_decoherence_D_matrix D c) = c).
Proof.
  destruct (Nat.eq_dec (num_neutrinos c) 3%nat) as [Hn|Hn].
  - rewrite (check_su3 D c Hn).
    destruct (SU3.first_failure D); cbn [snd];
      (split; [destruct c; reflexivity|reflexivity]).
  - rewrite (check_not_su3 D c Hn). cbn [snd].
    split; [reflexivity|contradiction].
Qed.

Lemma decoherence_state (ext : Externals)
    (D : matrix) (n E0_eV : float) (c : OscCalculator) :
  tool c = deimos_tool ->
  num_neutrinos c = 3%nat ->
  match set_decoherence_D_matrix ext D n E0_eV c with
  | (Ok _, c') =>
      c' = with_decoh_model_kw
             (Some {| D_matrix0_eV := D; decoh_n := n; decoh_E0_eV := E0_eV;
                      D_matrix_basis := "sun" |}) c
      /\ check_decoherence_D_matrix D c = (Ok tt, c)
      /\ DMatrix.shape_is D 9 9 = true
      /\ DMatrix.all_real D = true
      /\ DMatrix.all_nonneg D = true
  | (Raise e, c') =>
      c' = c /\ check_decoherence_D_matrix D c = (Raise e, c)
  end.
Proof.
  intros Ht Hn. unfold set_decoherence_D_matrix. unfold bind at 1.
  rewrite (check_su3 D c Hn).
  destruct (SU3.first_failure D) as [k|] eqn:Hk.
  - split; reflexivity.
  - rewrite bind_gets, Ht. cbn.
    split; [reflexivity|split; [reflexivity|]].
    apply first_failure_none. exact Hk.
Qed.

(** X9.  On a three-flavor deimos calculator [set_decoherence_D_matrix]
    stores a matrix only if the validator accepts it: a call that
    succeeds stores the matrix with [n], [E0_eV] and the basis "sun", and
    the matrix is 9 by 9, real and non-negative; a call that fails raises
    the error of the validator and leaves the calculator, and so the model
    stored before, as it was. *)
Theorem decoherence_matrix_is_stored_only_if_valid (ext : Externals)
    (D : matrix) (n E0_eV : float) (c : OscCalculator) :
  tool c = deimos_tool ->
  num_neutrinos c = 3%nat ->
  match set_decoherence_D_matrix ext D n E0_eV c with
  | (Ok _, c') =>
      c' = with_decoh_model_kw
             (Some {| D_matrix0_eV := D; decoh_n := n; decoh_E0_eV := E0_eV;
                      D_matrix_basis := "sun" |}) c
      /\ check_decoherence_D_matrix D c = (Ok tt, c)
      /\ DMatrix.shape_is D 9 9 = true
      /\ DMatrix.all_real D = true
      /\ DMatrix.all_nonneg D = true
  | (Raise e, c') =>
      c' = c /\ check_decoherence_D_matrix D c = (Raise e, c)
  end.
Proof. apply decoherence_state. Qed.

Lemma decoherence_matrix_is_stored_only_if_valid_witness :
  match set_decoherence_D_matrix Example.externals (DMatrix.zeros 9) 0 1
          (Example.three "deimos") with
  | (Ok _, c') =>
      c' = with_decoh_model_kw
             (Some {| D_matrix0_eV := DMatrix.zeros 9; decoh_n := 0;
                      decoh_E0_eV := 1; D_matrix_basis := "sun" |})
             (Example.three "deimos")
      /\ check_decoherence_D_matrix (DMatrix.zeros 9) (Example.three "deimos")
         = (Ok tt, Example.three "deimos")
      /\ DMatrix.shape_is (DMatrix.zeros 9) 9 9 = true
      /\ DMatrix.all_real (DMatrix.zeros 9) = true
      /\ DMatrix.all_nonneg (DMatrix.zeros 9) = true
  | (Raise e, c') =>
      c' = Example.three "deimos"
      /\ check_decoherence_D_matrix (DMatrix.zeros 9) (Example.three "deimos")
         = (Raise e, Example.three "deimos")
  end.
Proof.
  apply (decoherence_matrix_is_stored_only_if_valid Example.externals
           (DMatrix.zeros 9) 0%float 1%float (Example.three "deimos")).
  - vm_compute. reflexivity.
  - vm_compute. reflexivity.
Defined.

(** X10.  On a nusquids calculator that was not built with the
    decoherence variant, [set_decoherence_D_matrix] always raises, and
    the nuSQuIDS object is not called. *)
Theorem nusquids_needs_the_decoherence_variant (ext : Externals)
    (D : matrix) (n E0_eV : float) (c : OscCalculator) :
  tool c = nusquids_tool ->
  _nusquids_variant c <> Some "nuSQUIDSDecoh" ->
  exists e c',
    set_decoherence_D_matrix ext D n E0_eV c = (Raise e, c')
    /\ nusquids c' = nusquids c.
Proof.
  intros Ht Hv. unfold set_decoherence_D_matrix. unfold bind at 1.
  destruct (check_decoherence_D_matrix_state D c) as [Hstate _].
  destruct (check_decoherence_D_matrix D c) as [[u|e] c1]; cbn [snd] in Hstate.
  - rewrite bind_gets, Hstate. cbn [tool with_stdout]. rewrite Ht.
    rewrite bind_gets. cbn [_nusquids_variant with_stdout].
    rewrite bind_assert, bool_decide_eq_false_2 by exact Hv.
    eexists _, _. split; reflexivity.
  - exists e, c1. split; [reflexivity|]. rewrite Hstate. reflexivity.
Qed.

Lemma nusquids_needs_the_decoherence_variant_witness :
  exists e c',
    set_decoherence_D_matrix Example.externals (DMatrix.zeros 9) 0 1
      (Example.three "nusquids") = (Raise e, c')
    /\ nusquids c' = nusquids (Example.three "nusquids").
Proof.
  apply (nusquids_needs_the_decoherence_variant Example.externals
           (DMatrix.zeros 9) 0%float 1%float (Example.three "nusquids")).
  - vm_compute. reflexivity.
  - vm_compute. discriminate.
Defined.

(** X11.  The prob3 backend takes no decoherence: on a three-flavor prob3
    calculator a call of [set_decoherence_D_matrix] that succeeds has
    validated the matrix and stored nothing, the calculator is as it
    was. *)
Theorem prob3_ignores_the_decoherence_matrix (ext : Externals)
    (D : matrix) (n E0_eV : float) (c c' : OscCalculator) :
  tool c = prob3_tool ->
  num_neutrinos c = 3%nat ->
  set_decoherence_D_matrix ext D n E0_eV c = (Ok tt, c') ->
  c' = c.
Proof.
  intros Ht Hn. unfold set_decoherence_D_matrix. unfold bind at 1.
  rewrite (check_su3 D c Hn).
  destruct (SU3.first_failure D); [discriminate|].
  rewrite bind_gets, Ht. intros [= <-]. reflexivity.
Qed.

Lemma prob3_ignores_the_decoherence_matrix_witness :
  snd (set_decoherence_D_matrix Example.externals (DMatrix.zeros 9) 0 1
         (Example.three "prob3"))
  = Example.three "prob3".
Proof.
  apply (prob3_ignores_the_decoherence_matrix Example.externals
           (DMatrix.zeros 9) 0%float 1%float (Example.three "prob3")).
  - vm_compute. reflexivity.
  - vm_compute. reflexivity.
  - vm_compute. reflexivity.
Defined.

(** ** The pre-defined decoherence models *)

Section DecoherenceModelFacts.

Context (ext : Externals).
Context (randomize_phase randomize_state neutrino_loss
           : nat -> float -> result (string * matrix)).
Context (generic : string -> float -> result matrix).

Lemma pop_lookup (kw : gmap string float) (key : string) :
  pop kw key = match kw !! key with
               | Some v => Ok (v, delete key kw)
               | None => Raise (KeyError key)
               end.
Proof. reflexivity. Qed.

Lemma is_Some_lookup (kw : gmap string float) (key : string) :
  bool_decide (is_Some (kw !! key))
  = match kw !! key with Some _ => true | None => false end.
Proof.
  destruct (kw !! key).
  - apply bool_decide_eq_true_2. eauto.
  - apply bool_decide_eq_false_2. intros [? ?]. discriminate.
Qed.

(** The keywords of a call that gets past their check *)
Lemma set_model_keywords model_name kw c :
  match kw !! "gamma0_eV", kw !! "n", kw !! "E0_eV" with
  | Some gamma0_eV, Some n, Some E0_eV =>
      if (size kw =? 3)%nat
      then set_decoherence_model ext randomize_phase randomize_state neutrino_loss
        generic model_name kw c
           = bind (if bool_decide (model_name = "randomize_phase")
                   then (num_states <- gets num_neutrinos ;;
                         r <- lift (randomize_phase num_states gamma0_eV) ;;
                         ret (snd r))
                   else if bool_decide (model_name = "randomize_state")
                   then (num_states <- gets num_neutrinos ;;
                         r <- lift (randomize_state num_states gamma0_eV) ;;
                         ret (snd r))
                   else if bool_decide (model_name = "neutrino_loss")
                   then (num_states <- gets num_neutrinos ;;
                         r <- lift (neutrino_loss num_states gamma0_eV) ;;
                         ret (snd r))
                   else lift (generic model_name gamma0_eV))
               (fun D => set_decoherence_D_matrix ext D n E0_eV) c
      else set_decoherence_model ext randomize_phase randomize_state neutrino_loss
        generic model_name kw c = (Raise (AssertionError None), c)
  | _, _, _ => set_decoherence_model ext randomize_phase randomize_state neutrino_loss
        generic model_name kw c = (Raise (AssertionError None), c)
  end.
Proof.
  unfold set_decoherence_model.
  rewrite bind_assert, is_Some_lookup, bind_lift, pop_lookup.
  destruct (kw !! "gamma0_eV") as [gamma0_eV|] eqn:Hg; [|reflexivity].
  rewrite bind_assert, is_Some_lookup, bind_lift, pop_lookup.
  rewrite lookup_delete_ne by done.
  destruct (kw !! "n") as [n|] eqn:Hn; [|reflexivity].
  rewrite bind_assert, is_Some_lookup, bind_lift, pop_lookup.
  rewrite !lookup_delete_ne by done.
  destruct (kw !! "E0_eV") as [E0_eV|] eqn:HE; [|reflexivity].
  rewrite bind_assert.
  assert (Hsize : size (delete "E0_eV" (delete "n" (delete "gamma0_eV" kw)))
                  = (size kw - 3)%nat).
  { rewrite map_size_delete_Some
      by (rewrite !lookup_delete_ne by done; eauto).
    rewrite map_size_delete_Some by (rewrite lookup_delete_ne by done; eauto).
    rewrite map_size_delete_Some by eauto. lia. }
  assert (Hpos : (3 <= size kw)%nat).
  { assert (H1 : size (delete "gamma0_eV" kw) = pred (size kw))
      by (apply map_size_delete_Some; eauto).
    assert (H2 : size (delete "n" (delete "gamma0_eV" kw))
                 = pred (size (delete "gamma0_eV" kw)))
      by (apply map_size_delete_Some; rewrite lookup_delete_ne by done; eauto).
    assert (H3 : size (delete "n" (delete "gamma0_eV" kw)) <> 0%nat).
    { intros Hz. apply map_size_empty_iff in Hz.
      assert (HE' : delete "n" (delete "gamma0_eV" kw) !! "E0_eV" = Some E0_eV)
        by (rewrite !lookup_delete_ne by done; exact HE).
      rewrite Hz in HE'. rewrite lookup_empty in HE'. discriminate. }
    assert (H4 : size (delete "gamma0_eV" kw) <> 0%nat).
    { intros Hz. apply map_size_empty_iff in Hz.
      assert (Hn' : delete "gamma0_eV" kw !! "n" = Some n)
        by (rewrite lookup_delete_ne by done; exact Hn).
      rewrite Hz in Hn'. rewrite lookup_empty in Hn'. discriminate. }
    lia. }
  rewrite Hsize.
  destruct (Nat.eqb_spec (size kw) 3) as [H3|H3].
  - rewrite H3. cbn [Nat.sub Nat.eqb].
    repeat case_bool_decide; cbv beta iota zeta;
      rewrite ?bind_assoc; unfold bind, gets, lift, ret;
      repeat match goal with
             | |- context [match ?r with Ok _ => _ | Raise _ => _ end] =>
                 destruct r as [[? ?]|?]
             end; reflexivity.
  - destruct (Nat.eqb_spec (size kw - 3) 0); [lia|reflexivity].
Qed.

End DecoherenceModelFacts.

(** X12.  [set_decoherence_model] takes the keywords [gamma0_eV], [n] and
    [E0_eV] and no other: a call that misses one of them, or gives
    another one, raises an [AssertionError] before the model is looked up
    and leaves the calculator as it was, whatever the name of the
    model. *)
Theorem set_decoherence_model_checks_its_keywords (ext : Externals)
    (randomize_phase randomize_state neutrino_loss
       : nat -> float -> result (string * matrix))
    (generic : string -> float -> result matrix) (model_name : string)
    (kw : gmap string float) (c : OscCalculator) :
  kw !! "gamma0_eV" = None \/ kw !! "n" = None \/ kw !! "E0_eV" = None
  \/ size kw <> 3%nat ->
  set_decoherence_model ext randomize_phase randomize_state neutrino_loss
        generic model_name kw c = (Raise (AssertionError None), c).
Proof.
  intros H. pose proof (set_model_keywords ext randomize_phase randomize_state
                neutrino_loss generic model_name kw c) as Hrun.
  destruct (kw !! "gamma0_eV") as [g|]; [|exact Hrun].
  destruct (kw !! "n") as [n|]; [|exact Hrun].
  destruct (kw !! "E0_eV") as [E0|]; [|exact Hrun].
  destruct (Nat.eqb_spec (size kw) 3) as [H3|H3]; [|exact Hrun].
  destruct H as [H|[H|[H|H]]]; try discriminate H. contradiction.
Qed.

Lemma set_decoherence_model_checks_its_keywords_witness :
  set_decoherence_model Example.externals
    (fun _ _ => Ok ("mass", DMatrix.zeros 9))
    (fun _ _ => Ok ("mass", DMatrix.zeros 9))
    (fun _ _ => Ok ("mass", DMatrix.zeros 9))
    (fun _ _ => Ok (DMatrix.zeros 9))
    "randomize_phase" {[ "gamma0_eV" := 1%float; "n" := 0%float ]}
    (Example.three "deimos")
  = (Raise (AssertionError None), Example.three "deimos").
Proof.
  apply set_decoherence_model_checks_its_keywords.
  right. right. left. vm_compute. reflexivity.
Defined.

(** X13.  On a three-flavor deimos calculator a call of
    [set_decoherence_model] that succeeds has stored a matrix that is 9
    by 9, real and non-negative, with the [n] and [E0_eV] of the call;
    the basis stored is "sun", whatever basis the model function
    returned with the matrix. *)
Theorem set_decoherence_model_stores_a_valid_matrix (ext : Externals)
    (randomize_phase randomize_state neutrino_loss
       : nat -> float -> result (string * matrix))
    (generic : string -> float -> result matrix) (model_name : string)
    (kw : gmap string float) (c c' : OscCalculator) :
  tool c = deimos_tool ->
  num_neutrinos c = 3%nat ->
  set_decoherence_model ext randomize_phase randomize_state neutrino_loss
        generic model_name kw c = (Ok tt, c') ->
  exists D n E0_eV,
    kw !! "n" = Some n /\ kw !! "E0_eV" = Some E0_eV
    /\ c' = with_decoh_model_kw
              (Some {| D_matrix0_eV := D; decoh_n := n; decoh_E0_eV := E0_eV;
                       D_matrix_basis := "sun" |}) c
    /\ DMatrix.shape_is D 9 9 = true
    /\ DMatrix.all_real D = true
    /\ DMatrix.all_nonneg D = true.
Proof.
  intros Ht Hn3 H. pose proof (set_model_keywords ext randomize_phase randomize_state
                neutrino_loss generic model_name kw c) as Hrun.
  destruct (kw !! "gamma0_eV") as [g|]; [|congruence].
  destruct (kw !! "n") as [n|]; [|congruence].
  destruct (kw !! "E0_eV") as [E0|]; [|congruence].
  destruct (size kw =? 3)%nat; [|congruence].
  rewrite Hrun in H. clear Hrun.
  apply bind_ok_inv in H. destruct H as (D & c1 & Hmodel & Hset).
  assert (Hc1 : c1 = c).
  { revert Hmodel.
    repeat case_bool_decide; unfold bind, gets, lift, ret;
      repeat match goal with
             | |- context [match ?r with Ok _ => _ | Raise _ => _ end] =>
                 destruct r as [[? ?]|?]
             end; intros [= _ <-] || discriminate; reflexivity. }
  subst c1.
  pose proof (decoherence_state ext D n E0 c Ht Hn3) as Hd.
  rewrite Hset in Hd. destruct Hd as (-> & _ & Hshape & Hreal & Hpos).
  exists D, n, E0. repeat split; assumption.
Qed.

Lemma set_decoherence_model_stores_a_valid_matrix_witness :
  exists D n E0_eV,
    ({[ "gamma0_eV" := 1%float; "n" := 0%float; "E0_eV" := 2%float ]}
       : gmap string float) !! "n" = Some n
    /\ ({[ "gamma0_eV" := 1%float; "n" := 0%float; "E0_eV" := 2%float ]}
          : gmap string float) !! "E0_eV" = Some E0_eV
    /\ snd (set_decoherence_model Example.externals
              (fun _ _ => Ok ("mass", DMatrix.zeros 9))
              (fun _ _ => Ok ("mass", DMatrix.zeros 9))
              (fun _ _ => Ok ("mass", DMatrix.zeros 9))
              (fun _ _ => Ok (DMatrix.zeros 9))
              "randomize_phase"
              {[ "gamma0_eV" := 1%float; "n" := 0%float; "E0_eV" := 2%float ]}
              (Example.three "deimos"))
       = with_decoh_model_kw
           (Some {| D_matrix0_eV := D; decoh_n := n; decoh_E0_eV := E0_eV;
                    D_matrix_basis := "sun" |}) (Example.three "deimos")
    /\ DMatrix.shape_is D 9 9 = true
    /\ DMatrix.all_real D = true
    /\ DMatrix.all_nonneg D = true.
Proof.
  apply (set_decoherence_model_stores_a_valid_matrix Example.externals
           (fun _ _ => Ok ("mass", DMatrix.zeros 9))
           (fun _ _ => Ok ("mass", DMatrix.zeros 9))
           (fun _ _ => Ok ("mass", DMatrix.zeros 9))
           (fun _ _ => Ok (DMatrix.zeros 9))
           "randomize_phase"
           {[ "gamma0_eV" := 1%float; "n" := 0%float; "E0_eV" := 2%float ]}
           (Example.three "deimos")).
  - vm_compute. reflexivity.
  - vm_compute. reflexivity.
  - vm_compute. reflexivity.
Defined.

(** ** The arguments and the result of [calc_osc_prob] *)

(** The index of the initial flavor: of a valid flavor it is the flavor,
    and the calculator is as it was in any case. *)
Lemma flavor_index_run (c : OscCalculator) (f : option flavor_arg) :
  exists r,
    match f with Some f => _get_flavor_index f | None => ret None end c = (r, c)
    /\ (valid_flavor c f ->
        exists i, r = Ok i
                  /\ (f = None -> i = None)
                  /\ (forall z, f = Some (FlavorInt z) -> i = Some z)).
Proof.
  destruct f as [f|].
  - exists (fst (_get_flavor_index f c)). split.
    + rewrite <- (get_flavor_index_state f c) at 3.
      destruct (_get_flavor_index f c); reflexivity.
    + intros (z & -> & Hin & Hlt). rewrite (get_flavor_index_ok z c Hin Hlt).
      exists (Some z). split; [reflexivity|split; [discriminate|]].
      intros z' [= <-]. reflexivity.
  - exists (Ok None). split; [reflexivity|]. intros _.
    exists None. split; [reflexivity|split; [reflexivity|discriminate]].
Qed.

(** [calc_osc_prob] is: the flavor index, the check of the arguments
    against the mode, the backend, the final checks. *)
Lemma calc_osc_prob_run ext c E f st d cz nb :
  calc_osc_prob ext E f st d cz nb c
  = bind (match f with Some f => _get_flavor_index f | None => ret None end)
      (fun i =>
         if atmospheric c then
           match cz, d with
           | Some g, None =>
               bind (dispatch ext c E i st d (Some (Array (asarray g))) nb)
                 (finish (is_scalar E) (is_scalar g) (grid_size E) (grid_size g))
           | _, _ => raise (mode_error c)
           end
         else
           match d, cz with
           | Some g, None =>
               bind (dispatch ext c E i st d cz nb)
                 (finish (is_scalar E) (is_scalar g) (grid_size E) (grid_size g))
           | _, _ => raise (mode_error c)
           end) c.
Proof.
  unfold calc_osc_prob, finish, dispatch, mode_error.
  destruct (flavor_index_run c f) as (r & Hr & _).
  destruct E as [e|es]; cbn [is_scalar grid_size].
  all: rewrite !(bind_run _ _ _ _ _ Hr).
  all: destruct r as [i|err]; [|reflexivity].
  all: rewrite bind_gets.
  all: destruct (atmospheric c).
  all: destruct cz as [[x|xs]|], d as [[y|ys]|];
       cbn [is_scalar grid_size asarray];
       rewrite ?bind_raise, ?bind_ret, ?bind_gets; reflexivity.
Qed.

(** X14.  [calc_osc_prob] takes [coszen] in atmospheric mode and
    [distance_km] otherwise, and never both: a call whose arguments do
    not fit the mode raises an [AssertionError] that says which argument
    the mode asks for, before any backend is called. *)
Theorem wrong_mode_arguments_are_rejected (ext : Externals)
    (c : OscCalculator) (energy_GeV : grid)
    (initial_flavor : option flavor_arg) (initial_state : option ndarray)
    (distance_km coszen : option grid) (nubar : bool) :
  valid_flavor c initial_flavor ->
  ~ right_mode c distance_km coszen ->
  calc_osc_prob ext energy_GeV initial_flavor initial_state distance_km coszen
    nubar c
  = (Raise (mode_error c), c).
Proof.
  intros Hf Hmode. rewrite calc_osc_prob_run.
  destruct (flavor_index_run c initial_flavor) as (r & Hr & Hvalid).
  destruct (Hvalid Hf) as (i & -> & _).
  rewrite (bind_run _ _ _ _ _ Hr).
  unfold right_mode in Hmode.
  destruct (atmospheric c), coszen as [cz|], distance_km as [d|];
    try reflexivity.
  all: exfalso; apply Hmode; split; eauto.
Qed.

Lemma wrong_mode_arguments_are_rejected_witness :
  calc_osc_prob Example.externals (Scalar 1) (Some (FlavorInt 0)) None
    (Some (Scalar 1)) (Some (Scalar 0.5)) false (Example.three "deimos")
  = (Raise (mode_error (Example.three "deimos")), Example.three "deimos").
Proof.
  apply wrong_mode_arguments_are_rejected.
  - exists 0%Z. split; [reflexivity|split; [constructor|]].
    vm_compute. reflexivity.
  - vm_compute. intros [_ H]. discriminate H.
Defined.

(** With arguments that fit the mode, [calc_osc_prob] is the backend and
    the final checks. *)
Lemma calc_osc_prob_right_mode ext c E f st d cz nb i :
  right_mode c d cz ->
  match f with Some f => _get_flavor_index f | None => ret None end c = (Ok i, c) ->
  exists g cz',
    (if atmospheric c then cz else d) = Some g
    /\ calc_osc_prob ext E f st d cz nb c
       = bind (dispatch ext c E i st d cz' nb)
           (finish (is_scalar E) (is_scalar g) (grid_size E) (grid_size g)) c.
Proof.
  intros Hmode Hi. rewrite calc_osc_prob_run, (bind_run _ _ _ _ _ Hi).
  unfold right_mode in Hmode.
  destruct (atmospheric c), Hmode as [[g ->] ->]; eauto.
Qed.

(** X15.  The initial condition of a calculation.  The nusquids backend
    takes an initial flavor or an initial state, and not both; the deimos
    backend takes an initial flavor only.  A call that gives neither, or
    gives both to nusquids, raises an [AssertionError] before the backend
    is called. *)
Theorem initial_condition_is_checked (ext : Externals) (c : OscCalculator)
    (energy_GeV : grid) (initial_flavor : option flavor_arg)
    (initial_state : option ndarray) (distance_km coszen : option grid)
    (nubar : bool) :
  right_mode c distance_km coszen ->
  valid_flavor c initial_flavor ->
  let run := calc_osc_prob ext energy_GeV initial_flavor initial_state
               distance_km coszen nubar c in
  match tool c, initial_flavor, initial_state with
  | nusquids_tool, None, None =>
      run = (Raise (AssertionError
                      (Some "Must provide `initial_flavor` or `initial_state`")), c)
  | nusquids_tool, Some _, Some _ =>
      run = (Raise (AssertionError
                      (Some "Must provide `initial_flavor` or `initial_state`, not both")), c)
  | deimos_tool, None, _ =>
      run = (Raise (AssertionError
                      (Some "must provide `initial_flavor` (`initial_state` not currently supported for deimos")), c)
  | _, _, _ => True
  end.
Proof.
  intros Hmode Hf run. subst run.
  destruct (flavor_index_run c initial_flavor) as (r & Hr & Hvalid).
  destruct (Hvalid Hf) as (i & -> & Hnone & Hsome).
  destruct (calc_osc_prob_right_mode ext c energy_GeV initial_flavor
              initial_state distance_km coszen nubar i Hmode Hr)
    as (g & cz' & _ & ->).
  unfold dispatch.
  destruct (tool c), initial_flavor as [fl|], initial_state as [st|];
    try exact I.
  - destruct Hf as (z & -> & _). rewrite (Hsome z eq_refl). reflexivity.
  - rewrite (Hnone eq_refl). reflexivity.
  - rewrite (Hnone eq_refl). reflexivity.
  - rewrite (Hnone eq_refl). reflexivity.
Qed.

Lemma initial_condition_is_checked_witness :
  calc_osc_prob Example.externals (Scalar 1) (Some (FlavorInt 0))
    (Some (NdArray [3; 2; 3]%nat [])) (Some (Scalar 1)) None false
    (Example.three "nusquids")
  = (Raise (AssertionError
              (Some "Must provide `initial_flavor` or `initial_state`, not both")),
     Example.three "nusquids").
Proof.
  apply (initial_condition_is_checked Example.externals
           (Example.three "nusquids") (Scalar 1) (Some (FlavorInt 0))
           (Some (NdArray [3; 2; 3]%nat [])) (Some (Scalar 1)) None false).
  - vm_compute. split; [eauto|reflexivity].
  - exists 0%Z. split; [reflexivity|split; [constructor|]].
    vm_compute. reflexivity.
Defined.

(** ** The shape of the result *)

Lemma tensor_shape_rows (t : tensor) a b n :
  tensor_shape_is t a b n = true ->
  length t = a
  /\ Forall (fun row => length row = b /\ Forall (fun p => length p = n) row) t.
Proof.
  unfold tensor_shape_is. intros H. apply andb_true_iff in H as [Ha Hrows].
  split; [apply Nat.eqb_eq; exact Ha|].
  apply Forall_forall. intros row Hin.
  rewrite forallb_forall in Hrows.
  specialize (Hrows row (proj1 (list_elem_of_In _ _) Hin)).
  apply andb_true_iff in Hrows as [Hb Hps].
  split; [apply Nat.eqb_eq; exact Hb|].
  apply Forall_forall. intros p Hp. rewrite forallb_forall in Hps.
  apply Nat.eqb_eq, Hps, list_elem_of_In, Hp.
Qed.

Lemma firsts_of_shape {A} (t : list (list (list A))) n rows :
  Forall (fun row => Forall (fun p => length p = n) row) t ->
  firsts_of t = Ok rows ->
  length rows = length t /\ Forall (fun r => length r = n) rows.
Proof.
  revert rows. induction t as [|row t IH]; intros rows Hall H.
  - injection H as <-. split; [reflexivity|constructor].
  - cbn [firsts_of] in H. inversion Hall as [|? ? Hrow Hrest]; subst.
    destruct row as [|p row]; [discriminate H|]. cbn [first_of] in H.
    destruct (firsts_of t) as [xs|e]; [|discriminate H].
    injection H as <-. destruct (IH xs Hrest eq_refl) as [Hlen Hxs].
    split; [cbn [length]; congruence|].
    constructor; [|exact Hxs]. inversion Hrow; assumption.
Qed.

(** What the final checks return has the shape of the arguments. *)
Lemma finish_shape (E g : grid) (t : tensor) (c c' : OscCalculator) (p : probs) :
  finish (is_scalar E) (is_scalar g) (grid_size E) (grid_size g) t c = (Ok p, c') ->
  c' = c /\ probs_shape p (result_shape E g (num_neutrinos c)).
Proof.
  unfold finish, result_shape. rewrite bind_gets, bind_assert.
  destruct (tensor_shape_is t (grid_size E) (grid_size g) (num_neutrinos c))
    eqn:Hshape; [|discriminate].
  apply tensor_shape_rows in Hshape. destruct Hshape as [Hlen Hrows].
  destruct (is_scalar E), (is_scalar g); cbn [andb app].
  - rewrite bind_assoc, bind_lift.
    destruct t as [|row t']; [discriminate|]. cbn [first_of].
    rewrite bind_assoc, bind_lift.
    destruct row as [|v row']; [discriminate|]. cbn [first_of].
    rewrite bind_ret, bind_assert.
    destruct (all_finite (Probs1 v)); [|discriminate].
    intros [= <- <-]. split; [reflexivity|]. cbn [probs_shape].
    inversion Hrows as [|? ? [_ Hrow] _]; subst.
    inversion Hrow; assumption.
  - rewrite bind_assoc, bind_lift.
    destruct t as [|row t']; [discriminate|]. cbn [first_of].
    rewrite bind_ret, bind_assert.
    destruct (all_finite (Probs2 row)); [|discriminate].
    intros [= <- <-]. split; [reflexivity|]. cbn [probs_shape].
    inversion Hrows as [|? ? [Hb Hrow] _]; subst. split; assumption.
  - rewrite bind_assoc, bind_lift.
    destruct (firsts_of t) as [rows|e] eqn:Hfirsts; [|discriminate].
    rewrite bind_ret, bind_assert.
    destruct (all_finite (Probs2 rows)); [|discriminate].
    intros [= <- <-]. split; [reflexivity|]. cbn [probs_shape].
    destruct (firsts_of_shape t (num_neutrinos c) rows) as [Hl Hr];
      [|exact Hfirsts|split; [congruence|exact Hr]].
    eapply Forall_impl; [exact Hrows|]. intros row [_ H]. exact H.
  - rewrite bind_ret, bind_assert.
    destruct (all_finite (Probs3 t)); [|discriminate].
    intros [= <- <-]. split; [reflexivity|]. cbn [probs_shape].
    unfold tensor_shape_is. apply andb_true_iff. split.
    + apply Nat.eqb_eq. exact Hlen.
    + apply forallb_forall. intros row Hin.
      rewrite Forall_forall in Hrows.
      destruct (Hrows row (proj2 (list_elem_of_In _ _) Hin)) as [Hb Hps].
      apply andb_true_iff. split; [apply Nat.eqb_eq; exact Hb|].
      apply forallb_forall. intros q Hq. rewrite Forall_forall in Hps.
      apply Nat.eqb_eq, Hps, list_elem_of_In, Hq.
Qed.

Lemma dispatch_configuration ext c0 E i st d cz nb :
  preserves same_configuration (dispatch ext c0 E i st d cz nb).
Proof.
  unfold dispatch. destruct (tool c0); [| destruct i |].
  - apply nusquids_configuration.
  - apply deimos_configuration.
  - apply (preserves_raise _ same_configuration_refl).
  - apply prob3_configuration.
Qed.

Lemma calc_osc_prob_shape ext c c' E f st d cz nb p :
  calc_osc_prob ext E f st d cz nb c = (Ok p, c') ->
  exists g,
    (if atmospheric c then cz else d) = Some g
    /\ (if atmospheric c then d else cz) = None
    /\ probs_shape p (result_shape E g (num_neutrinos c)).
Proof.
  rewrite calc_osc_prob_run. intros H.
  apply bind_ok_inv in H. destruct H as (i & c0 & Hi & H).
  destruct (flavor_index_run c f) as (r & Hr & _).
  rewrite Hr in Hi. injection Hi as -> <-.
  assert (Hrun : forall g cz',
            bind (dispatch ext c E i st d cz' nb)
              (finish (is_scalar E) (is_scalar g) (grid_size E) (grid_size g)) c
            = (Ok p, c') ->
            probs_shape p (result_shape E g (num_neutrinos c))).
  { intros g cz' Hb. apply bind_ok_inv in Hb.
    destruct Hb as (t & c1 & Hd & Hfin).
    apply finish_shape in Hfin. destruct Hfin as [_ Hshape].
    pose proof (dispatch_configuration ext c E i st d cz' nb c) as Hc.
    rewrite Hd in Hc. cbn [snd] in Hc.
    apply same_configuration_identity in Hc. destruct Hc as (_ & _ & _ & Hn).
    rewrite <- Hn. exact Hshape. }
  destruct (atmospheric c).
  - destruct cz as [g|]; [|discriminate H].
    destruct d as [y|]; [discriminate H|].
    exists g. split; [reflexivity|split; [reflexivity|]]. eapply Hrun, H.
  - destruct d as [g|]; [|discriminate H].
    destruct cz as [y|]; [discriminate H|].
    exists g. split; [reflexivity|split; [reflexivity|]]. eapply Hrun, H.
Qed.

(** X16.  The shape of a returned result follows the arguments: one axis
    for the energies unless the energy is a single value, one axis for the
    distances (the cosines of the zenith angle in atmospheric mode) unless
    that is a single value, and a last axis that has one entry per flavor
    of the calculator. *)
Theorem result_has_the_shape_of_the_arguments (ext : Externals)
    (c c' : OscCalculator) (energy_GeV : grid)
    (initial_flavor : option flavor_arg) (initial_state : option ndarray)
    (distance_km coszen : option grid) (nubar : bool) (p : probs) :
  calc_osc_prob ext energy_GeV initial_flavor initial_state distance_km coszen
    nubar c = (Ok p, c') ->
  exists g,
    (if atmospheric c then coszen else distance_km) = Some g
    /\ (if atmospheric c then distance_km else coszen) = None
    /\ probs_shape p (result_shape energy_GeV g (num_neutrinos c)).
Proof. apply calc_osc_prob_shape. Qed.

Lemma result_has_the_shape_of_the_arguments_witness :
  exists g,
    Some (Array [1; 2; 3; 4]%float) = Some g
    /\ @None grid = None
    /\ probs_shape
         (Probs2 [[0.5; 0.5; 0.5]; [0.5; 0.5; 0.5]; [0.5; 0.5; 0.5];
                  [0.5; 0.5; 0.5]]%float)
         (result_shape (Scalar 1) g 3).
Proof.
  apply (result_has_the_shape_of_the_arguments Example.externals
           (Example.three "deimos") (Example.three "deimos") (Scalar 1)
           (Some (FlavorInt 0)) None (Some (Array [1; 2; 3; 4]%float)) None
           false).
  vm_compute. reflexivity.
Defined.

(** ** The final checks *)

(** A flavor argument for which [_get_flavor_index] returns is valid, and
    the index returned is the one given. *)
Lemma flavor_index_returned (c c0 : OscCalculator) (f : option flavor_arg)
    (i : option Z) :
  match f with Some f => _get_flavor_index f | None => ret None end c
  = (Ok i, c0) ->
  c0 = c /\ i = flavor_index_of f /\ valid_flavor c f.
Proof.
  intros H. pose proof (flavor_index_state f c _ _ H) as ->.
  split; [reflexivity|].
  destruct f as [[s|z]|].
  - rewrite get_flavor_index_str in H. discriminate H.
  - unfold _get_flavor_index in H. rewrite bind_assoc, bind_assert in H.
    destruct (bool_decide (z ∈ [0; 1; 2]%Z)) eqn:Hin; [|discriminate H].
    apply bool_decide_eq_true_1 in Hin.
    rewrite bind_ret, bind_gets, bind_lift in H. cbn [flavor_lt] in H.
    rewrite bind_assert in H.
    destruct (z <? Z.of_nat (num_neutrinos c))%Z eqn:Hlt; [|discriminate H].
    apply Z.ltb_lt in Hlt. injection H as <-.
    split; [reflexivity|]. exists z. auto.
  - injection H as <-. split; reflexivity.
Qed.

Lemma firsts_of_singletons_hd (t : tensor) :
  Forall (fun row => length row = 1%nat) t ->
  firsts_of t = Ok (map (hd []) t).
Proof.
  induction t as [|row t IH]; intros Hall; [reflexivity|].
  inversion Hall as [|? ? Hrow Hrest]; subst.
  cbn [firsts_of map]. destruct row as [|p row]; [discriminate Hrow|].
  cbn [first_of hd]. rewrite (IH Hrest). reflexivity.
Qed.

(** The end of [calc_osc_prob]: the check of the shape, the removal of
    the single-valued dimensions, the check of the entries. *)
Lemma finish_checks (E g : grid) (t : tensor) (c : OscCalculator) :
  finish (is_scalar E) (is_scalar g) (grid_size E) (grid_size g) t c
  = (if negb (tensor_shape_is t (grid_size E) (grid_size g) (num_neutrinos c))
     then Raise (AssertionError None)
     else if negb (all_finite (squeezed (is_scalar E) (is_scalar g) t))
     then Raise (AssertionError (Some "Found non-finite osc probs"))
     else Ok (squeezed (is_scalar E) (is_scalar g) t), c).
Proof.
  unfold finish, squeezed. rewrite bind_gets, bind_assert.
  destruct (tensor_shape_is t (grid_size E) (grid_size g) (num_neutrinos c))
    eqn:Hshape; [|reflexivity].
  cbn [negb]. apply tensor_shape_rows in Hshape. destruct Hshape as [Hlen Hrows].
  destruct E as [e|es], g as [x|xs]; cbn [is_scalar grid_size andb] in *.
  - destruct t as [|row t']; [discriminate Hlen|].
    inversion Hrows as [|? ? [Hrow _] _]; subst.
    destruct row as [|v row']; [discriminate Hrow|].
    rewrite bind_assoc, bind_lift. cbn [first_of].
    rewrite bind_assoc, bind_lift. cbn [first_of hd].
    rewrite bind_ret, bind_assert.
    destruct (all_finite (Probs1 v)); reflexivity.
  - destruct t as [|row t']; [discriminate Hlen|].
    rewrite bind_assoc, bind_lift. cbn [first_of hd].
    rewrite bind_ret, bind_assert.
    destruct (all_finite (Probs2 row)); reflexivity.
  - rewrite bind_assoc, bind_lift, firsts_of_singletons_hd.
    + rewrite bind_ret, bind_assert.
      destruct (all_finite (Probs2 (map (hd []) t))); reflexivity.
    + eapply Forall_impl; [exact Hrows|]. intros row [H _]. exact H.
  - rewrite bind_ret, bind_assert.
    destruct (all_finite (Probs3 t)); reflexivity.
Qed.

(** With a valid flavor argument and arguments that fit the mode,
    [calc_osc_prob] is the call of the backend and the final checks. *)
Lemma calc_osc_prob_backend ext c E f st d cz nb g :
  right_mode c d cz ->
  valid_flavor c f ->
  (if atmospheric c then cz else d) = Some g ->
  calc_osc_prob ext E f st d cz nb c
  = bind (backend_call ext c E f st d cz nb)
      (finish (is_scalar E) (is_scalar g) (grid_size E) (grid_size g)) c.
Proof.
  intros Hmode Hf Hg. rewrite calc_osc_prob_run.
  destruct (flavor_index_run c f) as (r & Hr & Hvalid).
  destruct (Hvalid Hf) as (i & -> & _).
  destruct (flavor_index_returned c c f i Hr) as (_ & -> & _).
  rewrite (bind_run _ _ _ _ _ Hr).
  unfold backend_call, backend_coszen, right_mode in *.
  destruct (atmospheric c).
  - destruct Hmode as [_ ->]. rewrite Hg. reflexivity.
  - destruct Hmode as [_ ->]. rewrite Hg. reflexivity.
Qed.

Lemma backend_call_flavors ext c E f st d cz nb r c1 :
  backend_call ext c E f st d cz nb c = (r, c1) ->
  num_neutrinos c1 = num_neutrinos c.
Proof.
  intros H. unfold backend_call in H.
  pose proof (dispatch_configuration ext c E (flavor_index_of f) st d
                (backend_coszen c cz) nb c) as Hc.
  rewrite H in Hc. cbn [snd] in Hc.
  apply same_configuration_identity in Hc. destruct Hc as (_ & _ & _ & Hn).
  exact Hn.
Qed.

(** C2, as amended.  [calc_osc_prob] validates the result before it
    returns it.  A call that returns has called the backend, the tensor of
    the backend has the shape (number of energies, number of distances,
    number of flavors), the result is that tensor with its single-valued
    dimensions removed, and every entry of it is finite.  And whatever
    tensor the backend returns: if its shape is another one the call
    raises an [AssertionError]; if the shape is right and an entry is not
    finite it raises the [AssertionError] "Found non-finite osc probs";
    otherwise it returns.  No check is made of the sum of the
    probabilities over the final flavor. *)
Theorem returned_result_is_validated (ext : Externals) (c : OscCalculator)
    (energy_GeV : grid) (initial_flavor : option flavor_arg)
    (initial_state : option ndarray) (distance_km coszen : option grid)
    (nubar : bool) :
  let run := calc_osc_prob ext energy_GeV initial_flavor initial_state
               distance_km coszen nubar c in
  let backend := backend_call ext c energy_GeV initial_flavor initial_state
                   distance_km coszen nubar c in
  (forall p c',
     run = (Ok p, c') ->
     exists g t,
       (if atmospheric c then coszen else distance_km) = Some g
       /\ backend = (Ok t, c')
       /\ tensor_shape_is t (grid_size energy_GeV) (grid_size g)
            (num_neutrinos c) = true
       /\ p = squeezed (is_scalar energy_GeV) (is_scalar g) t
       /\ all_finite p = true)
  /\ (forall g t c1,
        right_mode c distance_km coszen ->
        valid_flavor c initial_flavor ->
        (if atmospheric c then coszen else distance_km) = Some g ->
        backend = (Ok t, c1) ->
        run
        = (if negb (tensor_shape_is t (grid_size energy_GeV) (grid_size g)
                      (num_neutrinos c))
           then Raise (AssertionError None)
           else if negb (all_finite
                           (squeezed (is_scalar energy_GeV) (is_scalar g) t))
           then Raise (AssertionError (Some "Found non-finite osc probs"))
           else Ok (squeezed (is_scalar energy_GeV) (is_scalar g) t), c1)).
Proof.
  cbv zeta.
  assert (Hchecks : forall g t c1,
            right_mode c distance_km coszen ->
            valid_flavor c initial_flavor ->
            (if atmospheric c then coszen else distance_km) = Some g ->
            backend_call ext c energy_GeV initial_flavor initial_state
              distance_km coszen nubar c = (Ok t, c1) ->
            calc_osc_prob ext energy_GeV initial_flavor initial_state
              distance_km coszen nubar c
            = (if negb (tensor_shape_is t (grid_size energy_GeV) (grid_size g)
                          (num_neutrinos c))
               then Raise (AssertionError None)
               else if negb (all_finite
                               (squeezed (is_scalar energy_GeV) (is_scalar g) t))
               then Raise (AssertionError (Some "Found non-finite osc probs"))
               else Ok (squeezed (is_scalar energy_GeV) (is_scalar g) t), c1)).
  { intros g t c1 Hmode Hf Hg Hb.
    rewrite (calc_osc_prob_backend ext c _ _ _ _ _ _ g Hmode Hf Hg).
    rewrite (bind_run _ _ _ _ _ Hb), finish_checks.
    rewrite (backend_call_flavors _ _ _ _ _ _ _ _ _ _ Hb). reflexivity. }
  split; [|exact Hchecks].
  intros p c' Hrun.
  assert (Hmode : right_mode c distance_km coszen
                  /\ valid_flavor c initial_flavor).
  { pose proof Hrun as H. rewrite calc_osc_prob_run in H.
    apply bind_ok_inv in H. destruct H as (i & c0 & Hi & H).
    destruct (flavor_index_returned c c0 initial_flavor i Hi) as (-> & _ & Hf).
    split; [|exact Hf]. unfold right_mode.
    destruct (atmospheric c), coszen as [cz|], distance_km as [d|];
      first [discriminate H | split; eauto]. }
  destruct Hmode as [Hmode Hf].
  assert (Hg : exists g, (if atmospheric c then coszen else distance_km) = Some g).
  { unfold right_mode in Hmode.
    destruct (atmospheric c), Hmode as [[g Hg] _]; eauto. }
  destruct Hg as [g Hg].
  pose proof Hrun as H.
  rewrite (calc_osc_prob_backend ext c _ _ _ _ _ _ g Hmode Hf Hg) in H.
  apply bind_ok_inv in H. destruct H as (t & c1 & Hb & Hfin).
  rewrite (Hchecks g t c1 Hmode Hf Hg Hb) in Hrun.
  destruct (tensor_shape_is t (grid_size energy_GeV) (grid_size g)
              (num_neutrinos c)) eqn:Hshape; [|discriminate Hrun].
  destruct (all_finite (squeezed (is_scalar energy_GeV) (is_scalar g) t))
    eqn:Hall; [|discriminate Hrun].
  cbn [negb] in Hrun. injection Hrun as <- <-.
  exists g, t. repeat split; first [assumption|reflexivity].
Qed.

Lemma returned_result_is_validated_witness :
  exists g t,
    Some (Scalar 1%float) = Some g
    /\ backend_call Example.externals (Example.three "deimos") (Scalar 1)
         (Some (FlavorInt 0)) None (Some (Scalar 1)) None false
         (Example.three "deimos")
       = (Ok t, Example.three "deimos")
    /\ tensor_shape_is t 1 (grid_size g) 3 = true
    /\ Probs1 [0.5; 0.5; 0.5]%float = squeezed true (is_scalar g) t
    /\ all_finite (Probs1 [0.5; 0.5; 0.5]%float) = true.
Proof.
  apply (proj1 (returned_result_is_validated Example.externals
                  (Example.three "deimos") (Scalar 1) (Some (FlavorInt 0))
                  None (Some (Scalar 1)) None false)
           (Probs1 [0.5; 0.5; 0.5]%float) (Example.three "deimos")).
  vm_compute. reflexivity.
Defined.

(** X17.  The prob3 backend calculates for three flavors only: on a prob3
    calculator of another number of flavors every call of [calc_osc_prob]
    raises, and the propagator is not called. *)
Theorem prob3_calculates_for_three_flavors_only (ext : Externals)
    (c : OscCalculator) (energy_GeV : grid)
    (initial_flavor : option flavor_arg) (initial_state : option ndarray)
    (distance_km coszen : option grid) (nubar : bool) :
  tool c = prob3_tool ->
  num_neutrinos c <> 3%nat ->
  exists e,
    calc_osc_prob ext energy_GeV initial_flavor initial_state distance_km
      coszen nubar c = (Raise e, c).
Proof.
  intros Ht Hn. rewrite calc_osc_prob_run.
  destruct (flavor_index_run c initial_flavor) as (r & Hr & _).
  rewrite (bind_run _ _ _ _ _ Hr).
  destruct r as [i|e]; [|eauto].
  assert (Hd : forall d cz,
            dispatch ext c energy_GeV i initial_state d cz nubar c
            = (Raise (AssertionError
                        (Some "prob3 wrapper only supporting 3-flavor oscillations currently")), c)).
  { intros d cz. unfold dispatch, _calc_osc_prob_prob3. rewrite Ht.
    rewrite bind_gets, bind_assert.
    apply Nat.eqb_neq in Hn. rewrite Hn. reflexivity. }
  destruct (atmospheric c).
  - destruct coszen as [g|]; [|eauto]. destruct distance_km as [y|]; [eauto|].
    rewrite (bind_run _ _ _ _ _ (Hd _ _)). eauto.
  - destruct distance_km as [g|]; [|eauto]. destruct coszen as [y|]; [eauto|].
    rewrite (bind_run _ _ _ _ _ (Hd _ _)). eauto.
Qed.

Lemma prob3_calculates_for_three_flavors_only_witness :
  exists e,
    calc_osc_prob Example.externals (Scalar 1) (Some (FlavorInt 0)) None
      (Some (Scalar 1)) None false (Example.two "prob3")
    = (Raise e, Example.two "prob3").
Proof.
  apply prob3_calculates_for_three_flavors_only.
  - vm_compute. reflexivity.
  - vm_compute. discriminate.
Defined.

(** ** The calls made on the nuSQuIDS object *)

(** The final checks leave the calculator as it was. *)
Lemma finish_state se sd a b t c : snd (finish se sd a b t c) = c.
Proof.
  symmetry. revert c. change (preserves eq (finish se sd a b t)).
  unfold finish.
  repeat first
    [ frame_step (@eq_refl OscCalculator) (@eq_trans OscCalculator)
        ltac:(reflexivity)
    | progress cbv beta zeta ].
Qed.

Lemma bind_finish_state {A} (m : M A) se sd a b (k : A -> tensor) c :
  snd (bind m (fun x => finish se sd a b (k x)) c) = snd (m c).
Proof.
  unfold bind. destruct (m c) as [[x|e] c1]; [apply finish_state|reflexivity].
Qed.

Section NusquidsCalls.

Context (ext : Externals).

(** In vacuum and in constant matter, the propagation over one distance
    is three calls. *)
Lemma propagate_distance_plain m st0 Es ff rho L c :
  _matter_settings c !! "matter" = Some (VStr m) ->
  m = "vacuum" \/ m = "constant" ->
  propagate_distance ext st0 Es ff rho L c
  = (Ok (evaluate ext Es ff rho (nusquids c ++ propagation ext m st0 L)),
     with_nusquids (nusquids c ++ propagation ext m st0 L) c).
Proof.
  intros Hm Hcase. unfold propagate_distance.
  rewrite bind_gets, (getitem_lookup _ _ _ Hm), bind_lift.
  destruct Hcase as [-> | ->].
  - change (is_str (VStr "vacuum") "vacuum") with true. cbv iota.
    unfold nsq_do. rewrite bind_assoc, bind_modify, bind_assoc, bind_modify,
      bind_modify, bind_gets.
    cbn [nusquids with_nusquids]. unfold ret, propagation, evaluate.
    rewrite <- !app_assoc. reflexivity.
  - change (is_str (VStr "constant") "vacuum") with false.
    change (is_str (VStr "constant") "constant") with true. cbv iota.
    unfold nsq_do. rewrite bind_assoc, bind_modify, bind_assoc, bind_modify,
      bind_modify, bind_gets.
    cbn [nusquids with_nusquids]. unfold ret, propagation, evaluate.
    rewrite <- !app_assoc. reflexivity.
Qed.

Lemma for_each_plain m st0 Es ff rho ds : forall c,
  _matter_settings c !! "matter" = Some (VStr m) ->
  m = "vacuum" \/ m = "constant" ->
  exists r,
    for_each (propagate_distance ext st0 Es ff rho) ds c
    = (Ok r, with_nusquids
               (nusquids c ++ flat_map (propagation ext m st0) ds) c).
Proof.
  induction ds as [|L ds IH]; intros c Hm Hcase.
  - exists []. cbn [for_each flat_map]. rewrite app_nil_r, with_nusquids_same.
    reflexivity.
  - cbn [for_each flat_map].
    rewrite (bind_run _ _ _ _ _ (propagate_distance_plain m st0 Es ff rho L c
                                   Hm Hcase)).
    destruct (IH (with_nusquids (nusquids c ++ propagation ext m st0 L) c)
                Hm Hcase) as [r Hr].
    rewrite (bind_run _ _ _ _ _ Hr). eexists. unfold ret.
    cbn [nusquids with_nusquids]. rewrite <- app_assoc. reflexivity.
Qed.

Lemma nusquids_baseline_initial c E f i st nb d :
  atmospheric c = false ->
  valid_initial ext c f st ->
  match f with Some f => _get_flavor_index f | None => ret None end c = (Ok i, c) ->
  exists st0,
    initial_state_of c [GetNumE ext (nusquids c)] f st nb st0
    /\ _calc_osc_prob_nusquids ext E i st nb (Some d) None c
       = bind (for_each (propagate_distance ext st0 (asarray E)
                           (Z.of_nat <$> seq 0 (num_neutrinos c))
                           (if nb then 1%Z else 0%Z)) (asarray d))
           (fun per_distance =>
              ret (by_energy (length (asarray E)) per_distance)) c.
Proof.
  intros Hatm Hinit Hi. unfold _calc_osc_prob_nusquids.
  assert (Hn : length (Z.of_nat <$> seq 0 (num_neutrinos c)) = num_neutrinos c).
  { rewrite length_fmap, length_seq. reflexivity. }
  destruct Hinit as [(z & -> & Hin & Hlt & ->)|(-> & s & -> & Hs)].
  - rewrite (get_flavor_index_ok z c Hin Hlt) in Hi. injection Hi as <-.
    destruct (pure_flavor_state_ok [GetNumE ext (nusquids c)]
                (if nb then 1%Z else 0%Z) z (num_neutrinos c) Hin Hlt)
      as [st0 Hst0].
    exists st0. split; [exact Hst0|].
    rewrite bind_ret. unfold bind at 1. rewrite states_run.
    rewrite bind_gets, Hatm. cbn [fmap option_fmap option_map].
    rewrite bind_ret, bind_gets. unfold prepare_initial_state.
    rewrite Hn, bind_lift, Hst0. reflexivity.
  - injection Hi as <-. exists s. split; [reflexivity|].
    rewrite bind_ret. unfold bind at 1. rewrite states_run.
    rewrite bind_gets, Hatm. cbn [fmap option_fmap option_map].
    rewrite bind_ret, bind_gets. unfold prepare_initial_state.
    rewrite Hn, bind_assoc, bind_assert.
    rewrite bool_decide_eq_true_2 by exact Hs.
    rewrite bind_ret. reflexivity.
Qed.

Lemma valid_initial_index c f st :
  valid_initial ext c f st ->
  exists i,
    match f with Some f => _get_flavor_index f | None => ret None end c = (Ok i, c).
Proof.
  intros [(z & -> & Hin & Hlt & _)|(-> & _)].
  - exists (Some z). apply get_flavor_index_ok; assumption.
  - exists None. reflexivity.
Qed.

Lemma nusquids_plain_calls c E f st d nb m :
  tool c = nusquids_tool ->
  atmospheric c = false ->
  _matter_settings c !! "matter" = Some (VStr m) ->
  m = "vacuum" \/ m = "constant" ->
  valid_initial ext c f st ->
  exists st0,
    initial_state_of c [GetNumE ext (nusquids c)] f st nb st0
    /\ nusquids (snd (calc_osc_prob ext E f st (Some d) None nb c))
       = nusquids c ++ flat_map (propagation ext m st0) (asarray d).
Proof.
  intros Ht Hatm Hm Hcase Hvalid.
  destruct (valid_initial_index c f st Hvalid) as [i Hi].
  destruct (nusquids_baseline_initial c E f i st nb d Hatm Hvalid Hi)
    as (st0 & Hst0 & Hrun).
  exists st0. split; [exact Hst0|].
  rewrite calc_osc_prob_baseline by exact Hatm.
  rewrite (bind_run _ _ _ _ _ Hi), Ht.
  destruct (for_each_plain m st0 (asarray E)
              (Z.of_nat <$> seq 0 (num_neutrinos c))
              (if nb then 1%Z else 0%Z) (asarray d) c Hm Hcase) as [r Hr].
  rewrite (bind_run _ _ _ _ _ Hr) in Hrun. unfold ret in Hrun.
  rewrite (bind_run _ _ _ _ _ Hrun), finish_state. reflexivity.
Qed.

(** In atmospheric mode the nuSQuIDS backend sets the initial state and
    evolves once, whatever the energies and the cosines. *)
Lemma nusquids_atmospheric_calls c E (z : Z) cz (nb : bool) :
  tool c = nusquids_tool ->
  atmospheric c = true ->
  z ∈ [0; 1; 2]%Z -> (z < Z.of_nat (num_neutrinos c))%Z ->
  exists st0,
    pure_flavor_state [GetNumCos ext (nusquids c); GetNumE ext (nusquids c)]
      (if nb then 1%Z else 0%Z) z (num_neutrinos c) = Ok st0
    /\ nusquids (snd (calc_osc_prob ext E (Some (FlavorInt z)) None None
                        (Some cz) nb c))
       = nusquids c ++ [Set_initial_state st0; EvolveState].
Proof.
  intros Ht Hatm Hin Hlt.
  destruct (pure_flavor_state_ok
              [GetNumCos ext (nusquids c); GetNumE ext (nusquids c)]
              (if nb then 1%Z else 0%Z) z (num_neutrinos c) Hin Hlt)
    as [st0 Hst0].
  exists st0. split; [exact Hst0|].
  rewrite calc_osc_prob_run.
  cbv beta. rewrite (bind_run _ _ _ _ _ (get_flavor_index_ok z c Hin Hlt)).
  rewrite Hatm.
  assert (Hn : length (Z.of_nat <$> seq 0 (num_neutrinos c)) = num_neutrinos c).
  { rewrite length_fmap, length_seq. reflexivity. }
  assert (Hrun : exists t,
            dispatch ext c E (Some z) None None (Some (Array (asarray cz))) nb c
            = (Ok t, with_nusquids
                       (nusquids c ++ [Set_initial_state st0; EvolveState]) c)).
  { unfold dispatch. rewrite Ht. unfold _calc_osc_prob_nusquids.
    rewrite bind_ret. unfold bind at 1. rewrite states_run.
    rewrite bind_gets, Hatm. cbn [fmap option_fmap option_map].
    rewrite bind_ret, bind_gets. unfold prepare_initial_state.
    rewrite Hn, bind_lift, Hst0. unfold nsq_do.
    rewrite !bind_modify, bind_gets. cbn [nusquids with_nusquids].
    rewrite <- app_assoc. eexists. reflexivity. }
  destruct Hrun as [t Hrun].
  rewrite (bind_run _ _ _ _ _ Hrun), finish_state. reflexivity.
Qed.

End NusquidsCalls.

(** X18.  In vacuum and in constant matter the nuSQuIDS backend
    propagates every requested distance from the start: for each distance,
    in the order of the grid, it sets the track of that length (in the
    units of nuSQuIDS), sets the initial state again and evolves; it makes
    no other call.  The initial state is the pure state of the initial
    flavor, or the state the caller gave. *)
Theorem nusquids_propagates_each_distance_from_the_start (ext : Externals)
    (c : OscCalculator) (energy_GeV distance_km : grid)
    (initial_flavor : option flavor_arg) (initial_state : option ndarray)
    (nubar : bool) (matter : string) :
  tool c = nusquids_tool ->
  atmospheric c = false ->
  _matter_settings c !! "matter" = Some (VStr matter) ->
  matter = "vacuum" \/ matter = "constant" ->
  valid_initial ext c initial_flavor initial_state ->
  exists st0,
    initial_state_of c [GetNumE ext (nusquids c)] initial_flavor initial_state
      nubar st0
    /\ nusquids (snd (calc_osc_prob ext energy_GeV initial_flavor initial_state
                        (Some distance_km) None nubar c))
       = nusquids c ++ flat_map (propagation ext matter st0) (asarray distance_km).
Proof. apply nusquids_plain_calls. Qed.

Lemma nusquids_propagates_each_distance_from_the_start_witness :
  exists st0,
    initial_state_of (Example.three "nusquids")
      [GetNumE Example.externals (nusquids (Example.three "nusquids"))]
      (Some (FlavorInt 1)) None false st0
    /\ nusquids (snd (calc_osc_prob Example.externals (Scalar 1)
                        (Some (FlavorInt 1)) None
                        (Some (Array [2; 1]%float)) None false
                        (Example.three "nusquids")))
       = nusquids (Example.three "nusquids")
         ++ flat_map (propagation Example.externals "vacuum" st0)
              (asarray (Array [2; 1]%float)).
Proof.
  apply (nusquids_propagates_each_distance_from_the_start Example.externals
           (Example.three "nusquids") (Scalar 1) (Array [2; 1]%float)
           (Some (FlavorInt 1)) None false "vacuum").
  - vm_compute. reflexivity.
  - vm_compute. reflexivity.
  - vm_compute. reflexivity.
  - left. reflexivity.
  - left. exists 1%Z.
    split; [reflexivity|split; [right; left|split; [|reflexivity]]].
    vm_compute. reflexivity.
Defined.

(** X19.  In atmospheric mode the nuSQuIDS backend sets the initial state
    over its own grid of nodes and evolves once, whatever the energies
    and the cosines of the zenith angle in the call; the matter settings
    are not consulted. *)
Theorem nusquids_atmospheric_evolves_once (ext : Externals)
    (c : OscCalculator) (energy_GeV coszen : grid) (z : Z) (nubar : bool) :
  tool c = nusquids_tool ->
  atmospheric c = true ->
  z ∈ [0; 1; 2]%Z ->
  (z < Z.of_nat (num_neutrinos c))%Z ->
  exists st0,
    pure_flavor_state [GetNumCos ext (nusquids c); GetNumE ext (nusquids c)]
      (if nubar then 1%Z else 0%Z) z (num_neutrinos c) = Ok st0
    /\ nusquids (snd (calc_osc_prob ext energy_GeV (Some (FlavorInt z)) None
                        None (Some coszen) nubar c))
       = nusquids c ++ [Set_initial_state st0; EvolveState].
Proof. apply nusquids_atmospheric_calls. Qed.

Lemma nusquids_atmospheric_evolves_once_witness :
  exists st0,
    pure_flavor_state
      [GetNumCos Example.externals
         (nusquids (Sample.atmospheric_three "nusquids"));
       GetNumE Example.externals
         (nusquids (Sample.atmospheric_three "nusquids"))]
      (if false then 1%Z else 0%Z) 0
      (num_neutrinos (Sample.atmospheric_three "nusquids")) = Ok st0
    /\ nusquids (snd (calc_osc_prob Example.externals (Array [1; 2; 3]%float)
                        (Some (FlavorInt 0)) None None
                        (Some (Array [0.5; 0.25]%float)) false
                        (Sample.atmospheric_three "nusquids")))
       = nusquids (Sample.atmospheric_three "nusquids")
         ++ [Set_initial_state st0; EvolveState].
Proof.
  apply (nusquids_atmospheric_evolves_once Example.externals
           (Sample.atmospheric_three "nusquids") (Array [1; 2; 3]%float)
           (Array [0.5; 0.25]%float) 0 false).
  - vm_compute. reflexivity.
  - vm_compute. reflexivity.
  - left.
  - vm_compute. reflexivity.
Defined.

(** ** The prob3 backend *)

Lemma for_each_cons_ok {A B} (f : A -> M B) x xs c ys c' :
  for_each f (x :: xs) c = (Ok ys, c') ->
  exists y c1, f x c = (Ok y, c1).
Proof.
  cbn [for_each]. intros H. apply bind_ok_inv in H.
  destruct H as (y & c1 & H & _). eauto.
Qed.

Lemma unchanged {A} (m : M A) c r c1 :
  preserves eq m -> m c = (r, c1) -> c1 = c.
Proof. intros Hm H. symmetry. exact (preserved eq m c r c1 Hm H). Qed.

(** A method that only reads leaves the calculator as it was. *)
Ltac reads_only :=
  repeat first
    [ frame_step (@eq_refl OscCalculator) (@eq_trans OscCalculator)
        ltac:(reflexivity)
    | progress cbv beta zeta
    | progress unfold get_mixing_angles, get_deltacp, get_mass_splittings,
        states ].

(** The next step of a method that returned, when the step only reads *)
Ltac returned H x Hm :=
  let c1 := fresh "c" in
  apply bind_ok_inv in H; destruct H as (x & c1 & Hm & H);
  lazymatch type of Hm with
  | ?m ?c0 = (_, _) =>
      assert (c1 = c0) by (eapply (unchanged m c0); [reads_only|exact Hm]);
      subst c1
  end.

(** What the prob3 backend has read when it enters its loops *)
Lemma prob3_loops ext c (E : grid) (i : option Z) (d : option grid)
    (cz : option grid) (nb : bool) t c' :
  _calc_osc_prob_prob3 ext i E d cz nb c = (Ok t, c') ->
  num_neutrinos c = 3%nat
  /\ exists (s12 s13 s23 : float) (dm21 : pyval) (dm32 : float)
            (deltacp matter : pyval) (earth : bool) (density : pyval),
       for_each
         (fun E =>
            dm21 <- lift (as_float dm21) ;;
            deltacp <- lift (as_float deltacp) ;;
            prob3_do (SetMNS s12 s13 s23 dm21 dm32 deltacp E true
                        (if nb then (-1)%Z else 1%Z)) ;;;
            for_each
              (fun i_L =>
                 for_each
                   (fun final_flavor =>
                      initial_flavor_prob3 <- lift (flavor_plus_one i) ;;
                      if match matter with VNone => true | _ => false end then
                        L <- lift (distance_at (asarray <$> d) i_L) ;;
                        h <- gets _propagator ;;
                        ret (GetVacuumProb ext h initial_flavor_prob3
                               (final_flavor + 1)%Z E L)
                      else
                        (if earth then raise (Exception "Not yet implemented")
                         else
                           L <- lift (distance_at (asarray <$> d) i_L) ;;
                           prob3_do (propagateLinear
                                       (if nb then (-1)%Z else 1%Z) L density)) ;;;
                        h <- gets _propagator ;;
                        ret (GetProb ext h initial_flavor_prob3
                               (final_flavor + 1)%Z))
                   [0; 1; 2]%Z)
              (seq 0 match asarray <$> d with
                     | Some d => length d
                     | None => 1%nat
                     end))
         (asarray E) c = (Ok t, c')
       /\ _prob3_settings c !! "matter" = Some matter
       /\ (earth = true <-> matter = VStr "earth").
Proof.
  intros H. unfold _calc_osc_prob_prob3 in H.
  rewrite bind_gets, bind_assert in H.
  destruct (Nat.eqb_spec (num_neutrinos c) 3) as [Hn|]; [|discriminate H].
  split; [exact Hn|].
  returned H angles Ha. returned H angles' Ha'. returned H thetas Ht.
  destruct thetas as [[theta12 theta13] theta23].
  returned H s12 Hs12. returned H s13 Hs13. returned H s23 Hs23.
  returned H deltacp Hd. returned H splittings Hs. returned H splittings' Hs'.
  returned H dms Hdms. destruct dms as [dm21 dm31].
  returned H dm32 Hdm32. returned H ff Hff. returned H st Hst.
  returned H matter Hmatter. returned H medium Hmedium.
  destruct medium as [earth density].
  injection Hff as <-. rewrite Hn in H. cbn [seq fmap list_fmap] in H.
  injection Hst as <-.
  exists s12, s13, s23, dm21, dm32, deltacp, matter, earth, density.
  split; [exact H|]. split.
  - unfold lift, getitem in Hmatter.
    destruct (_prob3_settings c !! "matter"); [|discriminate Hmatter].
    injection Hmatter as ->. reflexivity.
  - assert (Hother : forall b e,
              (assert_ b None ;;;
               d <- lift (getitem (_prob3_settings c) "matter_density_g_per_cm3") ;;
               ret (false, d)) c = (Ok (e, density), c) -> e = false).
    { intros b e Hb. rewrite bind_assert in Hb. destruct b; [|discriminate Hb].
      rewrite bind_lift in Hb.
      cbv beta delta [ret] in Hb. revert Hb.
      destruct (getitem (_prob3_settings c) "matter_density_g_per_cm3");
        [|discriminate].
      intros [= <- _]. reflexivity. }
    unfold ret in Hmedium.
    destruct matter as [|s| | |]; cbn [is_str] in Hmedium.
    2: case_bool_decide as Heq; [subst s|].
    2: { injection Hmedium as <- _. split; reflexivity. }
    2: { apply Hother in Hmedium. subst earth.
         split; [discriminate|]. intros [= ->]. contradiction. }
    1: injection Hmedium as <- _; split; discriminate.
    all: apply Hother in Hmedium; subst earth; split; discriminate.
Qed.

(** The first pass of the loops of a call that returned *)
Lemma prob3_first_pass ext c (E : grid) (i : option Z) (d : option grid)
    (cz : option grid) (nb : bool) t c' :
  _calc_osc_prob_prob3 ext i E d cz nb c = (Ok t, c') ->
  asarray E <> [] ->
  (forall g, d = Some g -> asarray g <> []) ->
  exists matter L,
    _prob3_settings c !! "matter" = Some matter
    /\ matter <> VStr "earth"
    /\ distance_at (asarray <$> d) 0 = Ok L.
Proof.
  intros H HE Hd. apply prob3_loops in H.
  destruct H as (_ & s12 & s13 & s23 & dm21 & dm32 & deltacp & matter & earth
                 & density & H & Hmatter & Hearth).
  destruct (asarray E) as [|E0 Es]; [contradiction|].
  apply for_each_cons_ok in H. destruct H as (y & c1 & H).
  apply bind_ok_inv in H. destruct H as (? & ? & _ & H).
  apply bind_ok_inv in H. destruct H as (? & ? & _ & H).
  apply bind_ok_inv in H. destruct H as (? & ? & _ & H).
  assert (Hdim : exists k, match asarray <$> d with
                           | Some d => length d
                           | None => 1%nat
                           end = S k).
  { destruct d as [g|]; cbn [fmap option_fmap option_map]; [|eauto].
    specialize (Hd g eq_refl). destruct (asarray g); [contradiction|].
    cbn [length]. eauto. }
  destruct Hdim as [k Hk]. rewrite Hk in H. cbn [seq] in H.
  apply for_each_cons_ok in H. destruct H as (? & ? & H).
  apply for_each_cons_ok in H. destruct H as (? & ? & H).
  apply bind_ok_inv in H. destruct H as (? & ? & _ & H).
  exists matter.
  destruct (match matter with VNone => true | _ => false end) eqn:Hvac.
  - rewrite bind_lift in H.
    destruct (distance_at (asarray <$> d) 0) as [L|]; [|discriminate H].
    exists L. split; [exact Hmatter|split; [|reflexivity]].
    intros ->. discriminate Hvac.
  - destruct earth.
    + rewrite bind_raise in H. discriminate H.
    + rewrite bind_assoc, bind_lift in H.
      destruct (distance_at (asarray <$> d) 0) as [L|]; [|discriminate H].
      exists L. split; [exact Hmatter|split; [|reflexivity]].
      intros Heq. apply Hearth in Heq. discriminate Heq.
Qed.

(** A call of [calc_osc_prob] on the prob3 backend that returned went
    through the backend. *)
Lemma prob3_returned ext c E f st d cz nb p c' :
  tool c = prob3_tool ->
  calc_osc_prob ext E f st d cz nb c = (Ok p, c') ->
  right_mode c d cz
  /\ exists i cz' t c1, _calc_osc_prob_prob3 ext i E d cz' nb c = (Ok t, c1).
Proof.
  intros Ht H. rewrite calc_osc_prob_run in H.
  apply bind_ok_inv in H. destruct H as (i & c0 & Hi & H).
  destruct (flavor_index_run c f) as (r & Hr & _).
  rewrite Hr in Hi. injection Hi as -> <-.
  unfold right_mode. destruct (atmospheric c).
  - destruct cz as [g|]; [|discriminate H].
    destruct d as [y|]; [discriminate H|].
    apply bind_ok_inv in H. destruct H as (t & c1 & Hd & _).
    unfold dispatch in Hd. rewrite Ht in Hd. split; [split; eauto|eauto 6].
  - destruct d as [g|]; [|discriminate H].
    destruct cz as [y|]; [discriminate H|].
    apply bind_ok_inv in H. destruct H as (t & c1 & Hd & _).
    unfold dispatch in Hd. rewrite Ht in Hd. split; [split; eauto|eauto 6].
Qed.

(** X20.  The prob3 backend has no atmospheric calculation: on a prob3
    calculator in atmospheric mode every call of [calc_osc_prob] with at
    least one energy raises. *)
Theorem prob3_has_no_atmospheric_calculation (ext : Externals)
    (c : OscCalculator) (energy_GeV : grid)
    (initial_flavor : option flavor_arg) (initial_state : option ndarray)
    (distance_km coszen : option grid) (nubar : bool) :
  tool c = prob3_tool ->
  atmospheric c = true ->
  asarray energy_GeV <> [] ->
  exists e c',
    calc_osc_prob ext energy_GeV initial_flavor initial_state distance_km
      coszen nubar c = (Raise e, c').
Proof.
  intros Ht Hatm HE.
  destruct (calc_osc_prob ext energy_GeV initial_flavor initial_state
              distance_km coszen nubar c) as [[p|e] c'] eqn:Hrun; [|eauto].
  exfalso. apply (prob3_returned _ _ _ _ _ _ _ _ _ _ Ht) in Hrun.
  destruct Hrun as (Hmode & i & cz' & t & c1 & Hrun).
  unfold right_mode in Hmode. rewrite Hatm in Hmode.
  destruct Hmode as [_ ->].
  apply prob3_first_pass in Hrun; [|exact HE|discriminate].
  destruct Hrun as (matter & L & _ & _ & HL). discriminate HL.
Qed.

Lemma prob3_has_no_atmospheric_calculation_witness :
  exists e c',
    calc_osc_prob Example.externals (Scalar 1) (Some (FlavorInt 0)) None None
      (Some (Scalar 0.5)) false (Sample.atmospheric_three "prob3")
    = (Raise e, c').
Proof.
  apply prob3_has_no_atmospheric_calculation.
  - vm_compute. reflexivity.
  - vm_compute. reflexivity.
  - discriminate.
Defined.

(** X21.  The prob3 backend takes the Earth as medium in [set_matter] but
    has no calculation for it: with the Earth as medium, every call of
    [calc_osc_prob] with at least one energy and one distance raises. *)
Theorem prob3_has_no_earth_calculation (ext : Externals)
    (c : OscCalculator) (energy_GeV : grid)
    (initial_flavor : option flavor_arg) (initial_state : option ndarray)
    (distance_km coszen : option grid) (nubar : bool) :
  tool c = prob3_tool ->
  _prob3_settings c !! "matter" = Some (VStr "earth") ->
  asarray energy_GeV <> [] ->
  (forall g, distance_km = Some g -> asarray g <> []) ->
  exists e c',
    calc_osc_prob ext energy_GeV initial_flavor initial_state distance_km
      coszen nubar c = (Raise e, c').
Proof.
  intros Ht Hm HE Hd.
  destruct (calc_osc_prob ext energy_GeV initial_flavor initial_state
              distance_km coszen nubar c) as [[p|e] c'] eqn:Hrun; [|eauto].
  exfalso. apply (prob3_returned _ _ _ _ _ _ _ _ _ _ Ht) in Hrun.
  destruct Hrun as (_ & i & cz' & t & c1 & Hrun).
  apply prob3_first_pass in Hrun; [|exact HE|exact Hd].
  destruct Hrun as (matter & L & Hmatter & Hne & _).
  rewrite Hm in Hmatter. injection Hmatter as <-. contradiction.
Qed.

Lemma prob3_has_no_earth_calculation_witness :
  exists e c',
    calc_osc_prob Example.externals (Scalar 1) (Some (FlavorInt 0)) None
      (Some (Scalar 1)) None false Sample.prob3_earth
    = (Raise e, c').
Proof.
  apply prob3_has_no_earth_calculation.
  - vm_compute. reflexivity.
  - vm_compute. reflexivity.
  - discriminate.
  - intros g [= <-]. discriminate.
Defined.

(** A loop whose body only reads returns and leaves the calculator as it
    was. *)
Lemma for_each_reads {A B} (f : A -> M B) (xs : list A) (c : OscCalculator) :
  (forall x, x ∈ xs -> exists y, f x c = (Ok y, c)) ->
  exists ys, for_each f xs c = (Ok ys, c).
Proof.
  induction xs as [|x xs IH]; intros Hf.
  - exists []. reflexivity.
  - destruct (Hf x) as [y Hy]; [left|].
    destruct IH as [ys Hys]; [intros x' Hx'; apply Hf; right; exact Hx'|].
    exists (y :: ys). cbn [for_each].
    rewrite (bind_run _ _ _ _ _ Hy), (bind_run _ _ _ _ _ Hys). reflexivity.
Qed.

(** A loop whose body makes one call on the propagator *)
Lemma for_each_calls {A B} (f : A -> M B) (call : A -> prob3_call)
    (xs : list A) (c : OscCalculator) :
  (forall x h, exists y,
      f x (with_propagator h c) = (Ok y, with_propagator (h ++ [call x]) c)) ->
  forall h, exists ys,
    for_each f xs (with_propagator h c)
    = (Ok ys, with_propagator (h ++ map call xs) c).
Proof.
  intros Hf. induction xs as [|x xs IH]; intros h.
  - exists []. cbn [for_each map]. rewrite app_nil_r. reflexivity.
  - destruct (Hf x h) as [y Hy]. destruct (IH (h ++ [call x])) as [ys Hys].
    exists (y :: ys). cbn [for_each map].
    rewrite (bind_run _ _ _ _ _ Hy), (bind_run _ _ _ _ _ Hys).
    rewrite <- app_assoc. reflexivity.
Qed.

Lemma with_propagator_same c : with_propagator (_propagator c) c = c.
Proof. destruct c; reflexivity. Qed.

Lemma prob3_vacuum_calls ext c E (z : Z) d (nb : bool)
    theta12 theta13 theta23 deltacp deltam21 deltam31 :
  tool c = prob3_tool ->
  num_neutrinos c = 3%nat ->
  prob3_configured c theta12 theta13 theta23 deltacp deltam21 deltam31 ->
  _prob3_settings c !! "matter" = Some VNone ->
  exists t,
    _calc_osc_prob_prob3 ext (Some z) E (Some d) None nb c
    = (Ok t,
       with_propagator
         (_propagator c
          ++ map (prob3_mns ext theta12 theta13 theta23 deltacp deltam21
                    deltam31 nb) (asarray E)) c).
Proof.
  intros Ht Hn (H12 & H13 & H23 & Hdcp & H21 & H31) Hm.
  unfold _calc_osc_prob_prob3, get_mixing_angles, get_deltacp,
    get_mass_splittings, states.
  repeat first
    [ run_step
    | rewrite Ht | rewrite Hn
    | rewrite (getitem_lookup _ _ _ H12) | rewrite (getitem_lookup _ _ _ H13)
    | rewrite (getitem_lookup _ _ _ H23) | rewrite (getitem_lookup _ _ _ Hdcp)
    | rewrite (getitem_lookup _ _ _ H21) | rewrite (getitem_lookup _ _ _ H31)
    | rewrite (getitem_lookup _ _ _ Hm)
    | progress cbn [Nat.eqb items_of unpack3 unpack2 sin2 as_float py_sub
                    fmap option_fmap option_map] ].
  match goal with
  | |- exists t, for_each ?f _ _ = _ =>
      cut (forall E0 h, exists y,
              f E0 (with_propagator h c)
              = (Ok y, with_propagator
                         (h ++ [prob3_mns ext theta12 theta13 theta23 deltacp
                                  deltam21 deltam31 nb E0]) c))
  end.
  { intros Hf.
    destruct (for_each_calls _ _ (asarray E) c Hf (_propagator c)) as [ys Hys].
    rewrite with_propagator_same in Hys. eauto. }
  intros E0 h. cbv beta. rewrite !bind_lift.
  unfold prob3_do at 1. rewrite bind_modify.
  cbn [_propagator with_propagator].
  change (with_propagator (h ++ _) (with_propagator h c))
    with (with_propagator
            (h ++ [prob3_mns ext theta12 theta13 theta23 deltacp deltam21
                     deltam31 nb E0]) c).
  apply for_each_reads. intros i_L Hi.
  apply for_each_reads. intros ff _.
  rewrite bind_lift. cbn [flavor_plus_one]. rewrite bind_lift.
  assert (Hlt : (i_L < length (asarray d))%nat).
  { apply elem_of_seq in Hi. lia. }
  unfold distance_at. apply lookup_lt_is_Some in Hlt. destruct Hlt as [L ->].
  rewrite bind_gets. eexists. reflexivity.
Qed.

(** X22.  In vacuum the prob3 backend calls the propagator once per
    energy, in the order of the grid, with [SetMNS]: the squared sines of
    the three stored angles, [deltam21], the difference [deltam31 -
    deltam21], the phase, the energy, and the sign of the neutrino type;
    it makes no other call that changes the propagator. *)
Theorem prob3_sets_the_parameters_once_per_energy (ext : Externals)
    (c : OscCalculator) (energy_GeV distance_km : grid) (z : Z)
    (initial_state : option ndarray) (nubar : bool)
    (theta12 theta13 theta23 deltacp deltam21 deltam31 : float) :
  tool c = prob3_tool ->
  atmospheric c = false ->
  num_neutrinos c = 3%nat ->
  prob3_configured c theta12 theta13 theta23 deltacp deltam21 deltam31 ->
  _prob3_settings c !! "matter" = Some VNone ->
  z ∈ [0; 1; 2]%Z ->
  _propagator (snd (calc_osc_prob ext energy_GeV (Some (FlavorInt z))
                      initial_state (Some distance_km) None nubar c))
  = _propagator c
    ++ map (prob3_mns ext theta12 theta13 theta23 deltacp deltam21 deltam31
              nubar) (asarray energy_GeV).
Proof.
  intros Ht Hatm Hn Hcfg Hm Hz.
  rewrite calc_osc_prob_baseline by exact Hatm.
  assert (Hlt : (z < Z.of_nat (num_neutrinos c))%Z).
  { rewrite Hn.
    apply elem_of_cons in Hz as [->|Hz]; [lia|].
    apply elem_of_cons in Hz as [->|Hz]; [lia|].
    apply elem_of_cons in Hz as [->|Hz]; [lia|]. inversion Hz. }
  rewrite (bind_run _ _ _ _ _ (get_flavor_index_ok z c Hz Hlt)), Ht.
  destruct (prob3_vacuum_calls ext c energy_GeV z distance_km nubar _ _ _ _ _ _
              Ht Hn Hcfg Hm) as [t Hrun].
  rewrite (bind_run _ _ _ _ _ Hrun), finish_state. reflexivity.
Qed.

Lemma prob3_sets_the_parameters_once_per_energy_witness :
  _propagator (snd (calc_osc_prob Example.externals (Array [1; 2]%float)
                      (Some (FlavorInt 1)) None (Some (Scalar 3)) None true
                      (Example.three "prob3")))
  = _propagator (Example.three "prob3")
    ++ map (prob3_mns Example.externals 0.5 0.125 0.75 0 0.00006103515625
              0.00244140625 true) (asarray (Array [1; 2]%float)).
Proof.
  apply (prob3_sets_the_parameters_once_per_energy Example.externals
           (Example.three "prob3") (Array [1; 2]%float) (Scalar 3) 1 None true).
  - vm_compute. reflexivity.
  - vm_compute. reflexivity.
  - vm_compute. reflexivity.
  - repeat split; vm_compute; reflexivity.
  - vm_compute. reflexivity.
  - right. left.
Defined.

(** ** The order of the distances in the three backends *)













(** ** The constructor *)

Section Constructor.

Context (ext : Externals).

Lemma init_body_identity angles splittings dcp :
  preserves same_identity (init_body ext angles splittings dcp).
Proof.
  unfold init_body, _init_nusquids, _init_prob3, or_default,
    set_mixing_angles_star, set_mass_splittings_star, nsq_do.
  identity.
  all: first [ apply set_matter_identity | apply set_mixing_angles_identity
             | apply set_mass_splittings_identity
             | apply set_calc_basis_identity ].
Qed.

Lemma keeps_matter_refl c : keeps_matter c c.
Proof. reflexivity. Qed.

Lemma keeps_matter_trans a b c :
  keeps_matter a b -> keeps_matter b c -> keeps_matter a c.
Proof. unfold keeps_matter. congruence. Qed.

Ltac matter_kept :=
  repeat first
    [ frame_step keeps_matter_refl keeps_matter_trans ltac:(reflexivity)
    | progress cbv beta zeta ].

Lemma set_mixing_angles_matter theta12 theta13 theta23 deltacp :
  preserves keeps_matter (set_mixing_angles theta12 theta13 theta23 deltacp).
Proof.
  unfold set_mixing_angles, nsq_do, prob3_set, nsq_float_arg. matter_kept.
Qed.

Lemma set_mass_splittings_matter deltam21 deltam31 :
  preserves keeps_matter (set_mass_splittings ext deltam21 deltam31).
Proof. unfold set_mass_splittings, nsq_do, prob3_set. matter_kept. Qed.

Lemma set_calc_basis_matter basis : preserves keeps_matter (set_calc_basis basis).
Proof. unfold set_calc_basis. matter_kept. Qed.

Lemma tool_init_matter t :
  preserves keeps_matter
    match t with
    | nusquids_tool => _init_nusquids ext 0x1.0c6f7a0b5ed8dp-20
    | deimos_tool => ret tt
    | prob3_tool => _init_prob3 ext
    end.
Proof. unfold _init_nusquids, _init_prob3, nsq_do. matter_kept. Qed.

Lemma tool_init_available t c c' :
  match t with
  | nusquids_tool => _init_nusquids ext 0x1.0c6f7a0b5ed8dp-20
  | deimos_tool => ret tt
  | prob3_tool => _init_prob3 ext
  end c = (Ok tt, c') ->
  tool_available ext t = true.
Proof.
  destruct t; cbn [tool_available]; [| reflexivity |].
  - unfold _init_nusquids. rewrite bind_assert.
    destruct (NUSQUIDS_AVAIL ext); [reflexivity|discriminate].
  - unfold _init_prob3, assert_.
    destruct (PROB3_AVAIL ext); [reflexivity|discriminate].
Qed.

Lemma set_matter_vacuum kw c :
  exists c', set_matter ext (Some "vacuum") kw c = (Ok tt, c')
             /\ _matter_settings c' = {[ "matter" := VStr "vacuum" ]}.
Proof.
  unfold set_matter. rewrite bind_modify, bind_gets.
  change (bool_decide (Some "vacuum" = Some "vacuum")
          || bool_decide (Some "vacuum" = None)) with true.
  cbv iota. cbn [tool with_matter_settings].
  destruct (tool c); eexists; (split; [reflexivity|reflexivity]).
Qed.

Lemma init_body_run angles splittings dcp c c' :
  init_body ext angles splittings dcp c = (Ok tt, c') ->
  tool_available ext (tool c) = true
  /\ same_identity c c'
  /\ _matter_settings c' = {[ "matter" := VStr "vacuum" ]}.
Proof.
  intros H.
  assert (Hid := preserved _ _ _ _ _ (init_body_identity angles splittings dcp) H).
  split; [|split; [exact Hid|]].
  - unfold init_body in H. rewrite bind_gets in H.
    apply bind_ok_inv in H. destruct H as ([] & c1 & H & _).
    apply (tool_init_available _ _ _ H).
  - unfold init_body in H. rewrite bind_gets in H.
    apply bind_ok_inv in H. destruct H as ([] & c1 & _ & H).
    destruct (set_matter_vacuum ∅ c1) as (c2 & Hset & Hmatter).
    rewrite (bind_run _ _ _ _ _ Hset) in H.
    rewrite <- Hmatter.
    refine (preserved keeps_matter _ _ _ _ _ H).
    unfold or_default, set_mixing_angles_star, set_mass_splittings_star.
    matter_kept.
    all: first [ apply set_mixing_angles_matter
               | apply set_mass_splittings_matter
               | apply set_calc_basis_matter ].
Qed.

Lemma init_run name atm fl angles splittings dcp variant c :
  __init__ ext name atm fl angles splittings dcp variant = Ok c ->
  NoDup (default (FLAVORS ext) fl)
  /\ (forall f, f ∈ default (FLAVORS ext) fl -> f ∈ FLAVORS ext)
  /\ (length (default (FLAVORS ext) fl) = 2
      \/ length (default (FLAVORS ext) fl) = 3)%nat
  /\ exists t,
       parse_tool name = Some t
       /\ init_body ext angles splittings dcp
            (blank_calculator t atm (default (FLAVORS ext) fl)
               (variant_alias variant))
          = (Ok tt, c).
Proof.
  unfold __init__. intros H. cbv zeta in H.
  set (flavors := default (FLAVORS ext) fl) in *.
  destruct (bool_decide (NoDup flavors)) eqn:Hnodup; [|discriminate H].
  cbn [negb] in H.
  destruct (forallb (fun f => bool_decide (f ∈ FLAVORS ext)) flavors)
    eqn:Hknown; [|discriminate H].
  cbn [negb] in H.
  destruct (bool_decide (length flavors ∈ [2; 3]%nat)) eqn:Hlen;
    [|discriminate H].
  cbn [negb] in H.
  destruct (parse_tool name) as [t|]; [|discriminate H].
  destruct (init_body ext angles splittings dcp _) as [[[]|e] c1] eqn:Hbody;
    [|discriminate H].
  injection H as ->.
  split; [apply bool_decide_eq_true in Hnodup; exact Hnodup|].
  split.
  { intros f Hf. rewrite forallb_forall in Hknown.
    apply list_elem_of_In in Hf. apply Hknown in Hf.
    apply bool_decide_eq_true in Hf. exact Hf. }
  split.
  { apply bool_decide_eq_true in Hlen.
    apply elem_of_cons in Hlen as [->|Hlen]; [left; reflexivity|].
    apply elem_of_cons in Hlen as [->|Hlen]; [right; reflexivity|].
    inversion Hlen. }
  exists t. split; [reflexivity|exact Hbody].
Qed.

End Constructor.

(** X23.  A calculator that the constructor returns is well formed: its
    backend is the one named and is available, its flavors are the ones
    given (the default ones if none were given), they are distinct and
    known, there are two or three of them and as many as
    [num_neutrinos], and its medium is the vacuum. *)
Theorem constructed_calculator_is_well_formed (ext : Externals)
    (tool_name : string) (atm : bool) (flavor_list : option (list string))
    (mixing_angles_rad mass_splittings_eV2 : option (list float))
    (deltacp_rad : option float) (nusquids_variant : option string)
    (c : OscCalculator) :
  __init__ ext tool_name atm flavor_list mixing_angles_rad mass_splittings_eV2
    deltacp_rad nusquids_variant = Ok c ->
  parse_tool tool_name = Some (tool c)
  /\ tool_available ext (tool c) = true
  /\ atmospheric c = atm
  /\ flavors c = default (FLAVORS ext) flavor_list
  /\ NoDup (flavors c)
  /\ (forall f, f ∈ flavors c -> f ∈ FLAVORS ext)
  /\ num_neutrinos c = length (flavors c)
  /\ (num_neutrinos c = 2 \/ num_neutrinos c = 3)%nat
  /\ _matter_settings c = {[ "matter" := VStr "vacuum" ]}.
Proof.
  intros H. apply init_run in H.
  destruct H as (Hnodup & Hknown & Hlen & t & Hparse & Hbody).
  apply init_body_run in Hbody.
  destruct Hbody as (Havail & (Ht & Hatm & Hfl & Hn) & Hmatter).
  cbn [tool atmospheric flavors num_neutrinos blank_calculator] in *.
  rewrite Ht, Hatm, Hfl, Hn.
  repeat split; assumption.
Qed.

Lemma constructed_calculator_is_well_formed_witness :
  parse_tool "prob3" = Some (tool (Example.two "prob3"))
  /\ tool_available Example.externals (tool (Example.two "prob3")) = true
  /\ atmospheric (Example.two "prob3") = false
  /\ flavors (Example.two "prob3")
     = default (FLAVORS Example.externals) (Some ["e"; "mu"])
  /\ NoDup (flavors (Example.two "prob3"))
  /\ (forall f, f ∈ flavors (Example.two "prob3")
                -> f ∈ FLAVORS Example.externals)
  /\ num_neutrinos (Example.two "prob3") = length (flavors (Example.two "prob3"))
  /\ (num_neutrinos (Example.two "prob3") = 2
      \/ num_neutrinos (Example.two "prob3") = 3)%nat
  /\ _matter_settings (Example.two "prob3") = {[ "matter" := VStr "vacuum" ]}.
Proof.
  apply (constructed_calculator_is_well_formed Example.externals "prob3" false
           (Some ["e"; "mu"]) (Some [0.5%float])
           (Some [0.00006103515625%float]) (Some 0%float) None).
  vm_compute. reflexivity.
Defined.

Section Defaults.

Context (ext : Externals).

(** The start of the constructor, up to the defaults of the oscillation
    parameters *)
Lemma init_body_start t atm fl angles splittings dcp :
  tool_available ext t = true ->
  exists c1,
    num_neutrinos c1 = length fl
    /\ init_body ext angles splittings dcp (blank_calculator t atm fl None)
       = bind (or_default splittings (length fl) (MASS_SPLITTINGS_eV2 ext)
                 "mass_splittings_eV2")
           (fun mass_splittings_eV2 =>
              mixing_angles_rad <- or_default angles (length fl)
                                     (MIXING_ANGLES_rad ext) "mixing_angles_rad" ;;
              deltacp_rad <- or_default dcp (length fl) (DELTACP_rad ext)
                               "deltacp_rad" ;;
              set_mixing_angles_star mixing_angles_rad deltacp_rad ;;;
              set_mass_splittings_star ext mass_splittings_eV2 ;;;
              set_calc_basis (VStr "nxn")) c1.
Proof.
  intros Havail. unfold init_body. rewrite bind_gets.
  cbn [tool blank_calculator].
  assert (Hinit : exists c0,
            match t with
            | nusquids_tool => _init_nusquids ext 0x1.0c6f7a0b5ed8dp-20
            | deimos_tool => ret tt
            | prob3_tool => _init_prob3 ext
            end (blank_calculator t atm fl None) = (Ok tt, c0)
            /\ num_neutrinos c0 = length fl).
  { destruct t; cbn [tool_available] in Havail.
    - unfold _init_nusquids, nsq_do. rewrite bind_assert, Havail.
      rewrite bind_gets. cbn [_nusquids_variant blank_calculator].
      rewrite bind_ret, !bind_modify. eexists. split; reflexivity.
    - eexists. split; reflexivity.
    - unfold _init_prob3, assert_. rewrite Havail.
      eexists. split; reflexivity. }
  destruct Hinit as (c0 & Hinit & Hn0).
  rewrite (bind_run _ _ _ _ _ Hinit).
  destruct (set_matter_vacuum ext ∅ c0) as (c1 & Hset & _).
  rewrite (bind_run _ _ _ _ _ Hset).
  exists c1. split.
  - pose proof (set_matter_identity ext (Some "vacuum") ∅ c0) as Hid.
    rewrite Hset in Hid. destruct Hid as (_ & _ & _ & Hn). cbn [snd] in Hn.
    congruence.
  - rewrite bind_gets.
    pose proof (set_matter_identity ext (Some "vacuum") ∅ c0) as Hid.
    rewrite Hset in Hid. destruct Hid as (_ & _ & _ & Hn). cbn [snd] in Hn.
    rewrite Hn, Hn0. reflexivity.
Qed.

Lemma init_checks name t atm fl angles splittings dcp :
  parse_tool name = Some t ->
  NoDup fl ->
  (forall f, f ∈ fl -> f ∈ FLAVORS ext) ->
  (length fl = 2 \/ length fl = 3)%nat ->
  __init__ ext name atm (Some fl) angles splittings dcp None
  = match init_body ext angles splittings dcp (blank_calculator t atm fl None)
    with
    | (Ok _, self) => Ok self
    | (Raise e, _) => Raise e
    end.
Proof.
  intros Hparse Hnodup Hknown Hlen. unfold __init__. cbn [default].
  rewrite (bool_decide_eq_true_2 _ Hnodup). cbn [negb].
  replace (forallb (fun f => bool_decide (f ∈ FLAVORS ext)) fl) with true.
  2: { symmetry. apply forallb_forall. intros f Hf.
       apply bool_decide_eq_true_2, Hknown, list_elem_of_In, Hf. }
  cbn [negb].
  rewrite bool_decide_eq_true_2.
  2: { unfold id. destruct Hlen as [-> | ->]; [left|right; left]. }
  cbn [negb]. rewrite Hparse. reflexivity.
Qed.

End Defaults.

(** X24.  Only the three-flavor system has default oscillation
    parameters.  The constructor of a two-flavor calculator raises when
    the mass splittings, the mixing angles or the CP phase are not given;
    the mass splittings are looked at first, then the mixing angles, then
    the phase. *)
Theorem two_flavor_calculator_needs_its_parameters (ext : Externals)
    (tool_name : string) (t : tool_t) (atm : bool) (flavor_list : list string)
    (mixing_angles_rad mass_splittings_eV2 : option (list float))
    (deltacp_rad : option float) :
  parse_tool tool_name = Some t ->
  tool_available ext t = true ->
  NoDup flavor_list ->
  (forall f, f ∈ flavor_list -> f ∈ FLAVORS ext) ->
  length flavor_list = 2%nat ->
  let built := __init__ ext tool_name atm (Some flavor_list) mixing_angles_rad
                 mass_splittings_eV2 deltacp_rad None in
  match mass_splittings_eV2, mixing_angles_rad, deltacp_rad with
  | None, _, _ =>
      built = Raise (Exception "Must specify 'mass_splittings_eV2' when not in 3 flavor mode")
  | Some _, None, _ =>
      built = Raise (Exception "Must specify 'mixing_angles_rad' when not in 3 flavor mode")
  | Some _, Some _, None =>
      built = Raise (Exception "Must specify 'deltacp_rad' when not in 3 flavor mode")
  | Some _, Some _, Some _ => True
  end.
Proof.
  intros Hparse Havail Hnodup Hknown Hlen built. subst built.
  rewrite (init_checks ext tool_name t) by (auto; left; exact Hlen).
  destruct (init_body_start ext t atm flavor_list mixing_angles_rad
              mass_splittings_eV2 deltacp_rad Havail) as (c1 & _ & ->).
  rewrite Hlen. unfold or_default.
  destruct mass_splittings_eV2 as [s|]; [|reflexivity].
  rewrite bind_ret.
  destruct mixing_angles_rad as [a|]; [|reflexivity].
  rewrite bind_ret.
  destruct deltacp_rad as [d|]; [exact I|reflexivity].
Qed.

Lemma two_flavor_calculator_needs_its_parameters_witness :
  __init__ Example.externals "nusquids" false (Some ["e"; "mu"])
    (Some [0.5%float]) None (Some 0%float) None
  = Raise (Exception "Must specify 'mass_splittings_eV2' when not in 3 flavor mode").
Proof.
  apply (two_flavor_calculator_needs_its_parameters Example.externals
           "nusquids" nusquids_tool false ["e"; "mu"] (Some [0.5%float]) None
           (Some 0%float)).
  - reflexivity.
  - reflexivity.
  - apply (bool_decide_eq_true_1 (NoDup ["e"; "mu"])). vm_compute. reflexivity.
  - intros f Hf. apply elem_of_cons in Hf as [->|Hf]; [left|].
    apply elem_of_cons in Hf as [->|Hf]; [right; left|]. inversion Hf.
  - reflexivity.
Defined.

(** ** Labels *)

Lemma list_getitem_nonneg {A} (l : list A) (i : Z) :
  (0 <= i < Z.of_nat (length l))%Z ->
  exists x, list_getitem l i = Ok x /\ l !! Z.to_nat i = Some x.
Proof.
  intros Hi. unfold list_getitem.
  replace (i <? 0)%Z with false by (symmetry; apply Z.ltb_ge; lia).
  cbv zeta. replace (i <? 0)%Z with false by (symmetry; apply Z.ltb_ge; lia).
  destruct (lookup_lt_is_Some_2 l (Z.to_nat i)) as [x Hx]; [lia|].
  rewrite Hx. eauto.
Qed.

Lemma list_getitem_negative {A} (l : list A) (i : Z) :
  (- Z.of_nat (length l) <= i < 0)%Z ->
  list_getitem l i = list_getitem l (i + Z.of_nat (length l)).
Proof.
  intros Hi. unfold list_getitem.
  assert (H1 : (i <? 0)%Z = true) by (apply Z.ltb_lt; lia).
  assert (H2 : (i + Z.of_nat (length l) <? 0)%Z = false)
    by (apply Z.ltb_ge; lia).
  rewrite H1. cbv zeta iota. rewrite H2. cbv iota. rewrite ?H2. reflexivity.
Qed.

Lemma list_getitem_below {A} (l : list A) (i : Z) :
  (i < - Z.of_nat (length l))%Z ->
  list_getitem l i = Raise (IndexError "list index out of range").
Proof.
  intros Hi. unfold list_getitem.
  replace (i <? 0)%Z with true by (symmetry; apply Z.ltb_lt; lia).
  cbv zeta.
  replace (i + Z.of_nat (length l) <? 0)%Z with true
    by (symmetry; apply Z.ltb_lt; lia).
  reflexivity.
Qed.

(** X25.  The index of [get_flavor_tex] is checked from above only, and
    it is used as a Python index: an index at or above the number of
    flavors raises an [AssertionError]; a negative index down to minus the
    number of flavors reads the flavors from the end, so that it gives
    the label of the index plus the number of flavors; a lower index
    raises an [IndexError]; an index of the calculator gives the label of
    its flavor. *)
Theorem get_flavor_tex_index (c : OscCalculator) (i : Z) :
  num_neutrinos c = length (flavors c) ->
  (forall f, f ∈ flavors c -> f ∈ ["e"; "mu"; "tau"]) ->
  let n := Z.of_nat (num_neutrinos c) in
  ((n <= i)%Z -> get_flavor_tex i c = (Raise (AssertionError None), c))
  /\ ((0 <= i < n)%Z ->
      exists f, flavors c !! Z.to_nat i = Some f
                /\ get_flavor_tex i c
                   = (Ok (if bool_decide (f = "e") then "e"
                          else if bool_decide (f = "mu") then "\mu"
                          else "\tau"), c))
  /\ ((- n <= i < 0)%Z -> get_flavor_tex i c = get_flavor_tex (i + n) c)
  /\ ((i < - n)%Z ->
      get_flavor_tex i c = (Raise (IndexError "list index out of range"), c)).
Proof.
  intros Hn Hknown n. subst n. rewrite Hn.
  unfold get_flavor_tex. rewrite !bind_gets, !bind_assert, Hn.
  repeat split.
  - intros Hi. replace (i <? _)%Z with false
      by (symmetry; apply Z.ltb_ge; lia).
    reflexivity.
  - intros Hi. replace (i <? _)%Z with true
      by (symmetry; apply Z.ltb_lt; lia).
    rewrite bind_gets, bind_lift.
    destruct (list_getitem_nonneg (flavors c) i Hi) as (f & -> & Hf).
    exists f. split; [exact Hf|].
    assert (Hin : f ∈ ["e"; "mu"; "tau"]).
    { apply Hknown. eapply list_elem_of_lookup_2. exact Hf. }
    apply elem_of_cons in Hin as [->|Hin]; [reflexivity|].
    apply elem_of_cons in Hin as [->|Hin]; [reflexivity|].
    apply elem_of_cons in Hin as [->|Hin]; [reflexivity|]. inversion Hin.
  - intros Hi.
    replace (i <? _)%Z with true by (symmetry; apply Z.ltb_lt; lia).
    replace (i + _ <? _)%Z with true by (symmetry; apply Z.ltb_lt; lia).
    rewrite !bind_gets, !bind_lift.
    rewrite (list_getitem_negative (flavors c) i Hi). reflexivity.
  - intros Hi.
    replace (i <? _)%Z with true by (symmetry; apply Z.ltb_lt; lia).
    rewrite bind_gets, bind_lift, (list_getitem_below (flavors c) i Hi).
    reflexivity.
Qed.

Lemma get_flavor_tex_index_witness :
  get_flavor_tex (-1) (Example.three "deimos")
  = get_flavor_tex (-1 + Z.of_nat (num_neutrinos (Example.three "deimos")))
      (Example.three "deimos").
Proof.
  refine (proj1 (proj2 (proj2 (get_flavor_tex_index (Example.three "deimos")
                                 (-1) _ _))) _).
  - vm_compute. reflexivity.
  - intros f Hf. vm_compute in Hf. exact Hf.
  - vm_compute. split; [discriminate|reflexivity].
Defined.

(** ** The damping coefficients of the quantum-gravity scenarios *)

(** X26. [calc_qg_damping_coefficient] looks up the quantum-gravity scale
    before anything else: without the keyword [E_qg_eV] it raises the
    [KeyError] of that key whatever the model; with the scale given as
    [None], or with no model, the assertions fail; and with a scale and a
    model name that is none of the three known ones it raises the exception
    "Unknown model : <name>", whatever the other keywords are.
    [calc_coherence_length] fails in the same way in each of these cases,
    and returns one over the coefficient when there is one. *)
Theorem damping_coefficient_checks_scale_then_model
    (GeV_to_eV : float) (np_power : float -> float -> float)
    (qg_model : option string) (E dm2 theta : float)
    (qg_params : gmap string (option float)) :
  let alpha :=
    calc_qg_damping_coefficient GeV_to_eV np_power qg_model E dm2 theta
      qg_params in
  let length :=
    calc_coherence_length GeV_to_eV np_power qg_model E dm2 theta qg_params in
  match qg_params !! "E_qg_eV", qg_model with
  | None, _ => alpha = Raise (KeyError "E_qg_eV")
  | Some None, _ | Some (Some _), None => alpha = Raise (AssertionError None)
  | Some (Some _), Some name =>
      name ∉ ["minimal_length_fluctuations"; "metric_fluctuations";
              "nu_vbh_interactions"] ->
      alpha = Raise (Exception ("Unknown model : " ++ name))
  end /\
  match alpha with
  | Ok a => length = Ok (1 / a)%float
  | Raise e => length = Raise e
  end.
Proof.
  cbv zeta. split.
  - unfold calc_qg_damping_coefficient.
    destruct (qg_params !! "E_qg_eV") as [[x|]|]; [|reflexivity..].
    destruct qg_model as [name|]; [|reflexivity].
    intros Hname.
    rewrite bool_decide_eq_false_2
      by (intros Hin; apply Hname; revert Hin; rewrite !elem_of_cons; tauto).
    rewrite bool_decide_eq_false_2
      by (intros ->; apply Hname; rewrite !elem_of_cons; tauto).
    reflexivity.
  - unfold calc_coherence_length.
    destruct (calc_qg_damping_coefficient _ _ _ _ _ _ _); reflexivity.
Qed.

Lemma damping_coefficient_checks_scale_then_model_witness :
  calc_qg_damping_coefficient 1000000000%float (fun x _ => x) (Some "foam")
    1 0 0 (<["E_qg_eV" := Some 2%float]> ∅)
  = Raise (Exception "Unknown model : foam").
Proof.
  pose proof (proj1 (damping_coefficient_checks_scale_then_model
                       1000000000%float (fun x _ => x) (Some "foam") 1 0 0
                       (<["E_qg_eV" := Some 2%float]> ∅))) as H.
  rewrite lookup_insert_eq in H. apply H.
  rewrite !elem_of_cons, elem_of_nil. intros [E|[E|[E|[]]]]; discriminate E.
Defined.
